(** * A structured-logging facade over zap: level registry and logger handles

    Shallow embedding of package [logger]: the per-component level registry
    ([sharedConfig]), the [ZapLogger] and [LogRLogger] handles with their
    derivation operations, and the two process-wide singletons.

    Go pointers are indices into typed stores held by [State]; a nil or
    otherwise invalid pointer makes the dereferencing operation panic, which
    the [Go] monad renders as [None]. *)

From Stdlib Require Import ZArith String Ascii List Lia.
From stdpp Require Import base option list strings gmap.

Local Open Scope Z_scope.
Local Open Scope string_scope.
Local Open Scope list_scope.

(** ** Go's [strings] package, for a one-character separator *)

Module strings.

(** [strings.Split(s, sep)]: the substrings between the separators; the
    result is never empty, and [Split("", sep)] is [[""]]. *)
Fixpoint Split (s : string) (sep : ascii) : list string :=
  match s with
  | EmptyString => [""]
  | String c r =>
      if Ascii.eqb c sep then "" :: Split r sep
      else match Split r sep with
           | [] => [String c ""]
           | p :: ps => String c p :: ps
           end
  end.

(** [strings.Join(elems, sep)]. *)
Fixpoint Join (elems : list string) (sep : string) : string :=
  match elems with
  | [] => ""
  | [x] => x
  | x :: rest => x +:+ sep +:+ Join rest sep
  end.

End strings.

(** ** Go's integers

    [int] and [int64] are 64 bits wide; arithmetic wraps around. *)

Definition wrap64 (z : Z) : Z := (z + 2 ^ 63) mod 2 ^ 64 - 2 ^ 63.

Definition int_add (a b : Z) : Z := wrap64 (a + b).

(** ** [time] *)

Module time.

(** [time.Duration] is an int64 count of nanoseconds. *)
Definition Second : Z := 1000000000.

(** [Duration(n) * d]. *)
Definition mul (a b : Z) : Z := wrap64 (a * b).

End time.

(** ** Loosely typed values ([interface{}]) and errors *)

Inductive Any : Type :=
| AString (s : string)
| AInt (n : Z)
| ABool (b : bool)
| AError (e : string).

(** A Go [error] value; [None] is nil. *)
Definition error : Type := option string.

(** ** [zapcore] *)

Module zapcore.

(** [zapcore.Level] is an int8; the named levels. *)
Definition DebugLevel : Z := -1.
Definition InfoLevel : Z := 0.
Definition WarnLevel : Z := 1.
Definition ErrorLevel : Z := 2.

(** Cores: the configured output core, possibly wrapped by samplers
    ([zapcore.NewSamplerWithOptions(core, tick, first, thereafter)]). *)
Inductive Core : Type :=
| ioCore (encoding : string) (fields : list Any)
| sampler (inner : Core) (tick : Z) (first thereafter : Z).

(** [core.With(fields)]: the fields reach the output core. *)
Fixpoint With (c : Core) (fs : list Any) : Core :=
  match c with
  | ioCore enc fields => ioCore enc (fields ++ fs)
  | sampler inner tick first thereafter =>
      sampler (With inner fs) tick first thereafter
  end.

(** The fields bound to a core. *)
Fixpoint bound (c : Core) : list Any :=
  match c with
  | ioCore _ fields => fields
  | sampler inner _ _ _ => bound inner
  end.

End zapcore.

(** ** [zap]: loggers as values, options, build configuration *)

Module zap.

(** The state of a [*zap.Logger]; every derivation clones it.  [callerSkip]
    is a Go [int]. *)
Record Logger : Type := mkLogger {
  core : zapcore.Core;
  name : string;
  callerSkip : Z
}.

(** The options the package passes to [WithOptions]. *)
Inductive Option : Type :=
| AddCallerSkip (skip : Z)
| WrapCore_sampler (tick : Z) (first thereafter : Z).

Definition apply (o : Option) (log : Logger) : Logger :=
  match o with
  | AddCallerSkip skip =>
      mkLogger (core log) (name log) (int_add (callerSkip log) skip)
  | WrapCore_sampler tick first thereafter =>
      mkLogger (zapcore.sampler (core log) tick first thereafter)
               (name log) (callerSkip log)
  end.

(** [log.Named(s)]: segments are joined by a period; the empty name
    changes nothing. *)
Definition Named (log : Logger) (s : string) : Logger :=
  if decide (s = "") then log
  else if decide (name log = "") then mkLogger (core log) s (callerSkip log)
  else mkLogger (core log) (strings.Join [name log; s] ".") (callerSkip log).

Definition With (log : Logger) (fs : list Any) : Logger :=
  mkLogger (zapcore.With (core log) fs) (name log) (callerSkip log).

(** [log.WithOptions(opts...)]: the options are applied to a clone, in
    order. *)
Definition WithOptions (log : Logger) (opts : list Option) : Logger :=
  fold_left (fun l o => apply o l) opts log.

Inductive EncoderConfig : Type :=
| DevelopmentEncoderConfig
| ProductionEncoderConfig (capitalColorLevel : bool).

(** [zap.Config], the fields [NewZapLogger] sets; [Level] is an
    [AtomicLevel], a pointer to a level cell. *)
Record Config : Type := mkConfig {
  Level : nat;
  Development : bool;
  Encoding : string;
  EncoderConfig_ : EncoderConfig;
  OutputPaths : list string;
  ErrorOutputPaths : list string
}.

End zap.

(** ** What the package takes from outside

    [UnmarshalText] is [zapcore.Level.UnmarshalText]: the level a text names,
    or [None] where it reports an error.  [Build] is [zap.Config.Build]: a
    logger or an error.  [rangeOrder] is the order in which a [range] loop
    visits a map, which Go leaves unspecified. *)

Class Environment : Type := {
  UnmarshalText : string -> option Z;
  Build : zap.Config -> string + zap.Logger;
  rangeOrder : gmap string nat -> list (string * nat);
  rangeOrder_perm : forall m, rangeOrder m ≡ₚ map_to_list m
}.

Module Config.
(** Modelled from the spec: the [Config] struct, whose declaration is not
    among the sources; the fields are the ones the package reads (encoding
    flag, default level, component levels, sampling switch and sampling
    parameters). *)
Record t : Type := mk {
  JSON : bool;
  Level : string;
  ComponentLevels : gmap string string;
  Sample : bool;
  SampleInterval : Z;
  ItemSampleSeconds : Z;
  ItemSampleInitial : Z;
  ItemSampleInterval : Z
}.
End Config.

(** ** [logr]: loggers are values; a nil sink discards

    A sink is an interface in logr; here it is one that records its name,
    its values and its call depth, and is enabled up to a verbosity. *)

Module logr.

Record LogSink : Type := mkSink {
  sinkName : string;
  sinkValues : list Any;
  sinkDepth : Z;
  verbosity : Z
}.

Record Logger : Type := mkLogger {
  sink : option LogSink;
  level : Z
}.

(** [logr.Discard()]. *)
Definition Discard : Logger := mkLogger None 0.

Definition GetSink (l : Logger) : option LogSink := sink l.

Definition Enabled (s : LogSink) (lvl : Z) : bool := bool_decide (lvl <= verbosity s).

Definition V (l : Logger) (lvl : Z) : Logger :=
  match sink l with
  | None => l
  | Some _ => mkLogger (sink l) (int_add (level l) (if decide (lvl < 0) then 0 else lvl))
  end.

Definition WithValues (l : Logger) (kvs : list Any) : Logger :=
  match sink l with
  | None => l
  | Some s =>
      mkLogger (Some (mkSink (sinkName s) (sinkValues s ++ kvs) (sinkDepth s) (verbosity s)))
               (level l)
  end.

Definition WithName (l : Logger) (n : string) : Logger :=
  match sink l with
  | None => l
  | Some s =>
      let n' := if decide (sinkName s = "") then n else sinkName s +:+ "." +:+ n in
      mkLogger (Some (mkSink n' (sinkValues s) (sinkDepth s) (verbosity s))) (level l)
  end.

Definition WithCallDepth (l : Logger) (depth : Z) : Logger :=
  match sink l with
  | None => l
  | Some s =>
      mkLogger (Some (mkSink (sinkName s) (sinkValues s)
                             (int_add (sinkDepth s) depth) (verbosity s)))
               (level l)
  end.

End logr.

(** ** The package's own data *)

(** [type LogRLogger logr.Logger]. *)
Definition LogRLogger : Type := logr.Logger.

(** The [Logger] interface has two implementations: [LogRLogger], a value,
    and [*ZapLogger], a pointer. *)
Inductive Logger : Type :=
| LogR (l : LogRLogger)
| Zap (l : nat).

Module sharedConfig.
(** [level] and the values of [componentLevels] are [zap.AtomicLevel]s,
    pointers to level cells.  The mutex [lc] has no content in a
    sequential run. *)
Record t : Type := mk {
  level : nat;
  componentLevels : gmap string nat;
  config : Config.t
}.
End sharedConfig.

Module ZapLogger.
(** [zap] and [unsampled] are [*zap.SugaredLogger], [sharedConfig] is a
    [*sharedConfig], [level] a [zap.AtomicLevel]. *)
Record t : Type := mk {
  zap : nat;
  unsampled : nat;
  component : string;
  sharedConfig : nat;
  level : nat;
  SampleDuration : Z;
  SampleInitial : Z;
  SampleInterval : Z
}.
End ZapLogger.

(** A call that reached a backend: on a sugared zap logger (the pointer, the
    logger's state at the call, the level of the method, its arguments), or
    on a logr sink. *)
Inductive Entry : Type :=
| ZapWrite (s : nat) (log : zap.Logger) (lvl : Z) (msg : string) (keysAndValues : list Any)
| LogrInfo (s : logr.LogSink) (lvl : Z) (msg : string) (keysAndValues : list Any)
| LogrError (s : logr.LogSink) (err : error) (msg : string) (keysAndValues : list Any).

(** ** Program state *)

Record State : Type := mkState {
  sugars : list zap.Logger;          (* the [zap.SugaredLogger] objects *)
  atomics : list Z;                  (* the [zap.AtomicLevel] cells *)
  shareds : list sharedConfig.t;     (* the [sharedConfig] objects *)
  zaploggers : list ZapLogger.t;     (* the [ZapLogger] objects *)
  defaultLogger : Logger;
  pkgLogger : Logger;
  written : list Entry               (* backend calls, oldest first *)
}.

Definition set_sugars (f : list zap.Logger -> list zap.Logger) (st : State) : State :=
  mkState (f (sugars st)) (atomics st) (shareds st) (zaploggers st)
          (defaultLogger st) (pkgLogger st) (written st).
Definition set_atomics (f : list Z -> list Z) (st : State) : State :=
  mkState (sugars st) (f (atomics st)) (shareds st) (zaploggers st)
          (defaultLogger st) (pkgLogger st) (written st).
Definition set_shareds (f : list sharedConfig.t -> list sharedConfig.t) (st : State) : State :=
  mkState (sugars st) (atomics st) (f (shareds st)) (zaploggers st)
          (defaultLogger st) (pkgLogger st) (written st).
Definition set_zaploggers (f : list ZapLogger.t -> list ZapLogger.t) (st : State) : State :=
  mkState (sugars st) (atomics st) (shareds st) (f (zaploggers st))
          (defaultLogger st) (pkgLogger st) (written st).
Definition set_defaultLogger (l : Logger) (st : State) : State :=
  mkState (sugars st) (atomics st) (shareds st) (zaploggers st)
          l (pkgLogger st) (written st).
Definition set_pkgLogger (l : Logger) (st : State) : State :=
  mkState (sugars st) (atomics st) (shareds st) (zaploggers st)
          (defaultLogger st) l (written st).
Definition set_written (f : list Entry -> list Entry) (st : State) : State :=
  mkState (sugars st) (atomics st) (shareds st) (zaploggers st)
          (defaultLogger st) (pkgLogger st) (f (written st)).

(** [discardLogger], and the state in which the package starts: both
    singletons are [LogRLogger(discardLogger)]. *)
Definition discardLogger : logr.Logger := logr.Discard.

Definition initial : State :=
  mkState [] [] [] [] (LogR discardLogger) (LogR discardLogger) [].

(** ** Computations: state passing, [None] for a panic *)

Definition Go (A : Type) : Type := State -> option (A * State).

Definition ret {A} (a : A) : Go A := fun st => Some (a, st).
Definition bind {A B} (m : Go A) (k : A -> Go B) : Go B :=
  fun st => match m st with
            | Some (a, st') => k a st'
            | None => None
            end.
Definition panic {A} : Go A := fun _ => None.
Definition gets {A} (f : State -> A) : Go A := fun st => Some (f st, st).
Definition modify (f : State -> State) : Go unit := fun st => Some (tt, f st).

Notation "'let*' x ':=' m 'in' k" := (bind m (fun x => k))
  (at level 10, x pattern, m at level 100, k at level 200).
Notation "m ';;' k" := (bind m (fun _ => k))
  (at level 100, k at level 200, right associativity).

(** Pointers: nil is 0, and pointer [S i] is slot [i] of its store.
    Dereferencing nil panics. *)
Definition nil_ptr : nat := 0%nat.

Definition slot {A} (store : list A) (p : nat) : option A :=
  match p with
  | O => None
  | S i => store !! i
  end.

Definition deref {A} (store : State -> list A) (p : nat) : Go A :=
  fun st => match slot (store st) p with
            | Some a => Some (a, st)
            | None => None
            end.

(** [ParseZapLevel]: Info for the empty text and for a text that
    [UnmarshalText] rejects. *)
Definition ParseZapLevel `{Environment} (level : string) : Z :=
  let lvl := zapcore.InfoLevel in
  if decide (level <> "") then
    match UnmarshalText level with
    | Some parsed => parsed
    | None => lvl
    end
  else lvl.

(** ** [zap.AtomicLevel] *)

Definition NewAtomicLevelAt (l : Z) : Go nat :=
  let* n := gets (fun st => length (atomics st)) in
  modify (set_atomics (fun cells => cells ++ [l])) ;;
  ret (S n).

Definition AtomicLevel_Level (a : nat) : Go Z := deref atomics a.

Definition AtomicLevel_SetLevel (a : nat) (l : Z) : Go unit :=
  deref atomics a ;;
  modify (set_atomics (fun cells => <[pred a := l]> cells)).

(** ** [*zap.SugaredLogger]: every derivation allocates a new object *)

Definition Sugar (log : zap.Logger) : Go nat :=
  let* n := gets (fun st => length (sugars st)) in
  modify (set_sugars (fun s => s ++ [log])) ;;
  ret (S n).

Definition SugaredLogger_With (s : nat) (args : list Any) : Go nat :=
  let* base := deref sugars s in
  Sugar (zap.With base args).

Definition SugaredLogger_Named (s : nat) (n : string) : Go nat :=
  let* base := deref sugars s in
  Sugar (zap.Named base n).

Definition SugaredLogger_WithOptions (s : nat) (opts : list zap.Option) : Go nat :=
  let* base := deref sugars s in
  Sugar (zap.WithOptions base opts).

(** [Debugw], [Infow], [Warnw], [Errorw] of the sugared logger: one call on
    the backend at the method's level. *)
Definition SugaredLogger_log (s : nat) (lvl : Z) (msg : string) (keysAndValues : list Any)
  : Go unit :=
  let* base := deref sugars s in
  modify (set_written (fun w => w ++ [ZapWrite s base lvl msg keysAndValues])).

Definition SugaredLogger_Debugw (s : nat) := SugaredLogger_log s zapcore.DebugLevel.
Definition SugaredLogger_Infow (s : nat) := SugaredLogger_log s zapcore.InfoLevel.
Definition SugaredLogger_Warnw (s : nat) := SugaredLogger_log s zapcore.WarnLevel.
Definition SugaredLogger_Errorw (s : nat) := SugaredLogger_log s zapcore.ErrorLevel.

(** ** [logr.Logger]: the calls that write *)

Definition logr_Info (l : logr.Logger) (msg : string) (keysAndValues : list Any) : Go unit :=
  match logr.sink l with
  | None => ret tt
  | Some s =>
      if logr.Enabled s (logr.level l)
      then modify (set_written (fun w => w ++ [LogrInfo s (logr.level l) msg keysAndValues]))
      else ret tt
  end.

Definition logr_Error (l : logr.Logger) (err : error) (msg : string)
    (keysAndValues : list Any) : Go unit :=
  match logr.sink l with
  | None => ret tt
  | Some s => modify (set_written (fun w => w ++ [LogrError s err msg keysAndValues]))
  end.

(** ** [LogRLogger] *)

Definition LogRLogger_toLogr (l : LogRLogger) : logr.Logger :=
  match logr.GetSink l with
  | None => discardLogger
  | Some _ => l
  end.

Definition LogRLogger_Debugw (l : LogRLogger) (msg : string) (keysAndValues : list Any)
  : Go unit :=
  logr_Info (logr.V (LogRLogger_toLogr l) 1) msg keysAndValues.

Definition LogRLogger_Infow (l : LogRLogger) (msg : string) (keysAndValues : list Any)
  : Go unit :=
  logr_Info (LogRLogger_toLogr l) msg keysAndValues.

Definition LogRLogger_Warnw (l : LogRLogger) (msg : string) (err : error)
    (keysAndValues : list Any) : Go unit :=
  let keysAndValues :=
    match err with
    | Some e => keysAndValues ++ [AString "error"; AError e]
    | None => keysAndValues
    end in
  logr_Info (LogRLogger_toLogr l) msg keysAndValues.

Definition LogRLogger_Errorw (l : LogRLogger) (msg : string) (err : error)
    (keysAndValues : list Any) : Go unit :=
  logr_Error (LogRLogger_toLogr l) err msg keysAndValues.

Definition LogRLogger_WithValues (l : LogRLogger) (keysAndValues : list Any) : Logger :=
  LogR (logr.WithValues (LogRLogger_toLogr l) keysAndValues).

Definition LogRLogger_WithName (l : LogRLogger) (name : string) : Logger :=
  LogR (logr.WithName (LogRLogger_toLogr l) name).

Definition LogRLogger_WithComponent (l : LogRLogger) (component : string) : Logger :=
  LogR (logr.WithName (LogRLogger_toLogr l) component).

Definition LogRLogger_WithCallDepth (l : LogRLogger) (depth : Z) : Logger :=
  LogR (logr.WithCallDepth (LogRLogger_toLogr l) depth).

Definition LogRLogger_WithItemSampler (l : LogRLogger) : Logger := LogR l.

Definition LogRLogger_WithoutSampler (l : LogRLogger) : Logger := LogR l.

(** ** [sharedConfig]: the level registry *)

Definition new_sharedConfig (sc : sharedConfig.t) : Go nat :=
  let* n := gets (fun st => length (shareds st)) in
  modify (set_shareds (fun s => s ++ [sc])) ;;
  ret (S n).

Definition put_sharedConfig (c : nat) (sc : sharedConfig.t) : Go unit :=
  deref shareds c ;;
  modify (set_shareds (fun s => <[pred c := sc]> s)).

Definition newSharedConfig `{Environment} (conf : Config.t) : Go nat :=
  let* lvl := NewAtomicLevelAt (ParseZapLevel (Config.Level conf)) in
  new_sharedConfig (sharedConfig.mk lvl ∅ conf).

(** The search both registry operations run over the segments of a
    component path:
<<
    for len(parts) > 0 {
        search := strings.Join(parts, ".")
        if compLevel, ok := levels[search]; ok { ... compLevel ...; break }
        parts = parts[:len(parts)-1]
    }
>>
    It yields the level text of the first hit.  The loop drops a segment in
    every round, so [length parts] rounds are enough. *)
Fixpoint confSearch_from (rounds : nat) (levels : gmap string string) (parts : list string)
  : option string :=
  match rounds with
  | O => None
  | S rounds' =>
      if decide (0 < length parts)%nat then
        let search := strings.Join parts "." in
        match levels !! search with
        | Some compLevel => Some compLevel
        | None => confSearch_from rounds' levels (take (length parts - 1) parts)
        end
      else None
  end.

Definition confSearch (levels : gmap string string) (parts : list string) : option string :=
  confSearch_from (length parts) levels parts.

Definition sharedConfig_setEffectiveLevel `{Environment} (c : nat) (component : string)
  : Go nat :=
  let* cfg := deref shareds c in
  match sharedConfig.componentLevels cfg !! component with
  | Some compLevel => ret compLevel
  | None =>
      (* search up the hierarchy to find the first level that is set *)
      let* lvl := AtomicLevel_Level (sharedConfig.level cfg) in
      let* atomicLevel := NewAtomicLevelAt lvl in
      put_sharedConfig c
        (sharedConfig.mk (sharedConfig.level cfg)
           (<[component := atomicLevel]> (sharedConfig.componentLevels cfg))
           (sharedConfig.config cfg)) ;;
      let parts := strings.Split component "." in
      match confSearch (Config.ComponentLevels (sharedConfig.config cfg)) parts with
      | Some compLevel =>
          AtomicLevel_SetLevel atomicLevel (ParseZapLevel compLevel) ;;
          ret atomicLevel
      | None => ret atomicLevel
      end
  end.

(** The body of the [range] loop of [onConfigUpdate]. *)
Definition onConfigUpdate_component `{Environment} (cfg : sharedConfig.t) (conf : Config.t)
    (entry : string * nat) : Go unit :=
  let '(component, atomicLevel) := entry in
  let* updateLevel := AtomicLevel_Level (sharedConfig.level cfg) in
  let parts := strings.Split component "." in
  let updateLevel :=
    match confSearch (Config.ComponentLevels conf) parts with
    | Some compLevel => ParseZapLevel compLevel
    | None => updateLevel
    end in
  AtomicLevel_SetLevel atomicLevel updateLevel.

Fixpoint for_range {A} (entries : list A) (body : A -> Go unit) : Go unit :=
  match entries with
  | [] => ret tt
  | e :: rest => body e ;; for_range rest body
  end.

Definition sharedConfig_onConfigUpdate `{Environment} (c : nat) (conf : Config.t)
  : Go error :=
  let* cfg := deref shareds c in
  AtomicLevel_SetLevel (sharedConfig.level cfg) (ParseZapLevel (Config.Level conf)) ;;
  let cfg := sharedConfig.mk (sharedConfig.level cfg) (sharedConfig.componentLevels cfg) conf in
  put_sharedConfig c cfg ;;
  for_range (rangeOrder (sharedConfig.componentLevels cfg))
            (onConfigUpdate_component cfg conf) ;;
  ret None.

(** ** [ZapLogger] *)

(** [&dup]: a new object holding the copy. *)
Definition new_ZapLogger (z : ZapLogger.t) : Go nat :=
  let* n := gets (fun st => length (zaploggers st)) in
  modify (set_zaploggers (fun s => s ++ [z])) ;;
  ret (S n).

Definition put_ZapLogger (l : nat) (z : ZapLogger.t) : Go unit :=
  deref zaploggers l ;;
  modify (set_zaploggers (fun s => <[pred l := z]> s)).

Definition with_zap (z : nat) (l : ZapLogger.t) : ZapLogger.t :=
  ZapLogger.mk z (ZapLogger.unsampled l) (ZapLogger.component l) (ZapLogger.sharedConfig l)
    (ZapLogger.level l) (ZapLogger.SampleDuration l) (ZapLogger.SampleInitial l)
    (ZapLogger.SampleInterval l).

Definition with_unsampled (u : nat) (l : ZapLogger.t) : ZapLogger.t :=
  ZapLogger.mk (ZapLogger.zap l) u (ZapLogger.component l) (ZapLogger.sharedConfig l)
    (ZapLogger.level l) (ZapLogger.SampleDuration l) (ZapLogger.SampleInitial l)
    (ZapLogger.SampleInterval l).

Definition with_component (c : string) (l : ZapLogger.t) : ZapLogger.t :=
  ZapLogger.mk (ZapLogger.zap l) (ZapLogger.unsampled l) c (ZapLogger.sharedConfig l)
    (ZapLogger.level l) (ZapLogger.SampleDuration l) (ZapLogger.SampleInitial l)
    (ZapLogger.SampleInterval l).

Definition with_level (a : nat) (l : ZapLogger.t) : ZapLogger.t :=
  ZapLogger.mk (ZapLogger.zap l) (ZapLogger.unsampled l) (ZapLogger.component l)
    (ZapLogger.sharedConfig l) a (ZapLogger.SampleDuration l) (ZapLogger.SampleInitial l)
    (ZapLogger.SampleInterval l).

Definition ZapLogger_ToZap (l : nat) : Go nat :=
  let* this := deref zaploggers l in
  ret (ZapLogger.zap this).

Definition ZapLogger_isEnabled (l : nat) (level : Z) : Go bool :=
  let* this := deref zaploggers l in
  let* current := AtomicLevel_Level (ZapLogger.level this) in
  ret (bool_decide (level >= current)).

Definition ZapLogger_Debugw (l : nat) (msg : string) (keysAndValues : list Any) : Go unit :=
  let* enabled := ZapLogger_isEnabled l zapcore.DebugLevel in
  if negb enabled then ret tt
  else
    let* this := deref zaploggers l in
    SugaredLogger_Debugw (ZapLogger.zap this) msg keysAndValues.

Definition ZapLogger_Infow (l : nat) (msg : string) (keysAndValues : list Any) : Go unit :=
  let* enabled := ZapLogger_isEnabled l zapcore.InfoLevel in
  if negb enabled then ret tt
  else
    let* this := deref zaploggers l in
    SugaredLogger_Infow (ZapLogger.zap this) msg keysAndValues.

Definition ZapLogger_Warnw (l : nat) (msg : string) (err : error) (keysAndValues : list Any)
  : Go unit :=
  let* enabled := ZapLogger_isEnabled l zapcore.WarnLevel in
  if negb enabled then ret tt
  else
    let keysAndValues :=
      match err with
      | Some e => keysAndValues ++ [AString "error"; AError e]
      | None => keysAndValues
      end in
    let* this := deref zaploggers l in
    SugaredLogger_Warnw (ZapLogger.zap this) msg keysAndValues.

Definition ZapLogger_Errorw (l : nat) (msg : string) (err : error) (keysAndValues : list Any)
  : Go unit :=
  let* enabled := ZapLogger_isEnabled l zapcore.ErrorLevel in
  if negb enabled then ret tt
  else
    let keysAndValues :=
      match err with
      | Some e => keysAndValues ++ [AString "error"; AError e]
      | None => keysAndValues
      end in
    let* this := deref zaploggers l in
    SugaredLogger_Errorw (ZapLogger.zap this) msg keysAndValues.

Definition ZapLogger_WithValues (l : nat) (keysAndValues : list Any) : Go Logger :=
  let* this := deref zaploggers l in
  let dup := this in
  let* z := SugaredLogger_With (ZapLogger.zap this) keysAndValues in
  let dup := with_zap z dup in
  (* mirror unsampled logger too *)
  let* u :=
    if decide (ZapLogger.unsampled this = ZapLogger.zap this) then ret (ZapLogger.zap dup)
    else SugaredLogger_With (ZapLogger.unsampled this) keysAndValues in
  let dup := with_unsampled u dup in
  let* p := new_ZapLogger dup in
  ret (Zap p).

(** [WithName], with the pointer itself as result, for [WithComponent]. *)
Definition ZapLogger_WithName_ptr (l : nat) (name : string) : Go nat :=
  let* this := deref zaploggers l in
  let dup := this in
  let* z := SugaredLogger_Named (ZapLogger.zap this) name in
  let dup := with_zap z dup in
  let* u :=
    if decide (ZapLogger.unsampled this = ZapLogger.zap this) then ret (ZapLogger.zap dup)
    else SugaredLogger_Named (ZapLogger.unsampled this) name in
  let dup := with_unsampled u dup in
  new_ZapLogger dup.

Definition ZapLogger_WithName (l : nat) (name : string) : Go Logger :=
  let* p := ZapLogger_WithName_ptr l name in
  ret (Zap p).

Definition ZapLogger_WithComponent `{Environment} (l : nat) (component : string) : Go Logger :=
  (* zap automatically appends .<name> to the logger name *)
  let* dup := ZapLogger_WithName_ptr l component in
  let* d := deref zaploggers dup in
  let d :=
    if decide (ZapLogger.component d = "") then with_component component d
    else with_component (ZapLogger.component d +:+ "." +:+ component) d in
  put_ZapLogger dup d ;;
  let* a := sharedConfig_setEffectiveLevel (ZapLogger.sharedConfig d) (ZapLogger.component d) in
  put_ZapLogger dup (with_level a d) ;;
  ret (Zap dup).

Definition ZapLogger_WithCallDepth (l : nat) (depth : Z) : Go Logger :=
  let* this := deref zaploggers l in
  let dup := this in
  let* z := SugaredLogger_WithOptions (ZapLogger.zap this) [zap.AddCallerSkip depth] in
  let dup := with_zap z dup in
  let* u :=
    if decide (ZapLogger.unsampled this = ZapLogger.zap this) then ret (ZapLogger.zap dup)
    else SugaredLogger_WithOptions (ZapLogger.unsampled this) [zap.AddCallerSkip depth] in
  let dup := with_unsampled u dup in
  let* p := new_ZapLogger dup in
  ret (Zap p).

Definition ZapLogger_WithItemSampler (l : nat) : Go Logger :=
  let* this := deref zaploggers l in
  if decide (ZapLogger.SampleDuration this = 0) then ret (Zap l)
  else
    let dup := this in
    let* z :=
      SugaredLogger_WithOptions (ZapLogger.unsampled this)
        [zap.WrapCore_sampler (ZapLogger.SampleDuration this) (ZapLogger.SampleInitial this)
           (ZapLogger.SampleInterval this)] in
    let dup := with_zap z dup in
    let* p := new_ZapLogger dup in
    ret (Zap p).

Definition ZapLogger_WithoutSampler (l : nat) : Go Logger :=
  let* this := deref zaploggers l in
  if decide (ZapLogger.unsampled this = ZapLogger.zap this) then ret (Zap l)
  else
    let dup := this in
    let dup := with_zap (ZapLogger.unsampled this) dup in
    let* p := new_ZapLogger dup in
    ret (Zap p).

(** ** The [Logger] interface: dispatch on the implementation *)

Definition Logger_Debugw (l : Logger) (msg : string) (keysAndValues : list Any) : Go unit :=
  match l with
  | LogR r => LogRLogger_Debugw r msg keysAndValues
  | Zap z => ZapLogger_Debugw z msg keysAndValues
  end.

Definition Logger_Infow (l : Logger) (msg : string) (keysAndValues : list Any) : Go unit :=
  match l with
  | LogR r => LogRLogger_Infow r msg keysAndValues
  | Zap z => ZapLogger_Infow z msg keysAndValues
  end.

Definition Logger_Warnw (l : Logger) (msg : string) (err : error) (keysAndValues : list Any)
  : Go unit :=
  match l with
  | LogR r => LogRLogger_Warnw r msg err keysAndValues
  | Zap z => ZapLogger_Warnw z msg err keysAndValues
  end.

Definition Logger_Errorw (l : Logger) (msg : string) (err : error) (keysAndValues : list Any)
  : Go unit :=
  match l with
  | LogR r => LogRLogger_Errorw r msg err keysAndValues
  | Zap z => ZapLogger_Errorw z msg err keysAndValues
  end.

Definition Logger_WithValues (l : Logger) (keysAndValues : list Any) : Go Logger :=
  match l with
  | LogR r => ret (LogRLogger_WithValues r keysAndValues)
  | Zap z => ZapLogger_WithValues z keysAndValues
  end.

Definition Logger_WithName (l : Logger) (name : string) : Go Logger :=
  match l with
  | LogR r => ret (LogRLogger_WithName r name)
  | Zap z => ZapLogger_WithName z name
  end.

Definition Logger_WithComponent `{Environment} (l : Logger) (component : string) : Go Logger :=
  match l with
  | LogR r => ret (LogRLogger_WithComponent r component)
  | Zap z => ZapLogger_WithComponent z component
  end.

Definition Logger_WithCallDepth (l : Logger) (depth : Z) : Go Logger :=
  match l with
  | LogR r => ret (LogRLogger_WithCallDepth r depth)
  | Zap z => ZapLogger_WithCallDepth z depth
  end.

Definition Logger_WithItemSampler (l : Logger) : Go Logger :=
  match l with
  | LogR r => ret (LogRLogger_WithItemSampler r)
  | Zap z => ZapLogger_WithItemSampler z
  end.

Definition Logger_WithoutSampler (l : Logger) : Go Logger :=
  match l with
  | LogR r => ret (LogRLogger_WithoutSampler r)
  | Zap z => ZapLogger_WithoutSampler z
  end.

(** ** Construction and the singletons *)

(** The [zap.Config] that [NewZapLogger] builds from; [zcLevel] is the cell
    of [zap.NewAtomicLevelAt(zapcore.DebugLevel)]. *)
Definition NewZapLogger_zc (conf : Config.t) (zcLevel : nat) : zap.Config :=
  let zc :=
    zap.mkConfig zcLevel false "console" zap.DevelopmentEncoderConfig ["stderr"] ["stderr"] in
  if Config.JSON conf
  then zap.mkConfig (zap.Level zc) (zap.Development zc) "json"
         (zap.ProductionEncoderConfig true) (zap.OutputPaths zc) (zap.ErrorOutputPaths zc)
  else zc.

Definition NewZapLogger `{Environment} (conf : Config.t) : Go (nat * error) :=
  let* sc := newSharedConfig conf in
  let* shared := deref shareds sc in
  let* zaplog :=
    new_ZapLogger
      (ZapLogger.mk nil_ptr nil_ptr "" sc (sharedConfig.level shared)
         (time.mul (Config.ItemSampleSeconds conf) time.Second)
         (Config.ItemSampleInitial conf) (Config.ItemSampleInterval conf)) in
  let* zcLevel := NewAtomicLevelAt zapcore.DebugLevel in
  let zc := NewZapLogger_zc conf zcLevel in
  match Build zc with
  | inl err => ret (nil_ptr, Some err)
  | inr build =>
      let* u := Sugar build in
      let* z0 := deref zaploggers zaplog in
      put_ZapLogger zaplog (with_unsampled u z0) ;;
      (if Config.Sample conf then
         let Initial := Config.ItemSampleInitial conf in
         let Thereafter := Config.SampleInterval conf in
         (* sane defaults *)
         let Initial := if decide (Initial = 0) then 20 else Initial in
         let Thereafter := if decide (Thereafter = 0) then 100 else Thereafter in
         let* z :=
           Sugar (zap.WithOptions build [zap.WrapCore_sampler time.Second Initial Thereafter]) in
         let* z1 := deref zaploggers zaplog in
         put_ZapLogger zaplog (with_zap z z1)
       else
         let* z1 := deref zaploggers zaplog in
         put_ZapLogger zaplog (with_zap (ZapLogger.unsampled z1) z1)) ;;
      ret (zaplog, None)
  end.

(** [GetLogger] returns the logger that was set with [SetLogger] with an
    extra depth of 1. *)
Definition GetLogger : Go Logger := gets defaultLogger.

Definition SetLogger (l : Logger) (name : string) : Go unit :=
  let* d := Logger_WithCallDepth l 1 in
  let* d := Logger_WithName d name in
  modify (set_defaultLogger d) ;;
  (* pkg wrapper needs to drop two levels of depth *)
  let* p := Logger_WithCallDepth l 2 in
  let* p := Logger_WithName p name in
  modify (set_pkgLogger p).

Definition InitLogConfig `{Environment} (conf : Config.t) (system : string) : Go unit :=
  let* (l, err) := NewZapLogger conf in
  match err with
  | None => SetLogger (Zap l) system
  | Some _ => ret tt
  end.

Definition Debugw (msg : string) (keysAndValues : list Any) : Go unit :=
  let* p := gets pkgLogger in
  Logger_Debugw p msg keysAndValues.

Definition Infow (msg : string) (keysAndValues : list Any) : Go unit :=
  let* p := gets pkgLogger in
  Logger_Infow p msg keysAndValues.

Definition Warnw (msg : string) (err : error) (keysAndValues : list Any) : Go unit :=
  let* p := gets pkgLogger in
  Logger_Warnw p msg err keysAndValues.

Definition Errorw (msg : string) (err : error) (keysAndValues : list Any) : Go unit :=
  let* p := gets pkgLogger in
  Logger_Errorw p msg err keysAndValues.

(** ** A concrete environment, for running the model

    [zapcore.Level.UnmarshalText] accepts the level names in any case;
    [Build] succeeds with a logger on the configured encoding; maps are
    ranged over in key order. *)

Definition lower (c : ascii) : ascii :=
  let n := nat_of_ascii c in
  if (Nat.leb 65 n && Nat.leb n 90)%bool then ascii_of_nat (n + 32) else c.

Fixpoint ToLower (s : string) : string :=
  match s with
  | EmptyString => EmptyString
  | String c r => String (lower c) (ToLower r)
  end.

Definition zapcore_UnmarshalText (text : string) : option Z :=
  let t := ToLower text in
  if decide (t = "debug") then Some zapcore.DebugLevel
  else if decide (t = "info") then Some zapcore.InfoLevel
  else if decide (t = "") then Some zapcore.InfoLevel
  else if decide (t = "warn") then Some zapcore.WarnLevel
  else if decide (t = "error") then Some zapcore.ErrorLevel
  else if decide (t = "dpanic") then Some 3
  else if decide (t = "panic") then Some 4
  else if decide (t = "fatal") then Some 5
  else None.

Definition zap_Build (zc : zap.Config) : string + zap.Logger :=
  inr (zap.mkLogger (zapcore.ioCore (zap.Encoding zc) []) "" 0).

#[local] Instance env : Environment := {|
  UnmarshalText := zapcore_UnmarshalText;
  Build := zap_Build;
  rangeOrder := map_to_list;
  rangeOrder_perm := fun m => reflexivity (map_to_list m)
|}.

(** The same, with a backend that cannot be built. *)
#[local] Instance env_failing : Environment := {|
  UnmarshalText := zapcore_UnmarshalText;
  Build := fun _ => inl "no backend";
  rangeOrder := map_to_list;
  rangeOrder_perm := fun m => reflexivity (map_to_list m)
|}.

(** ** The resolution rule, as the specification words it

    The most specific configured ancestor wins, else the global default:
    the search starts at the full dotted path and then repeatedly removes
    the last segment. *)

(** The path without its last segment and the period before it; [None] when
    the path has a single segment. *)
Fixpoint stripLast (path : string) : option string :=
  match path with
  | EmptyString => None
  | String c r =>
      match stripLast r with
      | Some p => Some (String c p)
      | None => if Ascii.eqb c "." then Some "" else None
      end
  end.

(** The path and its ancestors, most specific first; [n] bounds the number
    of removals. *)
Fixpoint ancestors_upto (n : nat) (path : string) : list string :=
  path ::
  match n with
  | O => []
  | S n' =>
      match stripLast path with
      | Some p => ancestors_upto n' p
      | None => []
      end
  end.

Definition ancestors (path : string) : list string :=
  ancestors_upto (String.length path) path.

(** The level text of the first configured path of a list. *)
Fixpoint firstConfigured (levels : gmap string string) (paths : list string)
  : option string :=
  match paths with
  | [] => None
  | p :: rest =>
      match levels !! p with
      | Some lvl => Some lvl
      | None => firstConfigured levels rest
      end
  end.

Definition resolveLevel `{Environment} (levels : gmap string string) (default : Z)
    (path : string) : Z :=
  match firstConfigured levels (ancestors path) with
  | Some lvl => ParseZapLevel lvl
  | None => default
  end.

(** A segment without a period. *)
Fixpoint nodot (s : string) : bool :=
  match s with
  | EmptyString => true
  | String c r => negb (Ascii.eqb c ".") && nodot r
  end.

(** ** Well-formed registries and handles

    A registry is well formed when its default cell exists and the cells it
    caches exist, are pairwise distinct and differ from the default cell:
    this is how [newSharedConfig] makes it and how [setEffectiveLevel] and
    [onConfigUpdate] keep it. *)

Definition cached (cfg : sharedConfig.t) : list nat :=
  (map_to_list (sharedConfig.componentLevels cfg)).*2.

Definition registry_ok (st : State) (cfg : sharedConfig.t) : Prop :=
  is_Some (slot (atomics st) (sharedConfig.level cfg)) /\
  Forall (fun cell => is_Some (slot (atomics st) cell) /\ cell <> sharedConfig.level cfg)
         (cached cfg) /\
  NoDup (cached cfg).

Definition registries_ok (st : State) : Prop :=
  Forall (registry_ok st) (shareds st).

(** A handle whose two sinks and level cell exist. *)
Definition handle_ok (st : State) (h : ZapLogger.t) : Prop :=
  is_Some (slot (sugars st) (ZapLogger.zap h)) /\
  is_Some (slot (sugars st) (ZapLogger.unsampled h)) /\
  is_Some (slot (atomics st) (ZapLogger.level h)).

(** ** Derivations

    [WithValues], [WithName] and [WithCallDepth] have one shape: copy the
    handle, derive a sink from [zap], and either alias [unsampled] to it or
    derive a second sink from [unsampled]; [f] is what the derivation does
    to a sink's logger. *)
Definition derive (f : zap.Logger -> zap.Logger) (l : nat) : Go Logger :=
  let* this := deref zaploggers l in
  let* z := (let* base := deref sugars (ZapLogger.zap this) in Sugar (f base)) in
  let* u :=
    if decide (ZapLogger.unsampled this = ZapLogger.zap this) then ret z
    else (let* base := deref sugars (ZapLogger.unsampled this) in Sugar (f base)) in
  let* p := new_ZapLogger (with_unsampled u (with_zap z this)) in
  ret (Zap p).

(** The state after a derivation from handle [h]: one new handle [h'], new
    sinks only, everything else as before. *)
Definition derived_from (f : zap.Logger -> zap.Logger) (st : State) (h : ZapLogger.t)
    (st' : State) (h' : ZapLogger.t) : Prop :=
  zaploggers st' = zaploggers st ++ [h'] /\
  (exists new, sugars st' = sugars st ++ new) /\
  atomics st' = atomics st /\
  shareds st' = shareds st /\
  written st' = written st /\
  defaultLogger st' = defaultLogger st /\
  pkgLogger st' = pkgLogger st /\
  h' = with_unsampled (ZapLogger.unsampled h') (with_zap (ZapLogger.zap h') h) /\
  slot (sugars st') (ZapLogger.zap h') = f <$> slot (sugars st) (ZapLogger.zap h) /\
  slot (sugars st') (ZapLogger.unsampled h') = f <$> slot (sugars st) (ZapLogger.unsampled h) /\
  (ZapLogger.unsampled h = ZapLogger.zap h -> ZapLogger.unsampled h' = ZapLogger.zap h').

(** The sink [NewZapLogger] installs as [zap] when sampling is on. *)
Definition sampled_sink (conf : Config.t) (build : zap.Logger) : zap.Logger :=
  zap.WithOptions build
    [zap.WrapCore_sampler time.Second
       (if decide (Config.ItemSampleInitial conf = 0) then 20 else Config.ItemSampleInitial conf)
       (if decide (Config.SampleInterval conf = 0) then 100 else Config.SampleInterval conf)].

(** ** Observing calls *)

(** The four logging calls of a handle. *)
Inductive LogCall : Type :=
| CallDebugw (msg : string) (keysAndValues : list Any)
| CallInfow (msg : string) (keysAndValues : list Any)
| CallWarnw (msg : string) (err : error) (keysAndValues : list Any)
| CallErrorw (msg : string) (err : error) (keysAndValues : list Any).

Definition ZapLogger_call (l : nat) (c : LogCall) : Go unit :=
  match c with
  | CallDebugw msg kvs => ZapLogger_Debugw l msg kvs
  | CallInfow msg kvs => ZapLogger_Infow l msg kvs
  | CallWarnw msg err kvs => ZapLogger_Warnw l msg err kvs
  | CallErrorw msg err kvs => ZapLogger_Errorw l msg err kvs
  end.

(** The backend calls a computation adds. *)
Definition emitted {A} (m : Go A) (st : State) : option (list Entry) :=
  match m st with
  | Some (_, st') => Some (drop (length (written st)) (written st'))
  | None => None
  end.

(** The pairs [Warnw] and [Errorw] hand to the backend. *)
Definition with_error (err : error) (keysAndValues : list Any) : list Any :=
  match err with
  | Some e => keysAndValues ++ [AString "error"; AError e]
  | None => keysAndValues
  end.

(** What a logging call does, given the handle, its sink and the level its
    cell reads: one backend call when the method's level reaches the cell's,
    nothing otherwise. *)
Definition gated (st : State) (h : ZapLogger.t) (log : zap.Logger) (cur lvl : Z)
    (msg : string) (args : list Any) : State :=
  if bool_decide (lvl >= cur)
  then set_written (fun w => w ++ [ZapWrite (ZapLogger.zap h) log lvl msg args]) st
  else st.

(** The sink a handle writes to. *)
Definition sink_of (st : State) (l : nat) : option zap.Logger :=
  match slot (zaploggers st) l with
  | Some h => slot (sugars st) (ZapLogger.zap h)
  | None => None
  end.

(** [SetLogger(l, name)] on a [ZapLogger] handle replaces both singletons
    by new handles whose sinks skip [dflt] and [pkg] caller frames more
    than the sink of [l], and carry the name. *)
Definition SetLogger_installs (dflt pkg : Z) (st : State) (l : nat) (name : string) : Prop :=
  exists (st' : State) (d p : nat) (base ld lp : zap.Logger),
    SetLogger (Zap l) name st = Some (tt, st') /\
    sink_of st l = Some base /\
    defaultLogger st' = Zap d /\ (length (zaploggers st) < d)%nat /\
    sink_of st' d = Some ld /\
    pkgLogger st' = Zap p /\ (length (zaploggers st) < p)%nat /\
    sink_of st' p = Some lp /\
    zap.callerSkip ld = int_add (zap.callerSkip base) dflt /\
    zap.callerSkip lp = int_add (zap.callerSkip base) pkg /\
    zap.callerSkip lp = int_add (zap.callerSkip ld) (pkg - dflt) /\
    zap.name ld = zap.name (zap.Named base name) /\
    zap.name lp = zap.name (zap.Named base name).

(** ** Example states

    The configuration of [cmd/main.go] and variants of it, and the states
    after [NewZapLogger] on them. *)
Definition conf_main : Config.t := Config.mk false "debug" ∅ false 0 0 0 0.

(** Component ["a.b"] at Warn, default Info. *)
Definition conf_ab : Config.t := Config.mk false "info" {["a.b" := "warn"]} false 0 0 0 0.

(** Default level Warn. *)
Definition conf_warn : Config.t := Config.mk false "warn" ∅ false 0 0 0 0.

(** Sampling on, with the defaults, and an item window of one second. *)
Definition conf_sampled : Config.t := Config.mk true "info" ∅ true 0 1 0 0.

(** Default Info, nothing configured; and the reload that puts ["svc"] at
    Error. *)
Definition conf_info : Config.t := Config.mk false "info" ∅ false 0 0 0 0.
Definition conf_reload : Config.t := Config.mk false "info" {["svc" := "error"]} false 0 0 0 0.

Definition after {A} (m : Go A) (st : State) : State :=
  match m st with
  | Some (_, st') => st'
  | None => st
  end.

Definition st_main : State := Eval vm_compute in after (@NewZapLogger env conf_main) initial.
Definition st_ab : State := Eval vm_compute in after (@NewZapLogger env conf_ab) initial.
Definition st_warn : State := Eval vm_compute in after (@NewZapLogger env conf_warn) initial.
Definition st_sampled : State :=
  Eval vm_compute in after (@NewZapLogger env conf_sampled) initial.

(** A handle for component ["svc.a"], made under [conf_info]. *)
Definition st_svc : State :=
  Eval vm_compute in
    after (let* (l, _) := @NewZapLogger env conf_info in
           let* svc := @ZapLogger_WithComponent env l "svc" in
           @Logger_WithComponent env svc "a") initial.

(** The first handle of [st_main], [st_ab] and [st_warn], and its sink. *)
Definition h_first : ZapLogger.t := ZapLogger.mk 1 1 "" 1 1 0 0 0.
Definition log_console : zap.Logger := zap.mkLogger (zapcore.ioCore "console" []) "" 0.

(** The handle of [st_sampled] and its unsampled sink. *)
Definition h_sampled : ZapLogger.t := ZapLogger.mk 2 1 "" 1 1 1000000000 0 0.
Definition log_json : zap.Logger := zap.mkLogger (zapcore.ioCore "json" []) "" 0.

(** ** [oneLog.go]: a holder of a logger, and the participant helper *)

(** [type zl struct { logger Logger }]; the object is only read. *)
Record zl : Type := mkzl { logger : Logger }.

Definition zl_GetLogger (p : zl) : Logger := logger p.

Definition LoggerWithParticipant (l : Logger) (identity sid : string) (isRemote : bool)
  : Go Logger :=
  let values : list Any := [] in
  let values := if decide (identity <> "") then values ++ [AString "participant"; AString identity]
                else values in
  let values := if decide (sid <> "") then values ++ [AString "pID"; AString sid] else values in
  let values := values ++ [AString "remote"; ABool isRemote] in
  (* enable sampling per participant *)
  Logger_WithValues l values.

Definition InitL : Go zl :=
  let* dl := GetLogger in
  let* participant := LoggerWithParticipant dl "1" "2" true in
  let* lg := Logger_WithValues participant [AString ""; AString ""] in
  ret (mkzl lg).

(** ** Which configured entries apply to a component

    [k] is the component path itself, or the path goes on after [k] with a
    period. *)
Definition dotted_prefix (k path : string) : Prop :=
  k = path \/ exists rest : string, path = k +:+ "." +:+ rest.

(** ** The level, message and pairs of a logging call *)

Definition call_level (c : LogCall) : Z :=
  match c with
  | CallDebugw _ _ => zapcore.DebugLevel
  | CallInfow _ _ => zapcore.InfoLevel
  | CallWarnw _ _ _ => zapcore.WarnLevel
  | CallErrorw _ _ _ => zapcore.ErrorLevel
  end.

Definition call_msg (c : LogCall) : string :=
  match c with
  | CallDebugw msg _ | CallInfow msg _ | CallWarnw msg _ _ | CallErrorw msg _ _ => msg
  end.

Definition call_args (c : LogCall) : list Any :=
  match c with
  | CallDebugw _ kvs | CallInfow _ kvs => kvs
  | CallWarnw _ err kvs | CallErrorw _ err kvs => with_error err kvs
  end.

(** The same four calls through the [Logger] interface and through the
    package-level functions. *)
Definition Logger_call (l : Logger) (c : LogCall) : Go unit :=
  match c with
  | CallDebugw msg kvs => Logger_Debugw l msg kvs
  | CallInfow msg kvs => Logger_Infow l msg kvs
  | CallWarnw msg err kvs => Logger_Warnw l msg err kvs
  | CallErrorw msg err kvs => Logger_Errorw l msg err kvs
  end.

Definition pkg_call (c : LogCall) : Go unit :=
  match c with
  | CallDebugw msg kvs => Debugw msg kvs
  | CallInfow msg kvs => Infow msg kvs
  | CallWarnw msg err kvs => Warnw msg err kvs
  | CallErrorw msg err kvs => Errorw msg err kvs
  end.

(** Two states that differ at most in the backend calls made. *)
Definition same_stores (st st' : State) : Prop :=
  sugars st' = sugars st /\ atomics st' = atomics st /\ shareds st' = shareds st /\
  zaploggers st' = zaploggers st /\ defaultLogger st' = defaultLogger st /\
  pkgLogger st' = pkgLogger st.

(** The component path [WithComponent] gives the new handle. *)
Definition joined (h : ZapLogger.t) (component : string) : string :=
  if decide (ZapLogger.component h = "") then component
  else ZapLogger.component h +:+ "." +:+ component.

(** The registry of [st_svc], and the sampled sink of [st_sampled]. *)
Definition cfg_svc : sharedConfig.t :=
  sharedConfig.mk 1 (<["svc.a" := 4%nat]> (<["svc" := 3%nat]> ∅)) conf_info.
Definition log_json_sampled : zap.Logger :=
  zap.mkLogger (zapcore.sampler (zapcore.ioCore "json" []) 1000000000 20 100) "" 0.

(** A configuration without a level text. *)
Definition conf_nolevel : Config.t := Config.mk false "" ∅ false 0 0 0 0.

(** ** What a sink does with an entry

    A call on a sugared logger makes one entry and offers it to the logger's
    core ([Core.Check]); the entry is written when the core takes it.  The
    output core takes every entry of the four methods: [NewZapLogger] builds
    it enabled from Debug.  A sampler counts the entries of one level and
    message within a tick, the entry at hand included, and drops the entry
    counted [n] when [n > first] and either [thereafter = 0] or [n - first]
    is no multiple of [thereafter]; it holds [first] and [thereafter] as
    [uint64]. *)

Definition uint64 (z : Z) : Z := z mod 2 ^ 64.

(** The levels a sampler counts: Debug to Fatal. *)
Definition minLevel : Z := zapcore.DebugLevel.
Definition maxLevel : Z := 5.

Definition sampler_Check (first thereafter lvl n : Z) : bool :=
  if bool_decide (minLevel <= lvl <= maxLevel)
  then negb (bool_decide (n > uint64 first)
             && (bool_decide (uint64 thereafter = 0)
                 || negb (bool_decide ((n - uint64 first) mod uint64 thereafter = 0))))
  else true.

(** [count d] is what the counter of the sampler at depth [d] reads for the
    entry; the outermost sampler is at depth 0. *)
Fixpoint Core_Check (c : zapcore.Core) (lvl : Z) (count : nat -> Z) : bool :=
  match c with
  | zapcore.ioCore _ _ => true
  | zapcore.sampler inner _ first thereafter =>
      sampler_Check first thereafter lvl (count 0%nat)
      && Core_Check inner lvl (fun d => count (S d))
  end.

(** One backend write, as the specification words the effect of an enabled
    call: the call hands one entry to a sink and the sink writes it, for
    some reading of the sink's counters (each at least 1, since the entry
    itself is counted). *)
Definition one_backend_write (call : Go unit) (st : State) : Prop :=
  exists (s : nat) (log : zap.Logger) (lvl : Z) (msg : string) (args : list Any)
         (count : nat -> Z),
    call st = Some (tt, set_written (fun w => w ++ [ZapWrite s log lvl msg args]) st) /\
    (forall d : nat, 1 <= count d) /\
    Core_Check (zap.core log) lvl count = true.



(** * Properties *)

(** ** Splitting and joining paths *)

Lemma append_nil_l (s : string) : "" +:+ s = s.
Proof. reflexivity. Qed.

Lemma append_cons (c : ascii) (a b : string) : String c a +:+ b = String c (a +:+ b).
Proof. reflexivity. Qed.

Lemma append_assoc (a b c : string) : (a +:+ b) +:+ c = a +:+ b +:+ c.
Proof.
  induction a as [|x a IH]; [reflexivity|].
  rewrite !append_cons, IH. reflexivity.
Qed.

Lemma length_append (a b : string) :
  String.length (a +:+ b) = (String.length a + String.length b)%nat.
Proof.
  induction a as [|x a IH]; [reflexivity|].
  rewrite append_cons. simpl. rewrite IH. reflexivity.
Qed.

Lemma Split_nonempty (s : string) (sep : ascii) : strings.Split s sep <> [].
Proof.
  destruct s as [|c r]; simpl; [discriminate|].
  destruct (Ascii.eqb c sep); [discriminate|].
  destruct (strings.Split r sep); discriminate.
Qed.

Lemma Split_nodot (s : string) : Forall (fun x => nodot x = true) (strings.Split s ".").
Proof.
  induction s as [|c r IH]; simpl.
  - repeat constructor.
  - destruct (Ascii.eqb c ".") eqn:E.
    + constructor; [reflexivity | exact IH].
    + destruct (strings.Split r ".") as [|p ps].
      * constructor; [simpl; rewrite E; reflexivity | constructor].
      * inversion IH; subst. constructor; [simpl; rewrite E; assumption | assumption].
Qed.

Lemma Join_cons2 (x y : string) (rest : list string) (sep : string) :
  strings.Join (x :: y :: rest) sep = x +:+ sep +:+ strings.Join (y :: rest) sep.
Proof. reflexivity. Qed.

Lemma Join_Split (s : string) : strings.Join (strings.Split s ".") "." = s.
Proof.
  induction s as [|c r IH]; [reflexivity|].
  pose proof (Split_nonempty r ".") as Hne.
  simpl strings.Split.
  destruct (Ascii.eqb c ".") eqn:E.
  - apply Ascii.eqb_eq in E; subst c.
    destruct (strings.Split r ".") as [|p ps]; [congruence|].
    rewrite Join_cons2, IH. reflexivity.
  - destruct (strings.Split r ".") as [|p ps]; [congruence|].
    destruct ps as [|q qs].
    + simpl in *. rewrite IH. reflexivity.
    + rewrite Join_cons2 in *. rewrite append_cons, IH. reflexivity.
Qed.

Lemma Join_snoc (init : list string) (last sep : string) :
  init <> [] ->
  strings.Join (init ++ [last]) sep = strings.Join init sep +:+ sep +:+ last.
Proof.
  induction init as [|x rest IH]; [congruence|]; intros _.
  destruct rest as [|y rest'].
  - reflexivity.
  - change ((x :: y :: rest') ++ [last]) with (x :: y :: (rest' ++ [last])).
    rewrite !Join_cons2.
    change (y :: rest' ++ [last]) with ((y :: rest') ++ [last]).
    rewrite IH by discriminate.
    rewrite !append_assoc. reflexivity.
Qed.

Lemma stripLast_nodot (x : string) : nodot x = true -> stripLast x = None.
Proof.
  induction x as [|c r IH]; simpl; [reflexivity|].
  intros [Hc Hr]%andb_prop. rewrite (IH Hr).
  destruct (Ascii.eqb c "."); [discriminate | reflexivity].
Qed.

Lemma stripLast_app (a last : string) :
  nodot last = true -> stripLast (a +:+ "." +:+ last) = Some a.
Proof.
  intros Hl. induction a as [|c r IH].
  - rewrite append_nil_l, append_cons, append_nil_l. simpl.
    rewrite (stripLast_nodot _ Hl). reflexivity.
  - rewrite append_cons. simpl. rewrite IH. reflexivity.
Qed.

Lemma length_app_dot (a last : string) :
  String.length (a +:+ "." +:+ last) = S (String.length a + String.length last).
Proof.
  rewrite !length_append. simpl. lia.
Qed.

Lemma stripLast_shorter (path p : string) :
  stripLast path = Some p -> (String.length p < String.length path)%nat.
Proof.
  revert p. induction path as [|c r IH]; intros p; simpl; [discriminate|].
  destruct (stripLast r) as [q|].
  - intros [= <-]. simpl. specialize (IH q eq_refl). lia.
  - destruct (Ascii.eqb c "."); [|discriminate]. intros [= <-]. simpl. lia.
Qed.

(** The bound of [ancestors] is never reached: every removal shortens the
    path. *)
Lemma ancestors_upto_enough (n m : nat) :
  forall path : string,
    (String.length path <= n)%nat -> (String.length path <= m)%nat ->
    ancestors_upto n path = ancestors_upto m path.
Proof.
  revert m. induction n as [|n IH]; intros m path Hn Hm.
  - destruct path; [|simpl in Hn; lia]. destruct m; reflexivity.
  - destruct m as [|m].
    + destruct path; [|simpl in Hm; lia]. reflexivity.
    + simpl. destruct (stripLast path) as [p|] eqn:Hp; [|reflexivity].
      apply stripLast_shorter in Hp. f_equal. apply IH; lia.
Qed.

(** ** The search loop visits the path and its ancestors *)

Lemma confSearch_from_nil (n : nat) (levels : gmap string string) :
  confSearch_from n levels [] = None.
Proof. destruct n; reflexivity. Qed.

(** More rounds than segments change nothing: the loop has stopped. *)
Lemma confSearch_from_enough (levels : gmap string string) (n m : nat) :
  forall parts : list string,
    (length parts <= n)%nat -> (length parts <= m)%nat ->
    confSearch_from n levels parts = confSearch_from m levels parts.
Proof.
  revert m. induction n as [|n IH]; intros m parts Hn Hm.
  - destruct parts; [|simpl in Hn; lia]. rewrite !confSearch_from_nil. reflexivity.
  - destruct m as [|m].
    + destruct parts; [|simpl in Hm; lia]. reflexivity.
    + simpl. destruct (decide (0 < length parts)%nat) as [Hpos|]; [|reflexivity].
      destruct (levels !! strings.Join parts "."); [reflexivity|].
      apply IH; rewrite length_take; lia.
Qed.

Lemma confSearch_from_ancestors (levels : gmap string string) (n : nat) :
  forall (parts : list string) (m : nat),
    parts <> [] ->
    Forall (fun x => nodot x = true) parts ->
    (length parts <= n)%nat ->
    (String.length (strings.Join parts ".") <= m)%nat ->
    confSearch_from n levels parts
    = firstConfigured levels (ancestors_upto m (strings.Join parts ".")).
Proof.
  induction n as [|n IH]; intros parts m Hne Hnd Hn Hm.
  - destruct parts; [congruence | simpl in Hn; lia].
  - destruct parts as [|x parts'] using rev_ind; [congruence|]. clear IHparts'.
    rename parts' into init, x into last.
    apply Forall_app in Hnd as [Hinit Hlast].
    rewrite Forall_singleton in Hlast.
    rewrite length_app in Hn. simpl in Hn.
    cbn [confSearch_from].
    destruct (decide (0 < length (init ++ [last]))%nat) as [_|Hz];
      [|rewrite length_app in Hz; simpl in Hz; lia].
    replace (take (length (init ++ [last]) - 1) (init ++ [last])) with init.
    2:{ rewrite length_app. simpl.
        replace (length init + 1 - 1)%nat with (length init) by lia.
        rewrite take_app_length. reflexivity. }
    destruct (decide (init = [])) as [->|Hinit_ne].
    + simpl strings.Join in *.
      destruct m; simpl; rewrite ?(stripLast_nodot _ Hlast);
        destruct (levels !! last); try reflexivity; apply confSearch_from_nil.
    + rewrite Join_snoc in * by assumption.
      rewrite length_app_dot in Hm.
      destruct m as [|m]; [lia|].
      cbn [ancestors_upto firstConfigured].
      rewrite (stripLast_app _ _ Hlast).
      destruct (levels !! (strings.Join init "." +:+ "." +:+ last)); [reflexivity|].
      apply IH; [assumption | assumption | lia | lia].
Qed.

Lemma confSearch_Split (levels : gmap string string) (path : string) :
  confSearch levels (strings.Split path ".") = firstConfigured levels (ancestors path).
Proof.
  unfold confSearch, ancestors.
  rewrite <- (Join_Split path) at 3 4.
  apply confSearch_from_ancestors.
  - apply Split_nonempty.
  - apply Split_nodot.
  - lia.
  - lia.
Qed.

(** ** Stores and pointers *)

Lemma slot_Some_pos {A} (l : list A) (p : nat) (a : A) :
  slot l p = Some a -> (0 < p <= length l)%nat.
Proof.
  destruct p as [|i]; simpl; [discriminate|].
  intros Hl. apply lookup_lt_Some in Hl. lia.
Qed.

Lemma slot_new {A} (l : list A) (x : A) : slot (l ++ [x]) (S (length l)) = Some x.
Proof. simpl. apply list_lookup_middle. reflexivity. Qed.

Lemma slot_old {A} (l : list A) (x a : A) (p : nat) :
  slot l p = Some a -> slot (l ++ [x]) p = Some a.
Proof.
  destruct p as [|i]; simpl; [discriminate|].
  intros Hl. apply lookup_app_l_Some. exact Hl.
Qed.

Lemma slot_insert_eq {A} (l : list A) (p : nat) (a b : A) :
  slot l p = Some a -> slot (<[pred p := b]> l) p = Some b.
Proof.
  destruct p as [|i]; simpl; [discriminate|].
  intros Hl. apply list_lookup_insert_eq. eapply lookup_lt_Some. exact Hl.
Qed.

Lemma slot_insert_ne {A} (l : list A) (p q : nat) (a b : A) :
  slot l p = Some a -> p <> q -> slot (<[pred p := b]> l) q = slot l q.
Proof.
  destruct p as [|i]; simpl; [discriminate|].
  intros _ Hne. destruct q as [|j]; [reflexivity|]. simpl.
  apply list_lookup_insert_ne. congruence.
Qed.

(** ** Running computations in proofs *)

Ltac run :=
  cbv beta delta [bind ret gets modify deref panic
    set_sugars set_atomics set_shareds set_zaploggers set_defaultLogger set_pkgLogger
    set_written];
  cbn [sugars atomics shareds zaploggers defaultLogger pkgLogger written].

Ltac known :=
  match goal with
  | Hx : slot _ _ = _ |- _ => rewrite Hx
  | Hx : _ !! _ = _ |- _ => rewrite Hx
  | |- _ => rewrite slot_new
  end.

Ltac runs := repeat (progress (run; repeat known)).

(** ** The level registry *)

(** C1: the first call of [setEffectiveLevel] for a component path returns
    a cell holding the parsed level of the most specific configured entry
    among the path and its ancestors (full path first, then with the last
    segment removed, and so on), and the registry's current default level
    when none of them is configured. *)
Theorem setEffectiveLevel_first_call `{Environment}
    (st : State) (c : nat) (cfg : sharedConfig.t) (component : string) (dflt : Z) :
  slot (shareds st) c = Some cfg ->
  sharedConfig.componentLevels cfg !! component = None ->
  slot (atomics st) (sharedConfig.level cfg) = Some dflt ->
  exists (cell : nat) (st' : State),
    sharedConfig_setEffectiveLevel c component st = Some (cell, st') /\
    slot (atomics st') cell
    = Some (resolveLevel (Config.ComponentLevels (sharedConfig.config cfg)) dflt component).
Proof.
  intros Hc Hfirst Hd.
  unfold sharedConfig_setEffectiveLevel, resolveLevel, AtomicLevel_Level,
    NewAtomicLevelAt, put_sharedConfig, AtomicLevel_SetLevel.
  runs.
  rewrite confSearch_Split.
  destruct (firstConfigured _ _) as [lvl|].
  - runs. eexists _, _. split; [reflexivity|].
    run. erewrite slot_insert_eq; [reflexivity | apply slot_new].
  - eexists _, _. split; [reflexivity|]. run. apply slot_new.
Qed.

(** ** Logging calls *)

Ltac run_log :=
  unfold ZapLogger_Debugw, ZapLogger_Infow, ZapLogger_Warnw, ZapLogger_Errorw,
    ZapLogger_isEnabled, AtomicLevel_Level,
    SugaredLogger_Debugw, SugaredLogger_Infow, SugaredLogger_Warnw, SugaredLogger_Errorw,
    SugaredLogger_log;
  runs.

Section LogCalls.

Variables (st : State) (l : nat) (h : ZapLogger.t) (log : zap.Logger) (cur : Z).
Hypothesis Hl : slot (zaploggers st) l = Some h.
Hypothesis Hcur : slot (atomics st) (ZapLogger.level h) = Some cur.
Hypothesis Hlog : slot (sugars st) (ZapLogger.zap h) = Some log.

Lemma Debugw_run (msg : string) (kvs : list Any) :
  ZapLogger_Debugw l msg kvs st = Some (tt, gated st h log cur zapcore.DebugLevel msg kvs).
Proof.
  unfold gated. run_log.
  destruct (bool_decide (zapcore.DebugLevel >= cur)); cbn [negb]; runs; reflexivity.
Qed.

Lemma Infow_run (msg : string) (kvs : list Any) :
  ZapLogger_Infow l msg kvs st = Some (tt, gated st h log cur zapcore.InfoLevel msg kvs).
Proof.
  unfold gated. run_log.
  destruct (bool_decide (zapcore.InfoLevel >= cur)); cbn [negb]; runs; reflexivity.
Qed.

Lemma Warnw_run (msg : string) (err : error) (kvs : list Any) :
  ZapLogger_Warnw l msg err kvs st
  = Some (tt, gated st h log cur zapcore.WarnLevel msg (with_error err kvs)).
Proof.
  unfold gated. run_log.
  destruct (bool_decide (zapcore.WarnLevel >= cur)); cbn [negb]; runs; reflexivity.
Qed.

Lemma Errorw_run (msg : string) (err : error) (kvs : list Any) :
  ZapLogger_Errorw l msg err kvs st
  = Some (tt, gated st h log cur zapcore.ErrorLevel msg (with_error err kvs)).
Proof.
  unfold gated. run_log.
  destruct (bool_decide (zapcore.ErrorLevel >= cur)); cbn [negb]; runs; reflexivity.
Qed.

End LogCalls.



(** On the handle of [st_warn], whose sink has no sampler, the entry of
    [Warnw] is written. *)
Lemma Warnw_unsampled_one_backend_write :
  one_backend_write (ZapLogger_Warnw 1 "warn" None []) st_warn.
Proof.
  exists 1%nat, log_console, zapcore.WarnLevel, "warn", [], (fun _ => 1).
  split; [vm_compute; reflexivity|]. split; [intros _; lia | reflexivity].
Qed.


(** C8: when the handle's level enables the call, [Warnw] and [Errorw] pass
    the caller's pairs to the backend, followed by the pair ["error"], [err]
    exactly when [err] is not nil. *)
Theorem error_pair_appended (st : State) (l : nat) (h : ZapLogger.t) (log : zap.Logger)
    (cur : Z) (msg : string) (err : error) (keysAndValues : list Any) :
  slot (zaploggers st) l = Some h ->
  slot (atomics st) (ZapLogger.level h) = Some cur ->
  slot (sugars st) (ZapLogger.zap h) = Some log ->
  let passed :=
    match err with
    | Some e => keysAndValues ++ [AString "error"; AError e]
    | None => keysAndValues
    end in
  (zapcore.WarnLevel >= cur ->
   ZapLogger_Warnw l msg err keysAndValues st
   = Some (tt, set_written
                 (fun w => w ++ [ZapWrite (ZapLogger.zap h) log zapcore.WarnLevel msg passed])
                 st)) /\
  (zapcore.ErrorLevel >= cur ->
   ZapLogger_Errorw l msg err keysAndValues st
   = Some (tt, set_written
                 (fun w => w ++ [ZapWrite (ZapLogger.zap h) log zapcore.ErrorLevel msg passed])
                 st)).
Proof.
  intros Hl Hc Hs passed. split; intros Hen.
  - rewrite (Warnw_run _ _ _ _ _ Hl Hc Hs). unfold gated.
    rewrite bool_decide_eq_true_2 by exact Hen. reflexivity.
  - rewrite (Errorw_run _ _ _ _ _ Hl Hc Hs). unfold gated.
    rewrite bool_decide_eq_true_2 by exact Hen. reflexivity.
Qed.

(** ** Derivations *)

Lemma slot_app_old {A} (l new : list A) (p : nat) (a : A) :
  slot l p = Some a -> slot (l ++ new) p = Some a.
Proof.
  destruct p as [|i]; simpl; [discriminate|].
  intros Hl. apply lookup_app_l_Some. exact Hl.
Qed.

Lemma slot_new2 {A} (l : list A) (x y : A) : slot (l ++ [x; y]) (S (S (length l))) = Some y.
Proof.
  change (l ++ [x; y]) with (l ++ [x] ++ [y]). rewrite app_assoc.
  replace (S (length l)) with (length (l ++ [x])) by (rewrite length_app; simpl; lia).
  apply slot_new.
Qed.

Lemma slot_new1 {A} (l : list A) (x y : A) : slot (l ++ [x; y]) (S (length l)) = Some x.
Proof. simpl. apply list_lookup_middle. reflexivity. Qed.

Lemma WithValues_derive (l : nat) (kvs : list Any) (st : State) :
  ZapLogger_WithValues l kvs st = derive (fun log => zap.With log kvs) l st.
Proof. reflexivity. Qed.

Lemma WithCallDepth_derive (l : nat) (depth : Z) (st : State) :
  ZapLogger_WithCallDepth l depth st
  = derive (fun log => zap.WithOptions log [zap.AddCallerSkip depth]) l st.
Proof. reflexivity. Qed.

Lemma WithName_derive (l : nat) (name : string) (st : State) :
  ZapLogger_WithName l name st = derive (fun log => zap.Named log name) l st.
Proof.
  unfold ZapLogger_WithName, ZapLogger_WithName_ptr, derive, SugaredLogger_Named,
    Sugar, new_ZapLogger.
  run.
  destruct (slot (zaploggers st) l) as [h|]; [|reflexivity].
  destruct (slot (sugars st) (ZapLogger.zap h)) as [lz|]; [|reflexivity].
  destruct (decide (ZapLogger.unsampled h = ZapLogger.zap h)); [reflexivity|].
  run.
  destruct (slot (sugars st ++ [zap.Named lz name]) (ZapLogger.unsampled h)); reflexivity.
Qed.

Lemma derive_spec (f : zap.Logger -> zap.Logger) (st : State) (l : nat) (h : ZapLogger.t) :
  slot (zaploggers st) l = Some h ->
  is_Some (slot (sugars st) (ZapLogger.zap h)) ->
  is_Some (slot (sugars st) (ZapLogger.unsampled h)) ->
  exists (st' : State) (h' : ZapLogger.t),
    derive f l st = Some (Zap (S (length (zaploggers st))), st') /\
    derived_from f st h st' h'.
Proof.
  intros Hl [lz Hz] [lu Hu].
  unfold derive, Sugar, new_ZapLogger. runs.
  destruct (decide (ZapLogger.unsampled h = ZapLogger.zap h)) as [Heq|Hne].
  - runs. eexists _, _. split; [reflexivity|].
    unfold derived_from. cbn.
    repeat split; try reflexivity.
    + eexists. reflexivity.
    + rewrite Hz. apply slot_new.
    + rewrite Heq, Hz. apply slot_new.
  - runs. rewrite (slot_old _ _ _ _ Hu). runs.
    eexists _, _. split; [reflexivity|].
    unfold derived_from. cbn - [slot].
    repeat split; try reflexivity.
    + rewrite <- app_assoc. eexists. reflexivity.
    + rewrite Hz, <- app_assoc. apply slot_new1.
    + rewrite Hu, <- app_assoc, length_app. cbn [length].
      replace (length (sugars st) + 1)%nat with (S (length (sugars st))) by lia.
      apply slot_new2.
    + intros Heq. contradiction.
Qed.

Lemma With_bound (c : zapcore.Core) (fs : list Any) :
  zapcore.bound (zapcore.With c fs) = zapcore.bound c ++ fs.
Proof. induction c as [enc fields|inner IH tick first thereafter]; [reflexivity | exact IH]. Qed.

(** The handle that [WithValues] returns does carry the pairs: they are
    bound to its sink, after those the receiver's sink has. *)
Lemma WithValues_binds (st : State) (l : nat) (h : ZapLogger.t) (log : zap.Logger)
    (keysAndValues : list Any) :
  slot (zaploggers st) l = Some h ->
  slot (sugars st) (ZapLogger.zap h) = Some log ->
  is_Some (slot (sugars st) (ZapLogger.unsampled h)) ->
  exists (l' : nat) (st' : State) (log' : zap.Logger),
    ZapLogger_WithValues l keysAndValues st = Some (Zap l', st') /\
    sink_of st' l' = Some log' /\
    zapcore.bound (zap.core log') = zapcore.bound (zap.core log) ++ keysAndValues.
Proof.
  intros Hl Hz Hu.
  destruct (derive_spec (fun lg => zap.With lg keysAndValues) st l h Hl)
    as (st' & h' & Hrun & Hzl & _ & _ & _ & _ & _ & _ & _ & Hz' & _); [eauto | exact Hu |].
  rewrite Hz in Hz'. cbn [fmap option_fmap option_map] in Hz'.
  exists (S (length (zaploggers st))), st', (zap.With log keysAndValues).
  rewrite WithValues_derive. split; [exact Hrun|]. split.
  - unfold sink_of. rewrite Hzl, slot_new. exact Hz'.
  - apply With_bound.
Qed.

(** C7: when the sampled and the unsampled sink of a handle are the same
    object, they are the same object in the handle that [WithValues],
    [WithName] or [WithCallDepth] returns. *)
Theorem derivation_keeps_alias (st : State) (l : nat) (h : ZapLogger.t)
    (keysAndValues : list Any) (name : string) (depth : Z) :
  slot (zaploggers st) l = Some h ->
  ZapLogger.unsampled h = ZapLogger.zap h ->
  is_Some (slot (sugars st) (ZapLogger.zap h)) ->
  let aliased (r : option (Logger * State)) :=
    exists (l' : nat) (st' : State) (h' : ZapLogger.t),
      r = Some (Zap l', st') /\
      slot (zaploggers st') l' = Some h' /\
      ZapLogger.unsampled h' = ZapLogger.zap h' in
  aliased (ZapLogger_WithValues l keysAndValues st) /\
  aliased (ZapLogger_WithName l name st) /\
  aliased (ZapLogger_WithCallDepth l depth st).
Proof.
  intros Hl Heq Hz aliased.
  assert (Hd : forall f, aliased (derive f l st)).
  { intros f.
    destruct (derive_spec f st l h Hl Hz) as (st' & h' & Hrun & Hst'); [rewrite Heq; exact Hz|].
    destruct Hst' as (Hzl & _ & _ & _ & _ & _ & _ & _ & _ & _ & Halias).
    exists (S (length (zaploggers st))), st', h'. split; [exact Hrun|]. split.
    - rewrite Hzl. apply slot_new.
    - apply Halias, Heq. }
  rewrite WithValues_derive, WithName_derive, WithCallDepth_derive.
  repeat split; apply Hd.
Qed.

(** C6: [WithValues] returns a new handle and leaves the handle it was
    called on as it was: the handle's fields, its sinks and its level cell
    are unchanged, so every later logging call on it makes the backend call
    it would have made before, without the attached values. *)
Theorem WithValues_leaves_receiver (st : State) (l : nat) (h : ZapLogger.t)
    (keysAndValues : list Any) :
  slot (zaploggers st) l = Some h ->
  handle_ok st h ->
  exists (l' : nat) (st' : State),
    ZapLogger_WithValues l keysAndValues st = Some (Zap l', st') /\
    l' <> l /\
    slot (zaploggers st') l = Some h /\
    slot (sugars st') (ZapLogger.zap h) = slot (sugars st) (ZapLogger.zap h) /\
    slot (sugars st') (ZapLogger.unsampled h) = slot (sugars st) (ZapLogger.unsampled h) /\
    slot (atomics st') (ZapLogger.level h) = slot (atomics st) (ZapLogger.level h) /\
    forall call : LogCall,
      emitted (ZapLogger_call l call) st' = emitted (ZapLogger_call l call) st.
Proof.
  intros Hl ([lz Hz] & [lu Hu] & [cur Hcur]).
  destruct (derive_spec (fun log => zap.With log keysAndValues) st l h Hl) as (st' & h' & Hrun & Hst');
    [eauto | eauto |].
  destruct Hst' as (Hzl & [new Hsug] & Hat & _ & Hw & _).
  assert (Hl' : slot (zaploggers st') l = Some h)
    by (rewrite Hzl; apply slot_old, Hl).
  assert (Hz' : slot (sugars st') (ZapLogger.zap h) = Some lz)
    by (rewrite Hsug; apply slot_app_old, Hz).
  assert (Hu' : slot (sugars st') (ZapLogger.unsampled h) = Some lu)
    by (rewrite Hsug; apply slot_app_old, Hu).
  assert (Hcur' : slot (atomics st') (ZapLogger.level h) = Some cur)
    by (rewrite Hat; exact Hcur).
  exists (S (length (zaploggers st))), st'.
  rewrite WithValues_derive. split; [exact Hrun|].
  split; [apply slot_Some_pos in Hl; lia|].
  split; [exact Hl'|].
  split; [congruence|]. split; [congruence|]. split; [congruence|].
  intros call. unfold emitted.
  destruct call; cbn [ZapLogger_call];
    rewrite ?(Debugw_run _ _ _ _ _ Hl Hcur Hz), ?(Debugw_run _ _ _ _ _ Hl' Hcur' Hz'),
      ?(Infow_run _ _ _ _ _ Hl Hcur Hz), ?(Infow_run _ _ _ _ _ Hl' Hcur' Hz'),
      ?(Warnw_run _ _ _ _ _ Hl Hcur Hz), ?(Warnw_run _ _ _ _ _ Hl' Hcur' Hz'),
      ?(Errorw_run _ _ _ _ _ Hl Hcur Hz), ?(Errorw_run _ _ _ _ _ Hl' Hcur' Hz');
    unfold gated; case_bool_decide; cbn [written set_written]; rewrite ?Hw; reflexivity.
Qed.

(** C4: for a handle with a sampling window, [WithItemSampler] followed by
    [WithoutSampler] gives a handle whose active sink is the very object
    that is the unsampled sink of the first handle, and whose unsampled
    sink is that object too. *)
Theorem sampler_round_trip (st : State) (l : nat) (h : ZapLogger.t) :
  slot (zaploggers st) l = Some h ->
  ZapLogger.SampleDuration h <> 0 ->
  is_Some (slot (sugars st) (ZapLogger.unsampled h)) ->
  exists (l2 : nat) (st2 : State) (h2 : ZapLogger.t),
    (let* sampled := Logger_WithItemSampler (Zap l) in Logger_WithoutSampler sampled) st
    = Some (Zap l2, st2) /\
    slot (zaploggers st2) l2 = Some h2 /\
    ZapLogger.zap h2 = ZapLogger.unsampled h /\
    ZapLogger.unsampled h2 = ZapLogger.unsampled h /\
    slot (sugars st2) (ZapLogger.unsampled h) = slot (sugars st) (ZapLogger.unsampled h).
Proof.
  intros Hl Hdur [lu Hu].
  pose proof (slot_Some_pos _ _ _ Hu) as Hpos.
  unfold Logger_WithItemSampler, Logger_WithoutSampler, ZapLogger_WithItemSampler,
    ZapLogger_WithoutSampler, SugaredLogger_WithOptions, Sugar, new_ZapLogger.
  runs.
  destruct (decide (ZapLogger.SampleDuration h = 0)) as [|_]; [contradiction|].
  runs. cbn [ZapLogger.unsampled ZapLogger.zap with_zap].
  destruct (decide (ZapLogger.unsampled h = S (length (sugars st)))) as [Heq|_]; [lia|].
  runs.
  eexists _, _, _. split; [reflexivity|]. cbn [zaploggers sugars].
  split; [rewrite length_app, <- app_assoc; cbn [length app];
          replace (length (zaploggers st) + 1)%nat with (S (length (zaploggers st))) by lia;
          apply slot_new2|].
  split; [reflexivity|]. split; [reflexivity|].
  apply slot_old, Hu.
Qed.


(** ** Construction *)

Lemma bind_run {A B} (m : Go A) (k : A -> Go B) (st st' : State) (a : A) :
  m st = Some (a, st') -> bind m k st = k a st'.
Proof. intros Hm. unfold bind. rewrite Hm. reflexivity. Qed.

(** [NewZapLogger] when the backend cannot be built: nil and the error; the
    singletons and the backend are untouched. *)
Lemma NewZapLogger_fails `{Environment} (st : State) (conf : Config.t) (e : string) :
  Build (NewZapLogger_zc conf (S (S (length (atomics st))))) = inl e ->
  exists st' : State,
    NewZapLogger conf st = Some ((nil_ptr, Some e), st') /\
    defaultLogger st' = defaultLogger st /\
    pkgLogger st' = pkgLogger st /\
    written st' = written st.
Proof.
  intros Hbuild.
  unfold NewZapLogger, newSharedConfig, new_sharedConfig, NewAtomicLevelAt, new_ZapLogger.
  runs. rewrite length_app. cbn [length]. rewrite Nat.add_1_r.
  rewrite Hbuild. runs.
  eexists. split; [reflexivity|]. repeat split.
Qed.

(** [NewZapLogger] when the backend is built: a new handle on a new
    registry, with the built logger as unsampled sink. *)
Lemma NewZapLogger_builds `{Environment} (st : State) (conf : Config.t)
    (build : zap.Logger) :
  Build (NewZapLogger_zc conf (S (S (length (atomics st))))) = inr build ->
  exists (st' : State) (h : ZapLogger.t),
    NewZapLogger conf st = Some ((S (length (zaploggers st)), None), st') /\
    slot (zaploggers st') (S (length (zaploggers st))) = Some h /\
    length (zaploggers st') = S (length (zaploggers st)) /\
    slot (sugars st') (ZapLogger.unsampled h) = Some build /\
    slot (sugars st') (ZapLogger.zap h)
    = Some (if Config.Sample conf then sampled_sink conf build else build) /\
    (Config.Sample conf = false -> ZapLogger.zap h = ZapLogger.unsampled h) /\
    slot (atomics st') (ZapLogger.level h) = Some (ParseZapLevel (Config.Level conf)) /\
    slot (shareds st') (ZapLogger.sharedConfig h)
    = Some (sharedConfig.mk (ZapLogger.level h) ∅ conf) /\
    defaultLogger st' = defaultLogger st /\
    pkgLogger st' = pkgLogger st /\
    written st' = written st.
Proof.
  intros Hbuild.
  unfold NewZapLogger, newSharedConfig, new_sharedConfig, NewAtomicLevelAt, new_ZapLogger.
  runs. rewrite length_app. cbn [length]. rewrite Nat.add_1_r.
  rewrite Hbuild.
  unfold Sugar, put_ZapLogger. runs.
  destruct (Config.Sample conf) eqn:Hsample.
  - runs. cbn [Init.Nat.pred]. rewrite insert_app_r_alt by lia.
    rewrite Nat.sub_diag. cbn [insert list_insert].
    runs.
    eexists _, _. split; [reflexivity|]. cbn [zaploggers sugars atomics shareds].
    rewrite insert_app_r_alt by lia. rewrite Nat.sub_diag. cbn [insert list_insert].
    split; [apply slot_new|].
    cbn [ZapLogger.unsampled ZapLogger.zap ZapLogger.level ZapLogger.sharedConfig
         with_zap with_unsampled sharedConfig.level].
    split; [rewrite length_app; cbn [length]; lia|].
    split; [apply slot_old, slot_new|].
    split; [rewrite ?length_app, <- app_assoc; cbn [app length]; rewrite ?Nat.add_1_r;
            apply slot_new2|].
    split; [discriminate|].
    split; [apply slot_old, slot_new|].
    split; [apply slot_new|].
    repeat split.
  - runs. cbn [Init.Nat.pred]. rewrite insert_app_r_alt by lia.
    rewrite Nat.sub_diag. cbn [insert list_insert].
    runs.
    eexists _, _. split; [reflexivity|]. cbn [zaploggers sugars atomics shareds].
    rewrite insert_app_r_alt by lia. rewrite Nat.sub_diag. cbn [insert list_insert].
    split; [apply slot_new|].
    cbn [ZapLogger.unsampled ZapLogger.zap ZapLogger.level ZapLogger.sharedConfig
         with_zap with_unsampled sharedConfig.level].
    split; [rewrite length_app; cbn [length]; lia|].
    split; [apply slot_new|].
    split; [apply slot_new|].
    split; [reflexivity|].
    split; [apply slot_old, slot_new|].
    split; [apply slot_new|].
    repeat split.
Qed.

(** C10: with [Sample] set, [NewZapLogger] installs on the default sink a
    sampler with a window of one second, an initial burst of 20 when the
    configured initial burst is 0 and an interval of 100 when the configured
    interval is 0; without [Sample], the sampled and the unsampled sink of
    the new handle are one object. *)
Theorem NewZapLogger_sampling `{Environment} (st : State) (conf : Config.t)
    (build : zap.Logger) :
  Build (NewZapLogger_zc conf (S (S (length (atomics st))))) = inr build ->
  exists (l : nat) (st' : State) (h : ZapLogger.t),
    NewZapLogger conf st = Some ((l, None), st') /\
    slot (zaploggers st') l = Some h /\
    slot (sugars st') (ZapLogger.unsampled h) = Some build /\
    (Config.Sample conf = true ->
     exists first thereafter : Z,
       slot (sugars st') (ZapLogger.zap h)
       = Some (zap.mkLogger (zapcore.sampler (zap.core build) time.Second first thereafter)
                            (zap.name build) (zap.callerSkip build)) /\
       (Config.ItemSampleInitial conf = 0 -> first = 20) /\
       (Config.ItemSampleInitial conf <> 0 -> first = Config.ItemSampleInitial conf) /\
       (Config.SampleInterval conf = 0 -> thereafter = 100) /\
       (Config.SampleInterval conf <> 0 -> thereafter = Config.SampleInterval conf)) /\
    (Config.Sample conf = false -> ZapLogger.zap h = ZapLogger.unsampled h).
Proof.
  intros Hbuild.
  destruct (NewZapLogger_builds st conf build Hbuild)
    as (st' & h & Hrun & Hh & _ & Hu & Hz & Halias & _).
  exists (S (length (zaploggers st))), st', h.
  split; [exact Hrun|]. split; [exact Hh|]. split; [exact Hu|]. split; [|exact Halias].
  intros Hsample. rewrite Hsample in Hz.
  eexists _, _. split; [exact Hz|].
  repeat split; intros Hcase; case_decide; congruence.
Qed.

(** ** The singletons *)

Lemma derived_from_handles (f : zap.Logger -> zap.Logger) (st st' : State)
    (h h' x : ZapLogger.t) (p : nat) :
  derived_from f st h st' h' ->
  slot (zaploggers st) p = Some x -> slot (zaploggers st') p = Some x.
Proof. intros (Hzl & _) Hp. rewrite Hzl. apply slot_old, Hp. Qed.

Lemma derived_from_sinks (f : zap.Logger -> zap.Logger) (st st' : State)
    (h h' : ZapLogger.t) (x : zap.Logger) (p : nat) :
  derived_from f st h st' h' ->
  slot (sugars st) p = Some x -> slot (sugars st') p = Some x.
Proof. intros (_ & [new Hs] & _) Hp. rewrite Hs. apply slot_app_old, Hp. Qed.

Lemma wrap64_add_l (a b : Z) : wrap64 (wrap64 a + b) = wrap64 (a + b).
Proof.
  unfold wrap64. f_equal.
  replace ((a + 2 ^ 63) mod 2 ^ 64 - 2 ^ 63 + b + 2 ^ 63)
    with ((a + 2 ^ 63) mod 2 ^ 64 + b) by lia.
  rewrite Zplus_mod_idemp_l. f_equal. lia.
Qed.

Lemma int_add_add (a b c : Z) : int_add (int_add a b) c = int_add a (b + c).
Proof. unfold int_add. rewrite wrap64_add_l. f_equal. lia. Qed.

(** Two derivations in a row, as [SetLogger] makes them:
    [l.WithCallDepth(depth).WithName(name)]. *)
Lemma WithCallDepth_WithName (st : State) (l : nat) (h : ZapLogger.t) (log : zap.Logger)
    (depth : Z) (name : string) :
  slot (zaploggers st) l = Some h ->
  slot (sugars st) (ZapLogger.zap h) = Some log ->
  is_Some (slot (sugars st) (ZapLogger.unsampled h)) ->
  exists (st' : State),
    (let* d := Logger_WithCallDepth (Zap l) depth in Logger_WithName d name) st
    = Some (Zap (S (S (length (zaploggers st)))), st') /\
    sink_of st' (S (S (length (zaploggers st))))
    = Some (zap.Named (zap.WithOptions log [zap.AddCallerSkip depth]) name) /\
    length (zaploggers st') = S (S (length (zaploggers st))) /\
    (forall p x, slot (zaploggers st) p = Some x -> slot (zaploggers st') p = Some x) /\
    (forall p x, slot (sugars st) p = Some x -> slot (sugars st') p = Some x) /\
    atomics st' = atomics st /\
    shareds st' = shareds st /\
    written st' = written st /\
    defaultLogger st' = defaultLogger st /\
    pkgLogger st' = pkgLogger st.
Proof.
  intros Hl Hz [lu Hu].
  cbn [Logger_WithCallDepth].
  destruct (derive_spec (fun lg => zap.WithOptions lg [zap.AddCallerSkip depth]) st l h Hl)
    as (st1 & h1 & Hrun1 & Hd1); [eauto | eauto |].
  rewrite <- WithCallDepth_derive in Hrun1.
  rewrite (bind_run _ _ _ _ _ Hrun1). cbn [Logger_WithName].
  pose proof Hd1 as (Hzl1 & _ & Hat1 & Hsh1 & Hw1 & Hdl1 & Hpl1 & _ & Hz1 & Hu1 & _).
  rewrite Hz in Hz1. rewrite Hu in Hu1. cbn [fmap option_fmap option_map] in Hz1, Hu1.
  assert (Hl1 : slot (zaploggers st1) (S (length (zaploggers st))) = Some h1)
    by (rewrite Hzl1; apply slot_new).
  destruct (derive_spec (fun lg => zap.Named lg name) st1 _ h1 Hl1)
    as (st2 & h2 & Hrun2 & Hd2); [eauto | eauto |].
  rewrite <- WithName_derive in Hrun2.
  pose proof Hd2 as (Hzl2 & _ & Hat2 & Hsh2 & Hw2 & Hdl2 & Hpl2 & _ & Hz2 & _).
  rewrite Hz1 in Hz2. cbn [fmap option_fmap option_map] in Hz2.
  assert (Hlen1 : length (zaploggers st1) = S (length (zaploggers st)))
    by (rewrite Hzl1, length_app; cbn [length]; lia).
  rewrite Hlen1 in Hrun2.
  exists st2. split; [exact Hrun2|].
  split.
  { unfold sink_of. rewrite Hzl2, <- Hlen1, slot_new. exact Hz2. }
  split; [rewrite Hzl2, length_app, Hlen1; cbn [length]; lia|].
  split; [intros p x Hp; eapply derived_from_handles; [exact Hd2|];
          eapply derived_from_handles; [exact Hd1 | exact Hp]|].
  split; [intros p x Hp; eapply derived_from_sinks; [exact Hd2|];
          eapply derived_from_sinks; [exact Hd1 | exact Hp]|].
  repeat split; congruence.
Qed.

(** [SetLogger] on a [ZapLogger] handle: both singletons become new handles,
    derived from the argument with depths 1 and 2 and then named. *)
Lemma SetLogger_Zap (st : State) (l : nat) (h : ZapLogger.t) (log : zap.Logger)
    (name : string) :
  slot (zaploggers st) l = Some h ->
  slot (sugars st) (ZapLogger.zap h) = Some log ->
  is_Some (slot (sugars st) (ZapLogger.unsampled h)) ->
  exists (st' : State) (d p : nat),
    SetLogger (Zap l) name st = Some (tt, st') /\
    defaultLogger st' = Zap d /\
    pkgLogger st' = Zap p /\
    (length (zaploggers st) < d)%nat /\
    (length (zaploggers st) < p)%nat /\
    sink_of st' d = Some (zap.Named (zap.WithOptions log [zap.AddCallerSkip 1]) name) /\
    sink_of st' p = Some (zap.Named (zap.WithOptions log [zap.AddCallerSkip 2]) name) /\
    sink_of st' l = Some log /\
    written st' = written st.
Proof.
  intros Hl Hz Hu.
  destruct (WithCallDepth_WithName st l h log 1 name Hl Hz Hu)
    as (st1 & Hrun1 & Hs1 & Hlen1 & Hkeep1 & Hsk1 & _ & _ & Hw1 & _).
  set (st1' := set_defaultLogger (Zap (S (S (length (zaploggers st))))) st1).
  destruct Hu as [lu Hu].
  destruct (WithCallDepth_WithName st1' l h log 2 name)
    as (st2 & Hrun2 & Hs2 & Hlen2 & Hkeep2 & Hsk2 & _ & _ & Hw2 & Hdl2 & _);
    [apply Hkeep1, Hl | apply Hsk1, Hz | eexists; apply Hsk1, Hu |].
  cbn [st1' zaploggers set_defaultLogger defaultLogger written] in *.
  exists (set_pkgLogger (Zap (S (S (length (zaploggers st1))))) st2),
    (S (S (length (zaploggers st)))), (S (S (length (zaploggers st1)))).
  split.
  { unfold SetLogger.
    unfold bind at 1. unfold bind at 1 in Hrun1.
    destruct (Logger_WithCallDepth (Zap l) 1 st) as [[d1 s1]|]; [|discriminate].
    unfold bind at 1. rewrite Hrun1.
    unfold bind at 1. unfold modify at 1.
    fold st1'.
    unfold bind at 1. unfold bind at 1 in Hrun2.
    destruct (Logger_WithCallDepth (Zap l) 2 st1') as [[d2 s2]|]; [|discriminate].
    unfold bind at 1. rewrite Hrun2. reflexivity. }
  cbn [set_pkgLogger defaultLogger pkgLogger written zaploggers].
  split; [exact Hdl2|]. split; [reflexivity|].
  split; [lia|]. split; [lia|].
  unfold sink_of in *. cbn [zaploggers sugars set_pkgLogger].
  split.
  { destruct (slot (zaploggers st1) (S (S (length (zaploggers st))))) as [hd|] eqn:Hhd;
      [|discriminate].
    rewrite (Hkeep2 _ _ Hhd). apply Hsk2. exact Hs1. }
  split; [exact Hs2|].
  split; [|congruence].
  rewrite (Hkeep2 _ _ (Hkeep1 _ _ Hl)). apply Hsk2, Hsk1, Hz.
Qed.

Lemma Named_name (log : zap.Logger) (opts : list zap.Option) (name : string) :
  zap.name (zap.Named (zap.WithOptions log opts) name) = zap.name (zap.Named log name).
Proof.
  assert (Hn : zap.name (zap.WithOptions log opts) = zap.name log).
  { unfold zap.WithOptions. revert log.
    induction opts as [|o opts IH]; intros log; [reflexivity|].
    cbn [fold_left]. rewrite IH. destruct o; reflexivity. }
  unfold zap.Named. rewrite Hn.
  repeat case_decide; cbn [zap.name]; congruence.
Qed.

(** C5, as the code has it: [SetLogger] on a [ZapLogger] handle replaces
    both singletons, the default handle one caller frame and the package
    handle two caller frames deeper than the argument (one more than the
    default), both named [name]. *)
Theorem SetLogger_depths_1_2 (st : State) (l : nat) (h : ZapLogger.t) (name : string) :
  slot (zaploggers st) l = Some h ->
  handle_ok st h ->
  SetLogger_installs 1 2 st l name.
Proof.
  intros Hl ([log Hz] & Hu & _).
  destruct (SetLogger_Zap st l h log name Hl Hz Hu)
    as (st' & d & p & Hrun & Hd & Hp & Hfd & Hfp & Hsd & Hsp & _).
  eexists st', d, p, log, _, _.
  split; [exact Hrun|].
  split; [unfold sink_of; rewrite Hl; exact Hz|].
  split; [exact Hd|]. split; [exact Hfd|]. split; [exact Hsd|].
  split; [exact Hp|]. split; [exact Hfp|]. split; [exact Hsp|].
  assert (Hskip : forall k,
             zap.callerSkip (zap.Named (zap.WithOptions log [zap.AddCallerSkip k]) name)
             = int_add (zap.callerSkip log) k).
  { intros k. unfold zap.Named. repeat case_decide; reflexivity. }
  rewrite !Hskip, !Named_name, int_add_add.
  repeat split; reflexivity.
Qed.

(** C5 as stated (default handle at depth 0, package handle at depth 2)
    fails on the handle that [NewZapLogger] makes from the configuration of
    [cmd/main.go]. *)
Lemma SetLogger_depths_0_2_fails : ~ SetLogger_installs 0 2 st_main 1 "OpsLink".
Proof.
  intros (st' & d & p & base & ld & lp & Hrun & Hbase & Hd & _ & Hld & _ & _ & _ & Hskip & _).
  vm_compute in Hrun. injection Hrun as <-.
  vm_compute in Hbase. injection Hbase as <-.
  vm_compute in Hd. injection Hd as <-.
  vm_compute in Hld. injection Hld as <-.
  vm_compute in Hskip. discriminate.
Qed.

(** C9: when the backend cannot be built, [InitLogConfig] returns and both
    singletons keep their values, which at start are the discarding logger;
    when it is built, both are replaced through [SetLogger]. *)
Theorem InitLogConfig_singletons `{Environment} (st : State) (conf : Config.t)
    (system : string) :
  let zc := NewZapLogger_zc conf (S (S (length (atomics st)))) in
  (forall e : string,
     Build zc = inl e ->
     exists st' : State,
       InitLogConfig conf system st = Some (tt, st') /\
       defaultLogger st' = defaultLogger st /\
       pkgLogger st' = pkgLogger st /\
       written st' = written st) /\
  (forall build : zap.Logger,
     Build zc = inr build ->
     exists (l : nat) (st1 st' : State) (d p : nat),
       NewZapLogger conf st = Some ((l, None), st1) /\
       SetLogger (Zap l) system st1 = Some (tt, st') /\
       InitLogConfig conf system st = Some (tt, st') /\
       defaultLogger st' = Zap d /\ (length (zaploggers st) < d)%nat /\
       pkgLogger st' = Zap p /\ (length (zaploggers st) < p)%nat) /\
  defaultLogger initial = LogR discardLogger /\
  pkgLogger initial = LogR discardLogger /\
  (forall (s : State) (msg : string) (err : error) (kvs : list Any),
     Logger_Debugw (LogR discardLogger) msg kvs s = Some (tt, s) /\
     Logger_Infow (LogR discardLogger) msg kvs s = Some (tt, s) /\
     Logger_Warnw (LogR discardLogger) msg err kvs s = Some (tt, s) /\
     Logger_Errorw (LogR discardLogger) msg err kvs s = Some (tt, s)).
Proof.
  intros zc. split; [|split].
  - intros e Hbuild.
    destruct (NewZapLogger_fails st conf e Hbuild) as (st' & Hrun & Hd & Hp & Hw).
    exists st'. unfold InitLogConfig. rewrite (bind_run _ _ _ _ _ Hrun).
    repeat split; assumption.
  - intros build Hbuild.
    destruct (NewZapLogger_builds st conf build Hbuild)
      as (st1 & h & Hrun & Hh & Hlen & Hu & Hz & _).
    destruct (SetLogger_Zap st1 _ h _ system Hh Hz)
      as (st' & d & p & Hset & Hd & Hp & Hfd & Hfp & _); [eauto|].
    exists (S (length (zaploggers st))), st1, st', d, p.
    split; [exact Hrun|]. split; [exact Hset|].
    split; [unfold InitLogConfig; rewrite (bind_run _ _ _ _ _ Hrun); exact Hset|].
    repeat split; try assumption; lia.
  - repeat split.
Qed.

(** ** Reloading the configuration *)

Lemma SetLevel_run (st : State) (a : nat) (old new : Z) :
  slot (atomics st) a = Some old ->
  AtomicLevel_SetLevel a new st
  = Some (tt, set_atomics (fun cells => <[pred a := new]> cells) st).
Proof. intros Ha. unfold AtomicLevel_SetLevel. runs. reflexivity. Qed.

Lemma slot_insert_is_Some {A} (l : list A) (p q : nat) (b : A) :
  is_Some (slot l q) -> is_Some (slot (<[pred p := b]> l) q).
Proof.
  destruct q as [|j]; simpl; [intros [? ?]; discriminate|].
  rewrite !lookup_lt_is_Some, length_insert. trivial.
Qed.

(** The range loop of [onConfigUpdate] over a list of distinct cells, none
    of them the default cell holding [d]: every cell ends with the level
    resolved for its path; no other cell changes. *)
Lemma for_range_recompute `{Environment} (cfg : sharedConfig.t) (conf : Config.t) (d : Z)
    (entries : list (string * nat)) :
  forall st : State,
    slot (atomics st) (sharedConfig.level cfg) = Some d ->
    Forall (fun e => is_Some (slot (atomics st) e.2) /\ e.2 <> sharedConfig.level cfg)
           entries ->
    NoDup (entries.*2) ->
    exists st' : State,
      for_range entries (onConfigUpdate_component cfg conf) st = Some (tt, st') /\
      (forall path cell, (path, cell) ∈ entries ->
         slot (atomics st') cell
         = Some (resolveLevel (Config.ComponentLevels conf) d path)) /\
      (forall q, q ∉ entries.*2 -> slot (atomics st') q = slot (atomics st) q) /\
      length (atomics st') = length (atomics st) /\
      sugars st' = sugars st /\ shareds st' = shareds st /\
      zaploggers st' = zaploggers st /\ written st' = written st /\
      defaultLogger st' = defaultLogger st /\ pkgLogger st' = pkgLogger st.
Proof.
  induction entries as [|[path cell] rest IH]; intros st Hd Hok Hnd.
  - exists st. split; [reflexivity|]. split; [intros ? ? Hin; inversion Hin|].
    repeat split.
  - apply Forall_cons in Hok as [[[old Hcell] Hne] Hrest]. cbn [snd] in Hcell, Hne.
    rewrite fmap_cons in Hnd. apply NoDup_cons in Hnd as [Hfresh Hnd]. cbn [snd] in Hfresh.
    set (v := resolveLevel (Config.ComponentLevels conf) d path).
    set (st1 := set_atomics (fun cells => <[pred cell := v]> cells) st).
    assert (Hstep : onConfigUpdate_component cfg conf (path, cell) st = Some (tt, st1)).
    { unfold onConfigUpdate_component, AtomicLevel_Level.
      rewrite (bind_run _ _ st st d) by (unfold deref; rewrite Hd; reflexivity).
      rewrite confSearch_Split. fold (resolveLevel (Config.ComponentLevels conf) d path).
      apply (SetLevel_run _ _ old). exact Hcell. }
    destruct (IH st1) as (st' & Hrun & Hset & Hother & Hlen & Hrest').
    { cbn [st1 set_atomics atomics]. rewrite (slot_insert_ne _ _ _ old) by auto. exact Hd. }
    { eapply Forall_impl; [exact Hrest|]. intros e [Hs Hn]. split; [|exact Hn].
      cbn [st1 set_atomics atomics]. apply slot_insert_is_Some, Hs. }
    { exact Hnd. }
    exists st'. split.
    { cbn [for_range]. rewrite (bind_run _ _ _ _ _ Hstep). exact Hrun. }
    split.
    { intros path' cell' Hin. apply elem_of_cons in Hin as [Heq|Hin].
      - injection Heq as -> ->. rewrite (Hother _ Hfresh).
        cbn [st1 set_atomics atomics]. apply (slot_insert_eq _ _ old), Hcell.
      - apply Hset, Hin. }
    split.
    { intros q Hq. rewrite fmap_cons in Hq. apply not_elem_of_cons in Hq as [Hqc Hq].
      cbn [snd] in Hqc. rewrite (Hother _ Hq).
      cbn [st1 set_atomics atomics]. apply (slot_insert_ne _ _ _ old); auto. }
    split; [rewrite Hlen; cbn [st1 set_atomics atomics]; apply length_insert|].
    exact Hrest'.
Qed.

Lemma resolveLevel_svc_a `{Environment} (levels : gmap string string) (d : Z) (lvl : string) :
  levels !! "svc.a" = None ->
  levels !! "svc" = Some lvl ->
  resolveLevel levels d "svc.a" = ParseZapLevel lvl.
Proof.
  intros Ha Hs. unfold resolveLevel.
  change (ancestors "svc.a") with ["svc.a"; "svc"].
  cbn [firstConfigured]. rewrite Ha, Hs. reflexivity.
Qed.

(** [onConfigUpdate] on a well-formed registry: it returns nil, the default
    cell holds the parsed level of [conf], every cached cell the level
    resolved for its path, and the registry keeps its cells. *)
Lemma onConfigUpdate_run `{Environment} (st : State) (c : nat) (cfg : sharedConfig.t)
    (conf : Config.t) :
  slot (shareds st) c = Some cfg ->
  registry_ok st cfg ->
  exists st' : State,
    sharedConfig_onConfigUpdate c conf st = Some (None, st') /\
    slot (atomics st') (sharedConfig.level cfg) = Some (ParseZapLevel (Config.Level conf)) /\
    (forall (path : string) (cell : nat),
       sharedConfig.componentLevels cfg !! path = Some cell ->
       slot (atomics st') cell
       = Some (resolveLevel (Config.ComponentLevels conf)
                 (ParseZapLevel (Config.Level conf)) path)) /\
    length (atomics st') = length (atomics st) /\
    shareds st'
    = <[pred c := sharedConfig.mk (sharedConfig.level cfg)
                    (sharedConfig.componentLevels cfg) conf]> (shareds st).
Proof.
  intros Hc ([old Hlevel] & Hcells & Hnd).
  set (d := ParseZapLevel (Config.Level conf)).
  set (cfg' := sharedConfig.mk (sharedConfig.level cfg) (sharedConfig.componentLevels cfg) conf).
  set (st1 := set_shareds (fun s => <[pred c := cfg']> s)
                (set_atomics (fun cells => <[pred (sharedConfig.level cfg) := d]> cells) st)).
  pose proof (rangeOrder_perm (sharedConfig.componentLevels cfg)) as Hperm.
  destruct (for_range_recompute cfg' conf d
              (rangeOrder (sharedConfig.componentLevels cfg)) st1)
    as (st' & Hrun & Hset & Hother & Hlen & _ & Hsh & _).
  { cbn [st1 cfg' set_shareds set_atomics atomics sharedConfig.level].
    apply (slot_insert_eq _ _ old), Hlevel. }
  { cbn [cfg' sharedConfig.level].
    assert (Hall : Forall (fun cell => is_Some (slot (atomics st1) cell)
                                       /\ cell <> sharedConfig.level cfg)
                          ((rangeOrder (sharedConfig.componentLevels cfg)).*2)).
    { rewrite Hperm. eapply Forall_impl; [exact Hcells|].
      intros cell [Hs Hn]. split; [|exact Hn].
      cbn [st1 set_shareds set_atomics atomics]. apply slot_insert_is_Some, Hs. }
    apply Forall_fmap in Hall. exact Hall. }
  { rewrite Hperm. exact Hnd. }
  exists st'. split.
  { unfold sharedConfig_onConfigUpdate.
    rewrite (bind_run _ _ st st cfg) by (unfold deref; rewrite Hc; reflexivity).
    rewrite (bind_run _ _ _ _ _ (SetLevel_run _ _ old _ Hlevel)).
    unfold put_sharedConfig.
    rewrite (bind_run _ _ _ st1 tt).
    2:{ unfold deref. run. rewrite Hc. reflexivity. }
    rewrite (bind_run _ _ _ _ _ Hrun). reflexivity. }
  split.
  { rewrite Hother.
    - cbn [st1 set_shareds set_atomics atomics]. apply (slot_insert_eq _ _ old), Hlevel.
    - intros Hin. rewrite Hperm in Hin.
      rewrite Forall_forall in Hcells. destruct (Hcells _ Hin) as [_ Hn]. congruence. }
  split.
  { intros path cell Hpc. apply Hset. rewrite Hperm. apply elem_of_map_to_list, Hpc. }
  split.
  { rewrite Hlen. cbn [st1 set_shareds set_atomics atomics]. apply length_insert. }
  rewrite Hsh. reflexivity.
Qed.

(** C2: after [onConfigUpdate(conf)] every cached component cell reads the
    level of the most specific ancestor of its path configured in [conf],
    or the new default level when there is none; so the cell cached for
    ["svc.a"] reads Error once [conf] configures ["svc"] as Error, whatever
    it read before. *)
Theorem onConfigUpdate_recomputes `{Environment} (st : State) (c : nat)
    (cfg : sharedConfig.t) (conf : Config.t) :
  slot (shareds st) c = Some cfg ->
  registry_ok st cfg ->
  exists st' : State,
    sharedConfig_onConfigUpdate c conf st = Some (None, st') /\
    slot (atomics st') (sharedConfig.level cfg) = Some (ParseZapLevel (Config.Level conf)) /\
    (forall (path : string) (cell : nat),
       sharedConfig.componentLevels cfg !! path = Some cell ->
       slot (atomics st') cell
       = Some (resolveLevel (Config.ComponentLevels conf)
                 (ParseZapLevel (Config.Level conf)) path)) /\
    (forall (cell : nat) (lvl : string),
       sharedConfig.componentLevels cfg !! "svc.a" = Some cell ->
       Config.ComponentLevels conf !! "svc.a" = None ->
       Config.ComponentLevels conf !! "svc" = Some lvl ->
       ParseZapLevel lvl = zapcore.ErrorLevel ->
       slot (atomics st') cell = Some zapcore.ErrorLevel).
Proof.
  intros Hc Hok.
  destruct (onConfigUpdate_run st c cfg conf Hc Hok) as (st' & Hrun & Hdflt & Hres & _).
  exists st'. split; [exact Hrun|]. split; [exact Hdflt|]. split; [exact Hres|].
  intros cell lvl Hcell Ha Hs Hlvl.
  rewrite (Hres _ _ Hcell), (resolveLevel_svc_a _ _ _ Ha Hs), Hlvl. reflexivity.
Qed.

(** ** Well-formed registries are what the package maintains *)

Lemma slot_is_Some {A} (l : list A) (p : nat) :
  is_Some (slot l p) <-> (0 < p <= length l)%nat.
Proof.
  destruct p as [|i]; simpl.
  - split; [intros [? ?]; discriminate | lia].
  - rewrite lookup_lt_is_Some. lia.
Qed.

Lemma registry_ok_mono (st st' : State) (r : sharedConfig.t) :
  (length (atomics st) <= length (atomics st'))%nat ->
  registry_ok st r -> registry_ok st' r.
Proof.
  intros Hlen (Hlevel & Hcells & Hnd).
  assert (Hmono : forall p, is_Some (slot (atomics st) p) -> is_Some (slot (atomics st') p))
    by (intros p; rewrite !slot_is_Some; lia).
  split; [auto|]. split; [|exact Hnd].
  eapply Forall_impl; [exact Hcells|]. intros cell [Hs Hn]. auto.
Qed.

Lemma registries_ok_initial : registries_ok initial.
Proof. constructor. Qed.

Lemma newSharedConfig_registries_ok `{Environment} (st st' : State) (conf : Config.t)
    (c : nat) :
  registries_ok st ->
  newSharedConfig conf st = Some (c, st') ->
  registries_ok st'.
Proof.
  intros Hok Hrun.
  unfold newSharedConfig, new_sharedConfig, NewAtomicLevelAt in Hrun. revert Hrun. run.
  intros [= <- <-]. unfold registries_ok. cbn [shareds atomics].
  apply Forall_app. split.
  - eapply Forall_impl; [exact Hok|]. intros r. apply registry_ok_mono.
    cbn [atomics]. rewrite length_app. lia.
  - constructor; [|constructor].
    split; [|split].
    + cbn [sharedConfig.level atomics]. rewrite slot_new. eauto.
    + unfold cached. cbn [sharedConfig.componentLevels]. rewrite map_to_list_empty.
      constructor.
    + unfold cached. cbn [sharedConfig.componentLevels]. rewrite map_to_list_empty.
      constructor.
Qed.

Lemma cached_insert (cfg : sharedConfig.t) (component : string) (cell : nat) :
  sharedConfig.componentLevels cfg !! component = None ->
  cached (sharedConfig.mk (sharedConfig.level cfg)
            (<[component := cell]> (sharedConfig.componentLevels cfg))
            (sharedConfig.config cfg))
  ≡ₚ cell :: cached cfg.
Proof.
  intros Hnone. unfold cached. cbn [sharedConfig.componentLevels].
  rewrite (map_to_list_insert _ _ _ Hnone). reflexivity.
Qed.

Lemma setEffectiveLevel_registries_ok `{Environment} (st st' : State) (c : nat)
    (component : string) (cell : nat) :
  registries_ok st ->
  sharedConfig_setEffectiveLevel c component st = Some (cell, st') ->
  registries_ok st'.
Proof.
  intros Hok Hrun.
  unfold sharedConfig_setEffectiveLevel in Hrun. revert Hrun.
  unfold bind at 1. unfold deref at 1.
  destruct (slot (shareds st) c) as [cfg|] eqn:Hc; [|discriminate].
  assert (Hcfg : registry_ok st cfg).
  { unfold registries_ok in Hok. rewrite Forall_forall in Hok. apply Hok.
    destruct c as [|i]; [discriminate|]. eapply list_elem_of_lookup_2. exact Hc. }
  destruct (sharedConfig.componentLevels cfg !! component) as [known|] eqn:Hcomp.
  { intros [= <- <-]. exact Hok. }
  destruct Hcfg as ([d Hd] & Hcells & Hnd).
  unfold AtomicLevel_Level, NewAtomicLevelAt, put_sharedConfig. runs.
  set (new := S (length (atomics st))).
  set (cfg' := sharedConfig.mk (sharedConfig.level cfg)
                 (<[component := new]> (sharedConfig.componentLevels cfg))
                 (sharedConfig.config cfg)).
  pose proof (cached_insert cfg component new Hcomp) as Hcached. fold cfg' in Hcached.
  assert (Hlen : forall st2 : State,
             shareds st2 = <[pred c := cfg']> (shareds st) ->
             length (atomics st2) = S (length (atomics st)) ->
             registries_ok st2).
  { intros st2 Hsh Hat. unfold registries_ok. rewrite Hsh.
    apply Forall_insert.
    - eapply Forall_impl; [exact Hok|]. intros r. apply registry_ok_mono. lia.
    - split; [|split].
      + cbn [cfg' sharedConfig.level]. apply slot_is_Some.
        apply slot_Some_pos in Hd. lia.
      + rewrite Hcached.
        constructor.
        * split; [apply slot_is_Some; unfold new; lia|].
          apply slot_Some_pos in Hd. unfold new, cfg'. cbn [sharedConfig.level]. lia.
        * eapply Forall_impl; [exact Hcells|]. intros x [Hs Hn]. split; [|exact Hn].
          apply slot_is_Some. apply slot_is_Some in Hs. lia.
      + rewrite Hcached.
        constructor; [|exact Hnd].
        intros Hin. rewrite Forall_forall in Hcells.
        destruct (Hcells _ Hin) as [Hs _]. apply slot_is_Some in Hs. unfold new in Hs. lia. }
  destruct (confSearch _ _) as [lvl|].
  - unfold AtomicLevel_SetLevel. unfold new. runs. fold new. intros [= <- <-].
    apply Hlen; cbn [shareds atomics]; [reflexivity|].
    rewrite length_insert, length_app. cbn [length]. lia.
  - intros [= <- <-].
    apply Hlen; cbn [shareds atomics]; [reflexivity|].
    rewrite length_app. cbn [length]. lia.
Qed.

Lemma onConfigUpdate_registries_ok `{Environment} (st st' : State) (c : nat)
    (conf : Config.t) (err : error) :
  registries_ok st ->
  sharedConfig_onConfigUpdate c conf st = Some (err, st') ->
  registries_ok st'.
Proof.
  intros Hok Hrun.
  destruct (slot (shareds st) c) as [cfg|] eqn:Hc.
  2:{ unfold sharedConfig_onConfigUpdate, bind, deref in Hrun. rewrite Hc in Hrun.
      discriminate. }
  assert (Hcfg : registry_ok st cfg).
  { unfold registries_ok in Hok. rewrite Forall_forall in Hok. apply Hok.
    destruct c as [|i]; [discriminate|]. eapply list_elem_of_lookup_2. exact Hc. }
  destruct (onConfigUpdate_run st c cfg conf Hc Hcfg) as (st2 & Hrun2 & _ & _ & Hlen & Hsh).
  rewrite Hrun2 in Hrun. injection Hrun as _ <-.
  unfold registries_ok. rewrite Hsh.
  apply Forall_insert.
  - eapply Forall_impl; [exact Hok|]. intros r. apply registry_ok_mono. lia.
  - apply (registry_ok_mono st); [lia|]. exact Hcfg.
Qed.

(** Operations that touch neither the level cells nor the registries keep
    the registries well formed; the derivations are such operations. *)
Lemma registries_ok_same (st st' : State) :
  atomics st' = atomics st -> shareds st' = shareds st ->
  registries_ok st -> registries_ok st'.
Proof.
  intros Hat Hsh Hok. unfold registries_ok. rewrite Hsh.
  eapply Forall_impl; [exact Hok|]. intros r. apply registry_ok_mono. rewrite Hat. lia.
Qed.

Lemma derive_registries_ok (f : zap.Logger -> zap.Logger) (st st' : State)
    (h h' : ZapLogger.t) :
  derived_from f st h st' h' -> registries_ok st -> registries_ok st'.
Proof.
  intros (_ & _ & Hat & Hsh & _). apply registries_ok_same; assumption.
Qed.

(** ** The theorems at work on the example states *)

Lemma setEffectiveLevel_first_call_witness :
  (exists (cell : nat) (st' : State),
     @sharedConfig_setEffectiveLevel env 1 "a.b.c" st_ab = Some (cell, st') /\
     slot (atomics st') cell = Some zapcore.WarnLevel) /\
  (exists (cell : nat) (st' : State),
     @sharedConfig_setEffectiveLevel env 1 "x.y" st_ab = Some (cell, st') /\
     slot (atomics st') cell = Some zapcore.InfoLevel).
Proof.
  split.
  - destruct (@setEffectiveLevel_first_call env st_ab 1 (sharedConfig.mk 1 ∅ conf_ab) "a.b.c" 0)
      as (cell & st' & Hrun & Hcell);
      [vm_compute; reflexivity | vm_compute; reflexivity | vm_compute; reflexivity |].
    exists cell, st'. split; [exact Hrun | exact Hcell].
  - destruct (@setEffectiveLevel_first_call env st_ab 1 (sharedConfig.mk 1 ∅ conf_ab) "x.y" 0)
      as (cell & st' & Hrun & Hcell);
      [vm_compute; reflexivity | vm_compute; reflexivity | vm_compute; reflexivity |].
    exists cell, st'. split; [exact Hrun | exact Hcell].
Defined.

Lemma onConfigUpdate_recomputes_witness :
  slot (atomics st_svc) 4 = Some zapcore.InfoLevel /\
  exists st' : State,
    @sharedConfig_onConfigUpdate env 1 conf_reload st_svc = Some (None, st') /\
    slot (atomics st') 4 = Some zapcore.ErrorLevel /\
    slot (atomics st') 3 = Some zapcore.ErrorLevel /\
    slot (atomics st') 1 = Some zapcore.InfoLevel.
Proof.
  split; [reflexivity|].
  destruct (@onConfigUpdate_recomputes env st_svc 1
              (sharedConfig.mk 1 (<["svc.a" := 4%nat]> (<["svc" := 3%nat]> ∅)) conf_info)
              conf_reload)
    as (st' & Hrun & Hdflt & Hall & Hsvc).
  - vm_compute. reflexivity.
  - unfold registry_ok. split; [|split].
    + vm_compute. eexists. reflexivity.
    + apply (bool_decide_unpack _). vm_compute. exact I.
    + apply (bool_decide_unpack _). vm_compute. exact I.
  - exists st'. split; [exact Hrun|].
    split; [apply (Hsvc 4%nat "error"); vm_compute; reflexivity|].
    split; [exact (Hall "svc" 3%nat eq_refl)|].
    exact Hdflt.
Defined.


Lemma sampler_round_trip_witness :
  exists (l2 : nat) (st2 : State) (h2 : ZapLogger.t),
    (let* sampled := Logger_WithItemSampler (Zap 1) in Logger_WithoutSampler sampled)
      st_sampled
    = Some (Zap l2, st2) /\
    slot (zaploggers st2) l2 = Some h2 /\
    ZapLogger.zap h2 = 1%nat /\
    ZapLogger.unsampled h2 = 1%nat /\
    slot (sugars st2) 1 = Some log_json.
Proof.
  apply (sampler_round_trip st_sampled 1 h_sampled).
  - vm_compute. reflexivity.
  - vm_compute. discriminate.
  - vm_compute. eexists. reflexivity.
Defined.

Lemma SetLogger_depths_1_2_witness : SetLogger_installs 1 2 st_main 1 "OpsLink".
Proof.
  apply (SetLogger_depths_1_2 st_main 1 h_first "OpsLink").
  - vm_compute. reflexivity.
  - repeat split; vm_compute; eexists; reflexivity.
Defined.

Lemma WithValues_leaves_receiver_witness :
  exists (l' : nat) (st' : State),
    ZapLogger_WithValues 1 [AString "participant"; AString "1"] st_main = Some (Zap l', st') /\
    l' <> 1%nat /\
    slot (zaploggers st') 1 = Some h_first /\
    slot (sugars st') 1 = Some log_console /\
    forall call : LogCall,
      emitted (ZapLogger_call 1 call) st' = emitted (ZapLogger_call 1 call) st_main.
Proof.
  destruct (WithValues_leaves_receiver st_main 1 h_first [AString "participant"; AString "1"])
    as (l' & st' & Hrun & Hne & Hh & Hz & _ & _ & Hcalls).
  - vm_compute. reflexivity.
  - repeat split; vm_compute; eexists; reflexivity.
  - exists l', st'. repeat split; assumption.
Defined.

Lemma derivation_keeps_alias_witness :
  exists (l' : nat) (st' : State) (h' : ZapLogger.t),
    ZapLogger_WithName 1 "OpsLink" st_main = Some (Zap l', st') /\
    slot (zaploggers st') l' = Some h' /\
    ZapLogger.unsampled h' = ZapLogger.zap h'.
Proof.
  destruct (derivation_keeps_alias st_main 1 h_first [] "OpsLink" 1) as (_ & Hname & _).
  - vm_compute. reflexivity.
  - reflexivity.
  - vm_compute. eexists. reflexivity.
  - exact Hname.
Defined.

Lemma error_pair_appended_witness :
  ZapLogger_Warnw 1 "warn" None [AString "k1"; AString "v1"] st_main
  = Some (tt, set_written
                (fun w => w ++ [ZapWrite 1 log_console zapcore.WarnLevel "warn"
                                  [AString "k1"; AString "v1"]])
                st_main) /\
  ZapLogger_Errorw 1 "failed" (Some "EOF") [AString "k1"; AString "v1"] st_main
  = Some (tt, set_written
                (fun w => w ++ [ZapWrite 1 log_console zapcore.ErrorLevel "failed"
                                  [AString "k1"; AString "v1"; AString "error"; AError "EOF"]])
                st_main).
Proof.
  split.
  - apply (error_pair_appended st_main 1 h_first log_console zapcore.DebugLevel
             "warn" None [AString "k1"; AString "v1"]);
      vm_compute; (reflexivity || discriminate).
  - apply (error_pair_appended st_main 1 h_first log_console zapcore.DebugLevel
             "failed" (Some "EOF") [AString "k1"; AString "v1"]);
      vm_compute; (reflexivity || discriminate).
Defined.

Lemma InitLogConfig_singletons_witness :
  (exists st' : State,
     @InitLogConfig env_failing conf_main "OpsLink" initial = Some (tt, st') /\
     defaultLogger st' = LogR discardLogger /\
     pkgLogger st' = LogR discardLogger) /\
  (exists st' : State,
     @InitLogConfig env conf_main "OpsLink" initial = Some (tt, st') /\
     defaultLogger st' = Zap 3 /\
     pkgLogger st' = Zap 5).
Proof.
  split.
  - destruct (@InitLogConfig_singletons env_failing initial conf_main "OpsLink")
      as (Hfail & _).
    destruct (Hfail "no backend" eq_refl) as (st' & Hrun & Hd & Hp & _).
    exists st'. repeat split; assumption.
  - destruct (@InitLogConfig_singletons env initial conf_main "OpsLink")
      as (_ & Hok & _).
    destruct (Hok log_console eq_refl) as (l & st1 & st' & d & p & _ & _ & Hrun & _).
    exists st'. split; [exact Hrun|].
    vm_compute in Hrun. injection Hrun as <-. split; reflexivity.
Defined.

Lemma NewZapLogger_sampling_witness :
  exists (l : nat) (st' : State) (h : ZapLogger.t),
    @NewZapLogger env conf_sampled initial = Some ((l, None), st') /\
    slot (zaploggers st') l = Some h /\
    slot (sugars st') (ZapLogger.zap h)
    = Some (zap.mkLogger (zapcore.sampler (zapcore.ioCore "json" []) time.Second 20 100) "" 0).
Proof.
  destruct (@NewZapLogger_sampling env initial conf_sampled log_json eq_refl)
    as (l & st' & h & Hrun & Hh & _ & Hsampled & _).
  destruct (Hsampled eq_refl) as (first & thereafter & Hz & Hfirst & _ & Hthere & _).
  rewrite (Hfirst eq_refl), (Hthere eq_refl) in Hz.
  exists l, st', h. repeat split; assumption.
Defined.

(** * Further properties of the code *)

(** ** The registry: caching, frames, reload *)

(** A first call of [setEffectiveLevel], with the state it leaves: one new
    cell holding the resolved level, the component cached, nothing else
    touched. *)
Lemma setEffectiveLevel_miss `{Environment} (st : State) (c : nat) (cfg : sharedConfig.t)
    (component : string) (dflt : Z) :
  slot (shareds st) c = Some cfg ->
  sharedConfig.componentLevels cfg !! component = None ->
  slot (atomics st) (sharedConfig.level cfg) = Some dflt ->
  exists st' : State,
    sharedConfig_setEffectiveLevel c component st = Some (S (length (atomics st)), st') /\
    atomics st'
    = atomics st
      ++ [resolveLevel (Config.ComponentLevels (sharedConfig.config cfg)) dflt component] /\
    shareds st'
    = <[pred c := sharedConfig.mk (sharedConfig.level cfg)
                    (<[component := S (length (atomics st))]>
                       (sharedConfig.componentLevels cfg))
                    (sharedConfig.config cfg)]> (shareds st) /\
    sugars st' = sugars st /\ zaploggers st' = zaploggers st /\
    defaultLogger st' = defaultLogger st /\ pkgLogger st' = pkgLogger st /\
    written st' = written st.
Proof.
  intros Hc Hfirst Hd.
  unfold sharedConfig_setEffectiveLevel, resolveLevel, AtomicLevel_Level,
    NewAtomicLevelAt, put_sharedConfig, AtomicLevel_SetLevel.
  runs.
  rewrite confSearch_Split.
  destruct (firstConfigured _ _) as [lvl|].
  - runs. eexists. split; [reflexivity|]. cbn [atomics shareds sugars zaploggers
      defaultLogger pkgLogger written Init.Nat.pred].
    rewrite insert_app_r_alt by lia. rewrite Nat.sub_diag. repeat split.
  - eexists. split; [reflexivity|]. repeat split.
Qed.

Lemma setEffectiveLevel_hit `{Environment} (st : State) (c : nat) (cfg : sharedConfig.t)
    (component : string) (cell : nat) :
  slot (shareds st) c = Some cfg ->
  sharedConfig.componentLevels cfg !! component = Some cell ->
  sharedConfig_setEffectiveLevel c component st = Some (cell, st).
Proof.
  intros Hc Hhit. unfold sharedConfig_setEffectiveLevel. runs. reflexivity.
Qed.

(** X1: once [setEffectiveLevel] has made the cell of a component, every
    later call for that component returns the same cell and changes nothing,
    and the components cached before are still served from the cache. *)
Theorem setEffectiveLevel_caches `{Environment} (st : State) (c : nat)
    (cfg : sharedConfig.t) (component : string) (dflt : Z) :
  slot (shareds st) c = Some cfg ->
  sharedConfig.componentLevels cfg !! component = None ->
  slot (atomics st) (sharedConfig.level cfg) = Some dflt ->
  exists (cell : nat) (st' : State),
    sharedConfig_setEffectiveLevel c component st = Some (cell, st') /\
    sharedConfig_setEffectiveLevel c component st' = Some (cell, st') /\
    forall (other : string) (cell' : nat),
      sharedConfig.componentLevels cfg !! other = Some cell' ->
      sharedConfig_setEffectiveLevel c other st' = Some (cell', st').
Proof.
  intros Hc Hfirst Hd.
  destruct (setEffectiveLevel_miss st c cfg component dflt Hc Hfirst Hd)
    as (st' & Hrun & _ & Hsh & _).
  assert (Hc' : slot (shareds st') c
                = Some (sharedConfig.mk (sharedConfig.level cfg)
                          (<[component := S (length (atomics st))]>
                             (sharedConfig.componentLevels cfg))
                          (sharedConfig.config cfg)))
    by (rewrite Hsh; apply (slot_insert_eq _ _ cfg), Hc).
  exists (S (length (atomics st))), st'. split; [exact Hrun|]. split.
  - apply (setEffectiveLevel_hit _ _ _ _ _ Hc').
    cbn [sharedConfig.componentLevels]. apply lookup_insert_eq.
  - intros other cell' Hother.
    assert (Hne : component <> other) by congruence.
    apply (setEffectiveLevel_hit _ _ _ _ _ Hc').
    cbn [sharedConfig.componentLevels]. rewrite lookup_insert_ne by exact Hne. exact Hother.
Qed.

Lemma cached_lookup (cfg : sharedConfig.t) (path : string) (cell : nat) :
  sharedConfig.componentLevels cfg !! path = Some cell -> cell ∈ cached cfg.
Proof.
  intros Hp. unfold cached. apply list_elem_of_fmap. exists (path, cell).
  split; [reflexivity|]. apply elem_of_map_to_list, Hp.
Qed.

(** X2: on a well-formed registry the cell a first call makes is a new one:
    it is not the default cell and not the cell of any other component; the
    call leaves every existing cell with its level and touches no other
    registry, handle, sink or singleton. *)
Theorem setEffectiveLevel_fresh_cell `{Environment} (st : State) (c : nat)
    (cfg : sharedConfig.t) (component : string) :
  slot (shareds st) c = Some cfg ->
  sharedConfig.componentLevels cfg !! component = None ->
  registry_ok st cfg ->
  exists (cell : nat) (st' : State),
    sharedConfig_setEffectiveLevel c component st = Some (cell, st') /\
    slot (atomics st) cell = None /\
    cell <> sharedConfig.level cfg /\
    (forall (other : string) (cell' : nat),
       sharedConfig.componentLevels cfg !! other = Some cell' -> cell' <> cell) /\
    (forall (p : nat) (v : Z), slot (atomics st) p = Some v -> slot (atomics st') p = Some v) /\
    (forall c' : nat, c' <> c -> slot (shareds st') c' = slot (shareds st) c') /\
    sugars st' = sugars st /\ zaploggers st' = zaploggers st /\
    defaultLogger st' = defaultLogger st /\ pkgLogger st' = pkgLogger st /\
    written st' = written st.
Proof.
  intros Hc Hfirst ([dflt Hd] & Hcells & _).
  destruct (setEffectiveLevel_miss st c cfg component dflt Hc Hfirst Hd)
    as (st' & Hrun & Hat & Hsh & Hrest).
  exists (S (length (atomics st))), st'. split; [exact Hrun|].
  split; [simpl; apply lookup_ge_None; lia|].
  split; [apply slot_Some_pos in Hd; lia|].
  split.
  { intros other cell' Hother. apply cached_lookup in Hother.
    rewrite Forall_forall in Hcells. destruct (Hcells _ Hother) as [Hs _].
    apply slot_is_Some in Hs. lia. }
  split; [intros p v Hp; rewrite Hat; apply slot_old, Hp|].
  split; [|exact Hrest].
  intros c' Hne. rewrite Hsh. apply (slot_insert_ne _ _ _ cfg); [exact Hc | congruence].
Qed.

(** X4: after [onConfigUpdate(conf)] the registry resolves new components
    against [conf]: a first call of [setEffectiveLevel] gives the level of
    the most specific entry of [conf], or the default level of [conf]. *)
Theorem onConfigUpdate_then_setEffectiveLevel `{Environment} (st : State) (c : nat)
    (cfg : sharedConfig.t) (conf : Config.t) (component : string) :
  slot (shareds st) c = Some cfg ->
  registry_ok st cfg ->
  sharedConfig.componentLevels cfg !! component = None ->
  exists (cell : nat) (st' : State),
    (sharedConfig_onConfigUpdate c conf ;; sharedConfig_setEffectiveLevel c component) st
    = Some (cell, st') /\
    slot (atomics st') cell
    = Some (resolveLevel (Config.ComponentLevels conf) (ParseZapLevel (Config.Level conf))
              component).
Proof.
  intros Hc Hok Hfirst.
  destruct (onConfigUpdate_run st c cfg conf Hc Hok) as (st1 & Hrun1 & Hdflt & _ & _ & Hsh).
  set (cfg' := sharedConfig.mk (sharedConfig.level cfg) (sharedConfig.componentLevels cfg) conf)
    in *.
  assert (Hc1 : slot (shareds st1) c = Some cfg')
    by (rewrite Hsh; apply (slot_insert_eq _ _ cfg), Hc).
  destruct (setEffectiveLevel_miss st1 c cfg' component _ Hc1 Hfirst Hdflt)
    as (st2 & Hrun2 & Hat & _).
  exists (S (length (atomics st1))), st2. split.
  - rewrite (bind_run _ _ _ _ _ Hrun1). exact Hrun2.
  - rewrite Hat. apply slot_new.
Qed.

(** X5: on a well-formed state the three registry operations return (no
    nil cell is read) and leave the state well-formed: every registry's
    default cell and cached cells exist, and the cached cells of a registry
    are pairwise distinct and differ from its default cell. *)
Theorem registry_operations_keep_wellformed `{Environment} (st : State) (c : nat)
    (cfg : sharedConfig.t) (conf : Config.t) (component : string) :
  registries_ok st ->
  slot (shareds st) c = Some cfg ->
  (exists (cell : nat) (st' : State),
     sharedConfig_setEffectiveLevel c component st = Some (cell, st') /\ registries_ok st') /\
  (exists st' : State,
     sharedConfig_onConfigUpdate c conf st = Some (None, st') /\ registries_ok st') /\
  (exists (c' : nat) (st' : State),
     newSharedConfig conf st = Some (c', st') /\ registries_ok st').
Proof.
  intros Hok Hc.
  assert (Hcfg : registry_ok st cfg).
  { unfold registries_ok in Hok. rewrite Forall_forall in Hok. apply Hok.
    destruct c as [|i]; [discriminate|]. eapply list_elem_of_lookup_2. exact Hc. }
  split; [|split].
  - destruct (sharedConfig.componentLevels cfg !! component) as [cell|] eqn:Hcomp.
    + exists cell, st. split; [apply (setEffectiveLevel_hit _ _ _ _ _ Hc Hcomp) | exact Hok].
    + destruct Hcfg as ([dflt Hd] & _).
      destruct (setEffectiveLevel_miss st c cfg component dflt Hc Hcomp Hd)
        as (st' & Hrun & _).
      exists (S (length (atomics st))), st'. split; [exact Hrun|].
      apply (setEffectiveLevel_registries_ok _ _ _ _ _ Hok Hrun).
  - destruct (onConfigUpdate_run st c cfg conf Hc Hcfg) as (st' & Hrun & _).
    exists st'. split; [exact Hrun|].
    apply (onConfigUpdate_registries_ok _ _ _ _ _ Hok Hrun).
  - destruct (newSharedConfig conf st) as [[c' st']|] eqn:Hrun.
    + exists c', st'. split; [reflexivity|].
      apply (newSharedConfig_registries_ok _ _ _ _ Hok Hrun).
    + exfalso. revert Hrun. unfold newSharedConfig, new_sharedConfig, NewAtomicLevelAt. run.
      discriminate.
Qed.

(** X6: [onConfigUpdate] writes only the cells of its own registry: every
    other cell keeps its level, no cell is made, the registry keeps its
    default cell and its cache and stores [conf]; other registries,
    handles, sinks and singletons are untouched and nothing is logged. *)
Theorem onConfigUpdate_frame `{Environment} (st : State) (c : nat) (cfg : sharedConfig.t)
    (conf : Config.t) :
  slot (shareds st) c = Some cfg ->
  registry_ok st cfg ->
  exists st' : State,
    sharedConfig_onConfigUpdate c conf st = Some (None, st') /\
    slot (shareds st') c
    = Some (sharedConfig.mk (sharedConfig.level cfg) (sharedConfig.componentLevels cfg) conf) /\
    (forall c' : nat, c' <> c -> slot (shareds st') c' = slot (shareds st) c') /\
    length (atomics st') = length (atomics st) /\
    (forall q : nat,
       q <> sharedConfig.level cfg -> q ∉ cached cfg ->
       slot (atomics st') q = slot (atomics st) q) /\
    sugars st' = sugars st /\ zaploggers st' = zaploggers st /\
    defaultLogger st' = defaultLogger st /\ pkgLogger st' = pkgLogger st /\
    written st' = written st.
Proof.
  intros Hc ([old Hlevel] & Hcells & Hnd).
  set (d := ParseZapLevel (Config.Level conf)).
  set (cfg' := sharedConfig.mk (sharedConfig.level cfg) (sharedConfig.componentLevels cfg) conf).
  set (st1 := set_shareds (fun s => <[pred c := cfg']> s)
                (set_atomics (fun cells => <[pred (sharedConfig.level cfg) := d]> cells) st)).
  pose proof (rangeOrder_perm (sharedConfig.componentLevels cfg)) as Hperm.
  destruct (for_range_recompute cfg' conf d
              (rangeOrder (sharedConfig.componentLevels cfg)) st1)
    as (st' & Hrun & _ & Hother & Hlen & Hsu & Hsh & Hzl & Hw & Hdl & Hpl).
  { cbn [st1 cfg' set_shareds set_atomics atomics sharedConfig.level].
    apply (slot_insert_eq _ _ old), Hlevel. }
  { cbn [cfg' sharedConfig.level].
    assert (Hall : Forall (fun cell => is_Some (slot (atomics st1) cell)
                                       /\ cell <> sharedConfig.level cfg)
                          ((rangeOrder (sharedConfig.componentLevels cfg)).*2)).
    { rewrite Hperm. eapply Forall_impl; [exact Hcells|].
      intros cell [Hs Hn]. split; [|exact Hn].
      cbn [st1 set_shareds set_atomics atomics]. apply slot_insert_is_Some, Hs. }
    apply Forall_fmap in Hall. exact Hall. }
  { rewrite Hperm. exact Hnd. }
  exists st'. split.
  { unfold sharedConfig_onConfigUpdate.
    rewrite (bind_run _ _ st st cfg) by (unfold deref; rewrite Hc; reflexivity).
    rewrite (bind_run _ _ _ _ _ (SetLevel_run _ _ old _ Hlevel)).
    unfold put_sharedConfig.
    rewrite (bind_run _ _ _ st1 tt).
    2:{ unfold deref. run. rewrite Hc. reflexivity. }
    rewrite (bind_run _ _ _ _ _ Hrun). reflexivity. }
  cbn [st1 set_shareds set_atomics atomics shareds sugars zaploggers defaultLogger
       pkgLogger written] in *.
  split; [rewrite Hsh; apply (slot_insert_eq _ _ cfg), Hc|].
  split; [intros c' Hne; rewrite Hsh; apply (slot_insert_ne _ _ _ cfg); [exact Hc|congruence]|].
  split; [rewrite Hlen; apply length_insert|].
  split.
  { intros q Hq Hnot. rewrite Hother.
    - apply (slot_insert_ne _ _ _ old); [exact Hlevel | congruence].
    - rewrite Hperm. exact Hnot. }
  repeat split; assumption.
Qed.

(** ** Which entry wins *)

Lemma stripLast_Some_inv (path p : string) :
  stripLast path = Some p ->
  exists last : string, path = p +:+ "." +:+ last /\ nodot last = true.
Proof.
  revert p. induction path as [|c r IH]; intros p; simpl; [discriminate|].
  destruct (stripLast r) as [q|] eqn:Hq.
  - intros [= <-]. destruct (IH q eq_refl) as (last & -> & Hlast).
    exists last. split; [reflexivity | exact Hlast].
  - destruct (Ascii.eqb c ".") eqn:Hc; [|discriminate]. intros [= <-].
    apply Ascii.eqb_eq in Hc. subst c. exists r. split; [reflexivity|].
    clear IH. induction r as [|x r IHr]; [reflexivity|]. simpl in Hq |- *.
    destruct (stripLast r); [discriminate|].
    destruct (Ascii.eqb x "."); [discriminate|]. simpl. apply IHr. reflexivity.
Qed.

Lemma stripLast_None_nodot (path : string) : stripLast path = None -> nodot path = true.
Proof.
  induction path as [|x r IH]; [reflexivity|]. simpl.
  destruct (stripLast r); [discriminate|].
  destruct (Ascii.eqb x "."); [discriminate|]. intros _. simpl. apply IH. reflexivity.
Qed.

Lemma ancestors_upto_prefix (n : nat) :
  forall path a : string, a ∈ ancestors_upto n path -> dotted_prefix a path.
Proof.
  induction n as [|n IH]; intros path a Hin.
  - apply list_elem_of_singleton in Hin. left. exact Hin.
  - simpl in Hin. apply elem_of_cons in Hin as [->|Hin]; [left; reflexivity|].
    destruct (stripLast path) as [p|] eqn:Hp; [|inversion Hin].
    apply stripLast_Some_inv in Hp as (last & -> & _).
    destruct (IH _ _ Hin) as [->|[rest ->]].
    + right. exists last. reflexivity.
    + right. exists (rest +:+ "." +:+ last). rewrite !append_assoc. reflexivity.
Qed.

Lemma prefix_ancestors_upto (n : nat) :
  forall a rest : string,
    (String.length (a +:+ "." +:+ rest) <= n)%nat ->
    a ∈ ancestors_upto n (a +:+ "." +:+ rest).
Proof.
  induction n as [|n IH]; intros a rest Hn.
  - rewrite length_app_dot in Hn. lia.
  - cbn [ancestors_upto]. apply elem_of_cons. right.
    destruct (stripLast rest) as [r1|] eqn:Hr.
    + apply stripLast_Some_inv in Hr as (last & -> & Hlast).
      replace (a +:+ "." +:+ r1 +:+ "." +:+ last)
        with ((a +:+ "." +:+ r1) +:+ "." +:+ last) in *
        by (rewrite !append_assoc; reflexivity).
      rewrite (stripLast_app _ _ Hlast).
      apply IH. rewrite length_app_dot in Hn. lia.
    + apply stripLast_None_nodot in Hr. rewrite (stripLast_app _ _ Hr).
      destruct n; apply elem_of_cons; left; reflexivity.
Qed.

Lemma ancestors_prefix (path a : string) : a ∈ ancestors path <-> dotted_prefix a path.
Proof.
  split; [apply ancestors_upto_prefix|].
  intros [->|[rest ->]].
  - unfold ancestors. destruct (String.length path); apply elem_of_cons; left; reflexivity.
  - apply prefix_ancestors_upto. lia.
Qed.

Lemma ancestors_upto_length (n : nat) :
  forall path x : string,
    x ∈ ancestors_upto n path -> (String.length x <= String.length path)%nat.
Proof.
  induction n as [|n IH]; intros path x Hin.
  - apply list_elem_of_singleton in Hin. subst x. lia.
  - simpl in Hin. apply elem_of_cons in Hin as [->|Hin]; [lia|].
    destruct (stripLast path) as [p|] eqn:Hp; [|inversion Hin].
    apply stripLast_shorter in Hp. specialize (IH _ _ Hin). lia.
Qed.

(** The paths after an ancestor in the list are shorter than it. *)
Lemma ancestors_upto_decreasing (n : nat) :
  forall (path : string) (pre post : list string) (k x : string),
    ancestors_upto n path = pre ++ k :: post ->
    x ∈ post -> (String.length x < String.length k)%nat.
Proof.
  induction n as [|n IH]; intros path pre post k x Heq Hx.
  - destruct pre as [|? [|? ?]]; simpl in Heq; inversion Heq; subst. inversion Hx.
  - simpl in Heq. destruct pre as [|y pre].
    + simpl in Heq. injection Heq as <- Hpost.
      destruct (stripLast path) as [p|] eqn:Hp; [|subst post; inversion Hx].
      apply stripLast_shorter in Hp. rewrite <- Hpost in Hx.
      apply ancestors_upto_length in Hx. lia.
    + simpl in Heq. injection Heq as _ Hrest.
      destruct (stripLast path) as [p|]; [|destruct pre; discriminate].
      eapply IH; [exact Hrest | exact Hx].
Qed.

Lemma firstConfigured_Some (levels : gmap string string) (paths : list string)
    (lvl : string) :
  firstConfigured levels paths = Some lvl ->
  exists (pre post : list string) (k : string),
    paths = pre ++ k :: post /\ levels !! k = Some lvl /\
    Forall (fun x => levels !! x = None) pre.
Proof.
  induction paths as [|p rest IH]; simpl; [discriminate|].
  destruct (levels !! p) as [l|] eqn:Hp.
  - intros [= <-]. exists [], rest, p. repeat split; [exact Hp | constructor].
  - intros Hrest. destruct (IH Hrest) as (pre & post & k & -> & Hk & Hpre).
    exists (p :: pre), post, k. repeat split; [exact Hk | constructor; assumption].
Qed.

Lemma firstConfigured_None (levels : gmap string string) (paths : list string) :
  firstConfigured levels paths = None -> Forall (fun x => levels !! x = None) paths.
Proof.
  induction paths as [|p rest IH]; simpl; [constructor|].
  destruct (levels !! p) eqn:Hp; [discriminate|]. intros Hrest. constructor; auto.
Qed.

(** The search of the registry, said without the loop: the entry used is
    the longest configured [k] that is the path or a prefix of it ending
    before a period; with no such entry there is no hit. *)
Lemma confSearch_longest (levels : gmap string string) (path : string) :
  match confSearch levels (strings.Split path ".") with
  | Some lvl =>
      exists k : string,
        dotted_prefix k path /\ levels !! k = Some lvl /\
        forall k' : string,
          dotted_prefix k' path -> (String.length k < String.length k')%nat ->
          levels !! k' = None
  | None => forall k : string, dotted_prefix k path -> levels !! k = None
  end.
Proof.
  rewrite confSearch_Split.
  destruct (firstConfigured levels (ancestors path)) as [lvl|] eqn:Hf.
  - apply firstConfigured_Some in Hf as (pre & post & k & Heq & Hk & Hpre).
    exists k. split; [|split; [exact Hk|]].
    + apply ancestors_prefix. rewrite Heq. apply elem_of_app. right.
      apply elem_of_cons. left. reflexivity.
    + intros k' Hk' Hlen. apply ancestors_prefix in Hk'. rewrite Heq in Hk'.
      apply elem_of_app in Hk' as [Hin|Hin].
      * rewrite Forall_forall in Hpre. apply Hpre, Hin.
      * apply elem_of_cons in Hin as [->|Hin]; [lia|].
        pose proof (ancestors_upto_decreasing _ _ _ _ _ _ Heq Hin). lia.
  - apply firstConfigured_None in Hf. intros k Hk. apply ancestors_prefix in Hk.
    rewrite Forall_forall in Hf. apply Hf, Hk.
Qed.

(** X3: the level a first call of [setEffectiveLevel] gives a component is
    that of the longest configured entry that is the component path or a
    prefix of it ending before a period; an entry that is not such a prefix
    never applies, and without an applicable entry the level is the
    registry's default. *)
Theorem setEffectiveLevel_longest_prefix `{Environment} (st : State) (c : nat)
    (cfg : sharedConfig.t) (component : string) (dflt : Z) :
  slot (shareds st) c = Some cfg ->
  sharedConfig.componentLevels cfg !! component = None ->
  slot (atomics st) (sharedConfig.level cfg) = Some dflt ->
  let levels := Config.ComponentLevels (sharedConfig.config cfg) in
  exists (cell : nat) (st' : State) (v : Z),
    sharedConfig_setEffectiveLevel c component st = Some (cell, st') /\
    slot (atomics st') cell = Some v /\
    ((forall k : string, dotted_prefix k component -> levels !! k = None) -> v = dflt) /\
    (forall k lvl : string,
       dotted_prefix k component -> levels !! k = Some lvl ->
       (forall k' : string,
          dotted_prefix k' component -> (String.length k < String.length k')%nat ->
          levels !! k' = None) ->
       v = ParseZapLevel lvl).
Proof.
  intros Hc Hfirst Hd levels.
  destruct (setEffectiveLevel_miss st c cfg component dflt Hc Hfirst Hd)
    as (st' & Hrun & Hat & _).
  exists (S (length (atomics st))), st', (resolveLevel levels dflt component).
  split; [exact Hrun|]. split; [rewrite Hat; apply slot_new|].
  pose proof (confSearch_longest levels component) as Hlong.
  unfold resolveLevel. rewrite <- confSearch_Split.
  destruct (confSearch levels (strings.Split component ".")) as [found|].
  - destruct Hlong as (k0 & Hk0 & Hlv0 & Hmax0). split.
    + intros Hnone. rewrite (Hnone _ Hk0) in Hlv0. discriminate.
    + intros k lvl Hk Hlv Hmax.
      destruct (Nat.lt_trichotomy (String.length k) (String.length k0)) as [Hlt|[Heq|Hgt]].
      * rewrite (Hmax _ Hk0 Hlt) in Hlv0. discriminate.
      * assert (k = k0) as ->; [|congruence].
        clear - Hk Hk0 Heq.
        destruct Hk as [->|[r ->]]; destruct Hk0 as [Hk0|[r0 Hk0]].
        -- symmetry. exact Hk0.
        -- rewrite Hk0, length_app_dot in Heq. lia.
        -- subst k0. rewrite length_app_dot in Heq. lia.
        -- revert k0 Heq Hk0. induction k as [|x k IH]; intros [|y k0] Heq Hk0;
             simpl in Heq; try lia; [reflexivity|].
           rewrite !append_cons in Hk0. injection Hk0 as -> Hk0. f_equal.
           apply IH; [lia | exact Hk0].
      * rewrite (Hmax0 _ Hk Hgt) in Hlv. discriminate.
  - split; [reflexivity|].
    intros k lvl Hk Hlv _. rewrite (Hlong _ Hk) in Hlv. discriminate.
Qed.

(** ** Handles: what a derivation keeps *)

(** One derivation, with the new handle in view. *)
Lemma derive_step (f : zap.Logger -> zap.Logger) (st : State) (l : nat) (h : ZapLogger.t)
    (lz lu : zap.Logger) :
  slot (zaploggers st) l = Some h ->
  slot (sugars st) (ZapLogger.zap h) = Some lz ->
  slot (sugars st) (ZapLogger.unsampled h) = Some lu ->
  exists (st' : State) (h' : ZapLogger.t),
    derive f l st = Some (Zap (S (length (zaploggers st))), st') /\
    zaploggers st' = zaploggers st ++ [h'] /\
    (forall p x, slot (sugars st) p = Some x -> slot (sugars st') p = Some x) /\
    atomics st' = atomics st /\ shareds st' = shareds st /\
    defaultLogger st' = defaultLogger st /\ pkgLogger st' = pkgLogger st /\
    written st' = written st /\
    h' = with_unsampled (ZapLogger.unsampled h') (with_zap (ZapLogger.zap h') h) /\
    slot (sugars st') (ZapLogger.zap h') = Some (f lz) /\
    slot (sugars st') (ZapLogger.unsampled h') = Some (f lu).
Proof.
  intros Hl Hz Hu.
  destruct (derive_spec f st l h Hl) as (st' & h' & Hrun & Hd); [eauto | eauto |].
  pose proof Hd as (Hzl & _ & Hat & Hsh & Hw & Hdl & Hpl & Hh' & Hz' & Hu' & _).
  rewrite Hz in Hz'. rewrite Hu in Hu'.
  exists st', h'. split; [exact Hrun|]. split; [exact Hzl|].
  split; [intros p x; eapply derived_from_sinks; exact Hd|].
  repeat split; assumption.
Qed.

Lemma isEnabled_run (st : State) (l : nat) (h : ZapLogger.t) (cur level : Z) :
  slot (zaploggers st) l = Some h ->
  slot (atomics st) (ZapLogger.level h) = Some cur ->
  ZapLogger_isEnabled l level st = Some (bool_decide (level >= cur), st).
Proof. intros Hl Hc. unfold ZapLogger_isEnabled, AtomicLevel_Level. runs. reflexivity. Qed.

(** X7: the handle that [WithValues], [WithName] or [WithCallDepth] returns
    has the component, the registry, the level cell and the sampling
    parameters of the receiver, and no cell changes: it is enabled for
    exactly the levels the receiver is enabled for. *)
Theorem derivation_keeps_gate (st : State) (l : nat) (h : ZapLogger.t)
    (keysAndValues : list Any) (name : string) (depth : Z) :
  slot (zaploggers st) l = Some h ->
  handle_ok st h ->
  let kept (r : option (Logger * State)) :=
    exists (l' : nat) (st' : State) (h' : ZapLogger.t),
      r = Some (Zap l', st') /\
      slot (zaploggers st') l' = Some h' /\
      ZapLogger.level h' = ZapLogger.level h /\
      ZapLogger.component h' = ZapLogger.component h /\
      ZapLogger.sharedConfig h' = ZapLogger.sharedConfig h /\
      ZapLogger.SampleDuration h' = ZapLogger.SampleDuration h /\
      ZapLogger.SampleInitial h' = ZapLogger.SampleInitial h /\
      ZapLogger.SampleInterval h' = ZapLogger.SampleInterval h /\
      atomics st' = atomics st /\
      forall level : Z,
        fst <$> ZapLogger_isEnabled l' level st' = fst <$> ZapLogger_isEnabled l level st in
  kept (ZapLogger_WithValues l keysAndValues st) /\
  kept (ZapLogger_WithName l name st) /\
  kept (ZapLogger_WithCallDepth l depth st).
Proof.
  intros Hl ([lz Hz] & [lu Hu] & [cur Hcur]) kept.
  assert (Hd : forall f, kept (derive f l st)).
  { intros f.
    destruct (derive_step f st l h lz lu Hl Hz Hu)
      as (st' & h' & Hrun & Hzl & _ & Hat & _ & _ & _ & _ & Hh' & _).
    assert (Hl' : slot (zaploggers st') (S (length (zaploggers st))) = Some h')
      by (rewrite Hzl; apply slot_new).
    assert (Hlev : ZapLogger.level h' = ZapLogger.level h) by (rewrite Hh'; reflexivity).
    exists (S (length (zaploggers st))), st', h'.
    split; [exact Hrun|]. split; [exact Hl'|]. split; [exact Hlev|].
    split; [rewrite Hh'; reflexivity|]. split; [rewrite Hh'; reflexivity|].
    split; [rewrite Hh'; reflexivity|]. split; [rewrite Hh'; reflexivity|].
    split; [rewrite Hh'; reflexivity|]. split; [congruence|].
    intros level.
    rewrite (isEnabled_run st l h cur level Hl Hcur).
    rewrite (isEnabled_run st' _ h' cur level Hl'); [reflexivity|].
    rewrite Hlev. congruence. }
  rewrite WithValues_derive, WithName_derive, WithCallDepth_derive.
  repeat split; apply Hd.
Qed.

(** X8: when the two sinks of a handle are different objects, a derivation
    makes two new sinks, the same derivation applied to each, and the new
    handle's two sinks are again different objects; the receiver's sinks are
    as before. *)
Theorem derivation_mirrors_unsampled (st : State) (l : nat) (h : ZapLogger.t)
    (lz lu : zap.Logger) (keysAndValues : list Any) (name : string) (depth : Z) :
  slot (zaploggers st) l = Some h ->
  slot (sugars st) (ZapLogger.zap h) = Some lz ->
  slot (sugars st) (ZapLogger.unsampled h) = Some lu ->
  ZapLogger.unsampled h <> ZapLogger.zap h ->
  let mirrored (f : zap.Logger -> zap.Logger) (r : option (Logger * State)) :=
    exists (l' : nat) (st' : State) (h' : ZapLogger.t),
      r = Some (Zap l', st') /\
      slot (zaploggers st') l' = Some h' /\
      ZapLogger.unsampled h' <> ZapLogger.zap h' /\
      slot (sugars st') (ZapLogger.zap h') = Some (f lz) /\
      slot (sugars st') (ZapLogger.unsampled h') = Some (f lu) /\
      slot (sugars st') (ZapLogger.zap h) = Some lz /\
      slot (sugars st') (ZapLogger.unsampled h) = Some lu /\
      length (sugars st') = S (S (length (sugars st))) in
  mirrored (fun log => zap.With log keysAndValues) (ZapLogger_WithValues l keysAndValues st) /\
  mirrored (fun log => zap.Named log name) (ZapLogger_WithName l name st) /\
  mirrored (fun log => zap.WithOptions log [zap.AddCallerSkip depth])
           (ZapLogger_WithCallDepth l depth st).
Proof.
  intros Hl Hz Hu Hne mirrored.
  assert (Hd : forall f, mirrored f (derive f l st)).
  { intros f. unfold mirrored, derive, Sugar, new_ZapLogger. runs.
    destruct (decide (ZapLogger.unsampled h = ZapLogger.zap h)) as [|_]; [contradiction|].
    runs. rewrite (slot_old _ _ _ _ Hu). runs.
    eexists _, _, _. split; [reflexivity|]. cbn [zaploggers sugars].
    split; [apply slot_new|].
    cbn [ZapLogger.unsampled ZapLogger.zap with_zap with_unsampled].
    rewrite length_app. cbn [length]. rewrite Nat.add_1_r.
    split; [lia|].
    rewrite <- app_assoc. cbn [app].
    split; [apply slot_new1|]. split; [apply slot_new2|].
    split; [apply slot_app_old, Hz|]. split; [apply slot_app_old, Hu|].
    rewrite length_app. cbn [length]. lia. }
  rewrite WithValues_derive, WithName_derive, WithCallDepth_derive.
  repeat split; apply Hd.
Qed.

(** ** Handles: logging *)

(** X13: on a handle whose sink and level cell exist, each of the four
    logging methods returns, changes nothing but the record of backend
    calls, and adds exactly one call (on the handle's sink, at the method's
    level, with the message and the pairs) when the method's level is at
    least the level the cell reads, and none otherwise. *)
Theorem logging_call_gated (st : State) (l : nat) (h : ZapLogger.t) (log : zap.Logger)
    (cur : Z) (call : LogCall) :
  slot (zaploggers st) l = Some h ->
  slot (atomics st) (ZapLogger.level h) = Some cur ->
  slot (sugars st) (ZapLogger.zap h) = Some log ->
  exists st' : State,
    ZapLogger_call l call st = Some (tt, st') /\
    same_stores st st' /\
    written st'
    = written st
      ++ (if bool_decide (call_level call >= cur)
          then [ZapWrite (ZapLogger.zap h) log (call_level call) (call_msg call)
                  (call_args call)]
          else []).
Proof.
  intros Hl Hcur Hlog.
  exists (gated st h log cur (call_level call) (call_msg call) (call_args call)).
  split.
  - destruct call; cbn [ZapLogger_call call_level call_msg call_args].
    + apply (Debugw_run _ _ _ _ _ Hl Hcur Hlog).
    + apply (Infow_run _ _ _ _ _ Hl Hcur Hlog).
    + apply (Warnw_run _ _ _ _ _ Hl Hcur Hlog).
    + apply (Errorw_run _ _ _ _ _ Hl Hcur Hlog).
  - unfold gated, same_stores. case_bool_decide; cbn.
    + repeat split.
    + rewrite app_nil_r. repeat split.
Qed.

(** ** Handles: sampling *)

(** X10: with a sampling window, [WithItemSampler] builds the new sink
    from the unsampled sink, wrapped in one sampler with the handle's
    window, initial count and interval, and keeps the unsampled sink; called
    again on the result it builds the same sink, so samplers never pile
    up. *)
Theorem WithItemSampler_one_sampler (st : State) (l : nat) (h : ZapLogger.t)
    (lu : zap.Logger) :
  slot (zaploggers st) l = Some h ->
  ZapLogger.SampleDuration h <> 0 ->
  slot (sugars st) (ZapLogger.unsampled h) = Some lu ->
  let sampled :=
    zap.mkLogger
      (zapcore.sampler (zap.core lu) (ZapLogger.SampleDuration h)
         (ZapLogger.SampleInitial h) (ZapLogger.SampleInterval h))
      (zap.name lu) (zap.callerSkip lu) in
  exists (l1 : nat) (st1 : State) (h1 : ZapLogger.t),
    ZapLogger_WithItemSampler l st = Some (Zap l1, st1) /\
    l1 <> l /\
    slot (zaploggers st1) l1 = Some h1 /\
    ZapLogger.unsampled h1 = ZapLogger.unsampled h /\
    slot (sugars st1) (ZapLogger.unsampled h1) = Some lu /\
    slot (sugars st1) (ZapLogger.zap h1) = Some sampled /\
    exists (l2 : nat) (st2 : State) (h2 : ZapLogger.t),
      ZapLogger_WithItemSampler l1 st1 = Some (Zap l2, st2) /\
      slot (zaploggers st2) l2 = Some h2 /\
      ZapLogger.unsampled h2 = ZapLogger.unsampled h /\
      slot (sugars st2) (ZapLogger.zap h2) = Some sampled.
Proof.
  intros Hl Hdur Hu sampled.
  pose proof (slot_Some_pos _ _ _ Hl) as Hpos.
  unfold ZapLogger_WithItemSampler, SugaredLogger_WithOptions, Sugar, new_ZapLogger.
  runs.
  destruct (decide (ZapLogger.SampleDuration h = 0)) as [|_]; [contradiction|].
  runs.
  eexists _, _, _. split; [reflexivity|]. cbn [zaploggers sugars].
  split; [lia|].
  split; [apply slot_new|].
  cbn [ZapLogger.unsampled ZapLogger.zap with_zap].
  split; [reflexivity|].
  split; [apply slot_old, Hu|].
  split; [apply slot_new|].
  runs.
  cbn [with_zap ZapLogger.SampleDuration ZapLogger.unsampled ZapLogger.SampleInitial
       ZapLogger.SampleInterval].
  destruct (decide (ZapLogger.SampleDuration h = 0)) as [|_]; [contradiction|].
  runs. rewrite (slot_old _ _ _ _ Hu). runs.
  eexists _, _, _. split; [reflexivity|]. cbn [zaploggers sugars].
  rewrite ?length_app, <- ?app_assoc. cbn [length app]. rewrite ?Nat.add_1_r.
  split; [apply slot_new2|].
  cbn [ZapLogger.unsampled ZapLogger.zap with_zap].
  split; [reflexivity|].
  apply slot_new2.
Qed.

(** X11: [WithoutSampler] returns a handle whose two sinks are the
    receiver's unsampled sink, makes no sink, and is idempotent: on its own
    result it returns that very handle and changes nothing. *)
Theorem WithoutSampler_idempotent (st : State) (l : nat) (h : ZapLogger.t) :
  slot (zaploggers st) l = Some h ->
  exists (l1 : nat) (st1 : State) (h1 : ZapLogger.t),
    ZapLogger_WithoutSampler l st = Some (Zap l1, st1) /\
    slot (zaploggers st1) l1 = Some h1 /\
    ZapLogger.zap h1 = ZapLogger.unsampled h /\
    ZapLogger.unsampled h1 = ZapLogger.unsampled h /\
    sugars st1 = sugars st /\
    ZapLogger_WithoutSampler l1 st1 = Some (Zap l1, st1).
Proof.
  intros Hl.
  unfold ZapLogger_WithoutSampler, new_ZapLogger. runs.
  destruct (decide (ZapLogger.unsampled h = ZapLogger.zap h)) as [Heq|Hne].
  - exists l, st, h. runs. rewrite decide_True by exact Heq.
    repeat split; congruence.
  - runs. eexists _, _, _. split; [reflexivity|]. cbn [zaploggers sugars].
    split; [apply slot_new|].
    cbn [ZapLogger.unsampled ZapLogger.zap with_zap].
    repeat split.
    runs. cbn [ZapLogger.unsampled ZapLogger.zap with_zap].
    rewrite decide_True by reflexivity. reflexivity.
Qed.

(** ** Handles: components *)

Lemma WithName_ptr_run (st st' : State) (l p : nat) (name : string) :
  ZapLogger_WithName l name st = Some (Zap p, st') ->
  ZapLogger_WithName_ptr l name st = Some (p, st').
Proof.
  unfold ZapLogger_WithName, bind.
  destruct (ZapLogger_WithName_ptr l name st) as [[q s]|]; [|discriminate].
  unfold ret. intros [= -> ->]. reflexivity.
Qed.

(** [WithComponent] up to the call of the registry: the named copy is in
    place, with the joined component path. *)
Lemma WithComponent_steps `{Environment} (st : State) (l : nat) (h : ZapLogger.t)
    (lz lu : zap.Logger) (component : string) :
  slot (zaploggers st) l = Some h ->
  slot (sugars st) (ZapLogger.zap h) = Some lz ->
  slot (sugars st) (ZapLogger.unsampled h) = Some lu ->
  exists (st2 : State) (z u : nat),
    let p := S (length (zaploggers st)) in
    let d := with_component (joined h component) (with_unsampled u (with_zap z h)) in
    ZapLogger_WithComponent l component st
    = (let* a := sharedConfig_setEffectiveLevel (ZapLogger.sharedConfig h)
                   (joined h component) in
       put_ZapLogger p (with_level a d) ;; ret (Zap p)) st2 /\
    zaploggers st2 = zaploggers st ++ [d] /\
    slot (sugars st2) z = Some (zap.Named lz component) /\
    (forall q x, slot (sugars st) q = Some x -> slot (sugars st2) q = Some x) /\
    atomics st2 = atomics st /\ shareds st2 = shareds st /\
    defaultLogger st2 = defaultLogger st /\ pkgLogger st2 = pkgLogger st /\
    written st2 = written st.
Proof.
  intros Hl Hz Hu.
  destruct (derive_step (fun lg => zap.Named lg component) st l h lz lu Hl Hz Hu)
    as (st1 & h1 & Hrun & Hzl & Hkeep & Hat & Hsh & Hdl & Hpl & Hw & Hh1 & Hz1 & _).
  rewrite <- WithName_derive in Hrun. apply WithName_ptr_run in Hrun.
  set (p := S (length (zaploggers st))) in *.
  set (d := with_component (joined h component) h1).
  exists (set_zaploggers (fun s => <[pred p := d]> s) st1),
    (ZapLogger.zap h1), (ZapLogger.unsampled h1).
  cbn zeta. rewrite <- Hh1. fold d.
  assert (Hp1 : slot (zaploggers st1) p = Some h1) by (rewrite Hzl; apply slot_new).
  split.
  { unfold ZapLogger_WithComponent.
    rewrite (bind_run _ _ _ _ _ Hrun).
    rewrite (bind_run _ _ st1 st1 h1) by (unfold deref; rewrite Hp1; reflexivity).
    assert (Hd : (if decide (ZapLogger.component h1 = "")
                  then with_component component h1
                  else with_component (ZapLogger.component h1 +:+ "." +:+ component) h1) = d).
    { unfold d, joined. rewrite Hh1. cbn [ZapLogger.component with_unsampled with_zap].
      destruct (decide (ZapLogger.component h = "")); reflexivity. }
    rewrite Hd.
    assert (Hput : put_ZapLogger p d st1
                   = Some (tt, set_zaploggers (fun s => <[pred p := d]> s) st1)).
    { unfold put_ZapLogger. run. rewrite Hp1. reflexivity. }
    rewrite (bind_run _ _ _ _ _ Hput).
    replace (ZapLogger.sharedConfig d) with (ZapLogger.sharedConfig h)
      by (unfold d; rewrite Hh1; reflexivity).
    replace (ZapLogger.component d) with (joined h component) by reflexivity.
    reflexivity. }
  cbn [set_zaploggers zaploggers sugars atomics shareds defaultLogger pkgLogger written].
  split.
  { rewrite Hzl. unfold p. cbn [Init.Nat.pred]. rewrite insert_app_r_alt by lia.
    rewrite Nat.sub_diag. reflexivity. }
  repeat split; assumption.
Qed.

(** X9: the first handle that [WithComponent] makes for a component path:
    the path is the receiver's path and the component joined by a period
    (the component alone when the receiver has none), the sink is the
    receiver's sink named by the component, and the handle is gated by a new
    cell, cached under the path, that reads the level the registry resolves
    for the path. The receiver is left as it was. *)
Theorem WithComponent_resolves `{Environment} (st : State) (l : nat) (h : ZapLogger.t)
    (lz lu : zap.Logger) (cfg : sharedConfig.t) (component : string) (dflt : Z) :
  slot (zaploggers st) l = Some h ->
  slot (sugars st) (ZapLogger.zap h) = Some lz ->
  slot (sugars st) (ZapLogger.unsampled h) = Some lu ->
  slot (shareds st) (ZapLogger.sharedConfig h) = Some cfg ->
  sharedConfig.componentLevels cfg !! joined h component = None ->
  slot (atomics st) (sharedConfig.level cfg) = Some dflt ->
  exists (l' : nat) (st' : State) (h' : ZapLogger.t) (cfg' : sharedConfig.t),
    ZapLogger_WithComponent l component st = Some (Zap l', st') /\
    slot (zaploggers st') l' = Some h' /\
    slot (zaploggers st') l = Some h /\
    ZapLogger.component h' = joined h component /\
    slot (sugars st') (ZapLogger.zap h') = Some (zap.Named lz component) /\
    slot (atomics st') (ZapLogger.level h')
    = Some (resolveLevel (Config.ComponentLevels (sharedConfig.config cfg)) dflt
              (joined h component)) /\
    slot (atomics st) (ZapLogger.level h') = None /\
    slot (shareds st') (ZapLogger.sharedConfig h) = Some cfg' /\
    sharedConfig.componentLevels cfg' !! joined h component = Some (ZapLogger.level h') /\
    written st' = written st.
Proof.
  intros Hl Hz Hu Hcfg Hfirst Hd.
  destruct (WithComponent_steps st l h lz lu component Hl Hz Hu)
    as (st2 & z & u & Hrun & Hzl2 & Hz2 & Hkeep & Hat2 & Hsh2 & _ & _ & Hw2).
  cbn zeta in Hrun.
  destruct (setEffectiveLevel_miss st2 (ZapLogger.sharedConfig h) cfg (joined h component) dflt)
    as (st3 & Hset & Hat3 & Hsh3 & Hsu3 & Hzl3 & _ & _ & Hw3);
    [rewrite Hsh2; exact Hcfg | exact Hfirst | rewrite Hat2; exact Hd |].
  rewrite Hat2 in *.
  set (a := S (length (atomics st))) in *.
  set (p := S (length (zaploggers st))) in *.
  set (d := with_component (joined h component) (with_unsampled u (with_zap z h))) in *.
  assert (Hp3 : slot (zaploggers st3) p = Some d)
    by (rewrite Hzl3, Hzl2; apply slot_new).
  eexists p, (set_zaploggers (fun s => <[pred p := with_level a d]> s) st3),
    (with_level a d), _.
  split.
  { rewrite Hrun. rewrite (bind_run _ _ _ _ _ Hset).
    unfold put_ZapLogger. run. rewrite Hp3. reflexivity. }
  cbn [set_zaploggers zaploggers sugars atomics shareds written].
  split; [apply (slot_insert_eq _ _ d), Hp3|].
  split.
  { rewrite (slot_insert_ne _ _ _ d); [|exact Hp3|apply slot_Some_pos in Hl; unfold p; lia].
    rewrite Hzl3, Hzl2. apply slot_old, Hl. }
  split; [reflexivity|].
  split; [rewrite Hsu3; exact Hz2|].
  cbn [with_level ZapLogger.level].
  split; [rewrite Hat3; apply slot_new|].
  split; [simpl; apply lookup_ge_None; lia|].
  split; [rewrite Hsh3, Hsh2; apply (slot_insert_eq _ _ cfg), Hcfg|].
  split; [cbn [sharedConfig.componentLevels]; apply lookup_insert_eq|].
  congruence.
Qed.

(** X19: a handle that [WithComponent] makes for a path the registry has
    cached is gated by the cached cell: all handles of one component share
    one cell, and no cell is made. *)
Theorem WithComponent_shares_cell `{Environment} (st : State) (l : nat) (h : ZapLogger.t)
    (lz lu : zap.Logger) (cfg : sharedConfig.t) (component : string) (cell : nat) :
  slot (zaploggers st) l = Some h ->
  slot (sugars st) (ZapLogger.zap h) = Some lz ->
  slot (sugars st) (ZapLogger.unsampled h) = Some lu ->
  slot (shareds st) (ZapLogger.sharedConfig h) = Some cfg ->
  sharedConfig.componentLevels cfg !! joined h component = Some cell ->
  exists (l' : nat) (st' : State) (h' : ZapLogger.t),
    ZapLogger_WithComponent l component st = Some (Zap l', st') /\
    slot (zaploggers st') l' = Some h' /\
    ZapLogger.component h' = joined h component /\
    ZapLogger.level h' = cell /\
    atomics st' = atomics st /\
    shareds st' = shareds st.
Proof.
  intros Hl Hz Hu Hcfg Hhit.
  destruct (WithComponent_steps st l h lz lu component Hl Hz Hu)
    as (st2 & z & u & Hrun & Hzl2 & _ & _ & Hat2 & Hsh2 & _).
  cbn zeta in Hrun.
  assert (Hset : sharedConfig_setEffectiveLevel (ZapLogger.sharedConfig h)
                   (joined h component) st2 = Some (cell, st2))
    by (apply (setEffectiveLevel_hit _ _ cfg); [rewrite Hsh2; exact Hcfg | exact Hhit]).
  set (p := S (length (zaploggers st))) in *.
  set (d := with_component (joined h component) (with_unsampled u (with_zap z h))) in *.
  assert (Hp2 : slot (zaploggers st2) p = Some d) by (rewrite Hzl2; apply slot_new).
  exists p, (set_zaploggers (fun s => <[pred p := with_level cell d]> s) st2),
    (with_level cell d).
  split.
  { rewrite Hrun. rewrite (bind_run _ _ _ _ _ Hset).
    unfold put_ZapLogger. run. rewrite Hp2. reflexivity. }
  cbn [set_zaploggers zaploggers sugars atomics shareds written].
  split; [apply (slot_insert_eq _ _ d), Hp2|].
  repeat split; assumption.
Qed.

(** ** Construction: the item sampling window *)

Lemma wrap64_zero (z : Z) : wrap64 z = 0 <-> (2 ^ 64 | z).
Proof.
  unfold wrap64. rewrite <- Z.mod_divide by lia.
  split; intros Hz; Z.div_mod_to_equations; lia.
Qed.

Lemma wrap64_small (z : Z) : - 2 ^ 63 <= z < 2 ^ 63 -> wrap64 z = z.
Proof.
  intros Hz. unfold wrap64. rewrite Z.mod_small by lia. lia.
Qed.

Lemma seconds_wrap_zero (s : Z) : time.mul s time.Second = 0 <-> (2 ^ 55 | s).
Proof.
  unfold time.mul, time.Second. rewrite wrap64_zero.
  change 1000000000 with (5 ^ 9 * 2 ^ 9). change (2 ^ 64) with (2 ^ 55 * 2 ^ 9).
  rewrite Z.mul_assoc, Z.mul_divide_cancel_r by lia.
  split.
  - intros Hd. apply (Z.gauss _ (5 ^ 9)); [rewrite Z.mul_comm; exact Hd|].
    reflexivity.
  - intros Hd. apply Z.divide_mul_l, Hd.
Qed.

(** [NewZapLogger] when the backend is built, with the handle it makes. *)
Lemma NewZapLogger_handle `{Environment} (st : State) (conf : Config.t)
    (build : zap.Logger) :
  Build (NewZapLogger_zc conf (S (S (length (atomics st))))) = inr build ->
  exists (st' : State) (z u : nat),
    NewZapLogger conf st = Some ((S (length (zaploggers st)), None), st') /\
    slot (zaploggers st') (S (length (zaploggers st)))
    = Some (ZapLogger.mk z u "" (S (length (shareds st))) (S (length (atomics st)))
              (time.mul (Config.ItemSampleSeconds conf) time.Second)
              (Config.ItemSampleInitial conf) (Config.ItemSampleInterval conf)) /\
    slot (sugars st') u = Some build /\
    slot (sugars st') z
    = Some (if Config.Sample conf then sampled_sink conf build else build) /\
    slot (atomics st') (S (length (atomics st))) = Some (ParseZapLevel (Config.Level conf)) /\
    slot (shareds st') (S (length (shareds st)))
    = Some (sharedConfig.mk (S (length (atomics st))) ∅ conf) /\
    (forall q x, slot (zaploggers st) q = Some x -> slot (zaploggers st') q = Some x) /\
    defaultLogger st' = defaultLogger st /\
    pkgLogger st' = pkgLogger st /\
    written st' = written st.
Proof.
  intros Hbuild.
  unfold NewZapLogger, newSharedConfig, new_sharedConfig, NewAtomicLevelAt, new_ZapLogger.
  runs. rewrite length_app. cbn [length]. rewrite Nat.add_1_r.
  rewrite Hbuild.
  unfold Sugar, put_ZapLogger. runs.
  destruct (Config.Sample conf) eqn:Hsample.
  - runs. cbn [Init.Nat.pred]. rewrite insert_app_r_alt by lia.
    rewrite Nat.sub_diag. cbn [insert list_insert].
    runs.
    eexists _, _, _. split; [reflexivity|]. cbn [zaploggers sugars atomics shareds].
    rewrite insert_app_r_alt by lia. rewrite Nat.sub_diag. cbn [insert list_insert].
    split; [rewrite slot_new; reflexivity|].
    split; [apply slot_old, slot_new|].
    split; [rewrite ?length_app, <- app_assoc; cbn [app length]; rewrite ?Nat.add_1_r;
            apply slot_new2|].
    split; [apply slot_old, slot_new|].
    split; [apply slot_new|].
    split; [intros q x Hq; apply slot_old, Hq|].
    repeat split.
  - runs. cbn [Init.Nat.pred]. rewrite insert_app_r_alt by lia.
    rewrite Nat.sub_diag. cbn [insert list_insert].
    runs.
    eexists _, _, _. split; [reflexivity|]. cbn [zaploggers sugars atomics shareds].
    rewrite insert_app_r_alt by lia. rewrite Nat.sub_diag. cbn [insert list_insert].
    split; [rewrite slot_new; reflexivity|].
    split; [apply slot_new|].
    split; [apply slot_new|].
    split; [apply slot_old, slot_new|].
    split; [apply slot_new|].
    split; [intros q x Hq; apply slot_old, Hq|].
    repeat split.
Qed.

Lemma WithItemSampler_off (st : State) (l : nat) (h : ZapLogger.t) :
  slot (zaploggers st) l = Some h ->
  ZapLogger.SampleDuration h = 0 ->
  ZapLogger_WithItemSampler l st = Some (Zap l, st).
Proof.
  intros Hl Hd. unfold ZapLogger_WithItemSampler. runs.
  rewrite decide_True by exact Hd. reflexivity.
Qed.

Lemma WithItemSampler_on (st : State) (l : nat) (h : ZapLogger.t) :
  slot (zaploggers st) l = Some h ->
  ZapLogger.SampleDuration h <> 0 ->
  is_Some (slot (sugars st) (ZapLogger.unsampled h)) ->
  exists st' : State,
    ZapLogger_WithItemSampler l st = Some (Zap (S (length (zaploggers st))), st') /\
    length (sugars st') = S (length (sugars st)).
Proof.
  intros Hl Hd [lu Hu].
  unfold ZapLogger_WithItemSampler, SugaredLogger_WithOptions, Sugar, new_ZapLogger. runs.
  rewrite decide_False by exact Hd. runs.
  eexists. split; [reflexivity|]. cbn [sugars]. rewrite length_app. cbn [length]. lia.
Qed.

(** X12: the sampling window of a handle made by [NewZapLogger] is
    [ItemSampleSeconds] seconds in int64 nanoseconds: the exact product for
    up to 9223372036 seconds either way, and zero exactly when
    [ItemSampleSeconds] is a multiple of [2^55] (zero included). So
    [WithItemSampler] on that handle returns the handle itself exactly in
    that case, and a new sampled handle otherwise. *)
Theorem NewZapLogger_item_window `{Environment} (st : State) (conf : Config.t)
    (build : zap.Logger) :
  Build (NewZapLogger_zc conf (S (S (length (atomics st))))) = inr build ->
  let s := Config.ItemSampleSeconds conf in
  exists (l : nat) (st' : State) (h : ZapLogger.t),
    NewZapLogger conf st = Some ((l, None), st') /\
    slot (zaploggers st') l = Some h /\
    ZapLogger.SampleDuration h = wrap64 (s * 1000000000) /\
    (-9223372036 <= s <= 9223372036 -> ZapLogger.SampleDuration h = s * 1000000000) /\
    (ZapLogger.SampleDuration h = 0 <-> (2 ^ 55 | s)) /\
    ((2 ^ 55 | s) -> ZapLogger_WithItemSampler l st' = Some (Zap l, st')) /\
    (~ (2 ^ 55 | s) ->
     exists (l' : nat) (st'' : State),
       ZapLogger_WithItemSampler l st' = Some (Zap l', st'') /\ l' <> l).
Proof.
  intros Hbuild s.
  destruct (NewZapLogger_handle st conf build Hbuild)
    as (st' & z & u & Hrun & Hh & Hu & _).
  eexists _, st', _. split; [exact Hrun|]. split; [exact Hh|].
  cbn [ZapLogger.SampleDuration]. fold s.
  split; [reflexivity|].
  split; [intros Hs; unfold time.mul, time.Second; apply wrap64_small; lia|].
  split; [apply seconds_wrap_zero|].
  split.
  - intros Hdiv. apply (WithItemSampler_off _ _ _ Hh).
    cbn [ZapLogger.SampleDuration]. apply seconds_wrap_zero, Hdiv.
  - intros Hdiv.
    destruct (WithItemSampler_on st' _ _ Hh) as (st'' & Hrun' & _).
    + cbn [ZapLogger.SampleDuration]. rewrite seconds_wrap_zero. exact Hdiv.
    + cbn [ZapLogger.unsampled]. eauto.
    + eexists _, st''. split; [exact Hrun'|].
      apply slot_Some_pos in Hh. lia.
Qed.

(** ** The package before and after initialisation *)

Lemma discard_call (r : LogRLogger) (call : LogCall) (st : State) :
  logr.sink r = None ->
  Logger_call (LogR r) call st = Some (tt, st).
Proof.
  intros Hr.
  destruct call; cbn [Logger_call Logger_Debugw Logger_Infow Logger_Warnw Logger_Errorw];
    unfold LogRLogger_Debugw, LogRLogger_Infow, LogRLogger_Warnw, LogRLogger_Errorw,
      LogRLogger_toLogr, logr.GetSink;
    rewrite Hr; reflexivity.
Qed.

Lemma pkg_call_run (call : LogCall) (st : State) :
  pkg_call call st = Logger_call (pkgLogger st) call st.
Proof. destruct call; reflexivity. Qed.

(** X14: while the package handle is a [LogRLogger] without a sink, as it
    is until [SetLogger] runs, the package-level [Debugw], [Infow], [Warnw]
    and [Errorw] return and leave the state as it is: nothing is written
    or kept for later. *)
Theorem package_calls_before_init (st : State) (r : LogRLogger) (call : LogCall) :
  pkgLogger st = LogR r ->
  logr.sink r = None ->
  pkg_call call st = Some (tt, st).
Proof.
  intros Hp Hr. rewrite pkg_call_run, Hp. apply discard_call, Hr.
Qed.

Lemma InitL_discard (st : State) (r : LogRLogger) :
  defaultLogger st = LogR r ->
  logr.sink r = None ->
  InitL st = Some (mkzl (LogR discardLogger), st).
Proof.
  intros Hd Hr.
  unfold InitL, GetLogger, LoggerWithParticipant. run. rewrite Hd.
  cbn [Logger_WithValues]. run.
  unfold LogRLogger_WithValues, LogRLogger_toLogr, logr.GetSink. rewrite Hr.
  reflexivity.
Qed.

(** X15: a logger taken through [InitL] while the default handle is a
    [LogRLogger] without a sink is the discarding logger: [InitL] changes
    nothing, and the logger writes nothing in any later state, also after
    the singletons have been replaced. *)
Theorem InitL_before_init (st : State) (r : LogRLogger) :
  defaultLogger st = LogR r ->
  logr.sink r = None ->
  exists z : zl,
    InitL st = Some (z, st) /\
    zl_GetLogger z = LogR discardLogger /\
    forall (later : State) (call : LogCall),
      Logger_call (zl_GetLogger z) call later = Some (tt, later).
Proof.
  intros Hd Hr. exists (mkzl (LogR discardLogger)).
  split; [apply (InitL_discard _ _ Hd Hr)|]. split; [reflexivity|].
  intros later call. apply discard_call. reflexivity.
Qed.

(** [SetLogger] on a [ZapLogger] handle, with the two new handles in view:
    both are gated by the cell of the argument. *)
Lemma SetLogger_Zap_gate (st : State) (l : nat) (h : ZapLogger.t) (lz lu : zap.Logger)
    (name : string) :
  slot (zaploggers st) l = Some h ->
  slot (sugars st) (ZapLogger.zap h) = Some lz ->
  slot (sugars st) (ZapLogger.unsampled h) = Some lu ->
  exists (st' : State) (d p : nat) (hd hp : ZapLogger.t),
    SetLogger (Zap l) name st = Some (tt, st') /\
    defaultLogger st' = Zap d /\ pkgLogger st' = Zap p /\
    slot (zaploggers st') d = Some hd /\ slot (zaploggers st') p = Some hp /\
    ZapLogger.level hd = ZapLogger.level h /\ ZapLogger.level hp = ZapLogger.level h /\
    slot (sugars st') (ZapLogger.zap hd)
    = Some (zap.Named (zap.WithOptions lz [zap.AddCallerSkip 1]) name) /\
    slot (sugars st') (ZapLogger.zap hp)
    = Some (zap.Named (zap.WithOptions lz [zap.AddCallerSkip 2]) name) /\
    slot (sugars st') (ZapLogger.unsampled hd)
    = Some (zap.Named (zap.WithOptions lu [zap.AddCallerSkip 1]) name) /\
    atomics st' = atomics st /\ shareds st' = shareds st /\ written st' = written st.
Proof.
  intros Hl Hz Hu.
  set (g := fun lg : zap.Logger => zap.Named lg name).
  set (f1 := fun lg : zap.Logger => zap.WithOptions lg [zap.AddCallerSkip 1]).
  set (f2 := fun lg : zap.Logger => zap.WithOptions lg [zap.AddCallerSkip 2]).
  destruct (derive_step f1 st l h lz lu Hl Hz Hu)
    as (s1 & h1 & Hr1 & Hzl1 & Hk1 & Hat1 & Hsh1 & _ & _ & Hw1 & Hh1 & Hz1 & Hu1).
  assert (Hl1 : slot (zaploggers s1) (S (length (zaploggers st))) = Some h1)
    by (rewrite Hzl1; apply slot_new).
  destruct (derive_step g s1 _ h1 _ _ Hl1 Hz1 Hu1)
    as (s2 & h2 & Hr2 & Hzl2 & Hk2 & Hat2 & Hsh2 & _ & _ & Hw2 & Hh2 & Hz2 & Hu2).
  set (d := S (length (zaploggers s1))) in *.
  set (s2' := set_defaultLogger (Zap d) s2).
  assert (Hl2 : slot (zaploggers s2') l = Some h)
    by (cbn; rewrite Hzl2, Hzl1; apply slot_old, slot_old, Hl).
  destruct (derive_step f2 s2' l h lz lu Hl2)
    as (s3 & h3 & Hr3 & Hzl3 & Hk3 & Hat3 & Hsh3 & Hdl3 & _ & Hw3 & Hh3 & Hz3 & Hu3);
    [cbn; apply Hk2, Hk1, Hz | cbn; apply Hk2, Hk1, Hu |].
  assert (Hl3 : slot (zaploggers s3) (S (length (zaploggers s2'))) = Some h3)
    by (rewrite Hzl3; apply slot_new).
  destruct (derive_step g s3 _ h3 _ _ Hl3 Hz3 Hu3)
    as (s4 & h4 & Hr4 & Hzl4 & Hk4 & Hat4 & Hsh4 & Hdl4 & _ & Hw4 & Hh4 & Hz4 & _).
  set (p := S (length (zaploggers s3))) in *.
  cbn [s2' set_defaultLogger zaploggers sugars atomics shareds written defaultLogger] in *.
  assert (Hd2 : slot (zaploggers s2) d = Some h2) by (rewrite Hzl2; apply slot_new).
  exists (set_pkgLogger (Zap p) s4), d, p, h2, h4.
  split.
  { unfold SetLogger. cbn [Logger_WithCallDepth].
    rewrite (bind_run _ _ _ _ _ (eq_trans (WithCallDepth_derive _ _ _) Hr1)).
    cbn [Logger_WithName].
    rewrite (bind_run _ _ _ _ _ (eq_trans (WithName_derive _ _ _) Hr2)).
    unfold bind at 1. unfold modify at 1. fold s2'.
    rewrite (bind_run _ _ _ _ _ (eq_trans (WithCallDepth_derive _ _ _) Hr3)).
    cbn [Logger_WithName].
    rewrite (bind_run _ _ _ _ _ (eq_trans (WithName_derive _ _ _) Hr4)).
    reflexivity. }
  cbn [set_pkgLogger zaploggers sugars atomics shareds written defaultLogger pkgLogger].
  split; [congruence|]. split; [reflexivity|].
  split; [rewrite Hzl4, Hzl3; apply slot_old, slot_old, Hd2|].
  split; [rewrite Hzl4; apply slot_new|].
  split; [rewrite Hh2, Hh1; reflexivity|].
  split; [rewrite Hh4, Hh3; reflexivity|].
  split; [apply Hk4, Hk3, Hz2|].
  split; [exact Hz4|].
  split; [apply Hk4, Hk3, Hu2|].
  repeat split; congruence.
Qed.

(** X16: after [InitLogConfig] with a backend that builds, the package-level
    logging functions are gated by the default level of the configuration:
    a call below it adds nothing, any other call adds exactly one backend
    call, on the package handle's sink, which is the built sink (sampled
    when [Sample] is set) with two more caller frames skipped and named by
    the system. *)
Theorem InitLogConfig_then_package_call `{Environment} (st : State) (conf : Config.t)
    (system : string) (build : zap.Logger) (call : LogCall) :
  Build (NewZapLogger_zc conf (S (S (length (atomics st))))) = inr build ->
  let base := if Config.Sample conf then sampled_sink conf build else build in
  let log := zap.Named (zap.WithOptions base [zap.AddCallerSkip 2]) system in
  exists (st1 st2 : State) (sk : nat),
    InitLogConfig conf system st = Some (tt, st1) /\
    written st1 = written st /\
    slot (sugars st1) sk = Some log /\
    pkg_call call st1 = Some (tt, st2) /\
    same_stores st1 st2 /\
    written st2
    = written st1
      ++ (if bool_decide (call_level call >= ParseZapLevel (Config.Level conf))
          then [ZapWrite sk log (call_level call) (call_msg call) (call_args call)]
          else []).
Proof.
  intros Hbuild base log.
  destruct (NewZapLogger_handle st conf build Hbuild)
    as (s0 & z & u & Hnew & Hh & Hu & Hz & Hlevel & _ & _ & _ & _ & Hw0).
  fold base in Hz.
  destruct (SetLogger_Zap_gate s0 _ _ base build system Hh Hz Hu)
    as (st1 & d & p & hd & hp & Hset & _ & Hp & _ & Hhp & _ & Hlp & _ & Hzp & _ & Hat & _ & Hw1).
  fold log in Hzp. cbn [ZapLogger.level] in Hlp.
  assert (Hcur : slot (atomics st1) (ZapLogger.level hp)
                 = Some (ParseZapLevel (Config.Level conf)))
    by (rewrite Hat, Hlp; exact Hlevel).
  exists st1,
    (gated st1 hp log (ParseZapLevel (Config.Level conf)) (call_level call) (call_msg call)
       (call_args call)),
    (ZapLogger.zap hp).
  split; [unfold InitLogConfig; rewrite (bind_run _ _ _ _ _ Hnew); exact Hset|].
  split; [congruence|]. split; [exact Hzp|].
  split.
  { rewrite pkg_call_run, Hp.
    destruct call; cbn [Logger_call Logger_Debugw Logger_Infow Logger_Warnw Logger_Errorw
                        call_level call_msg call_args].
    - apply (Debugw_run _ _ _ _ _ Hhp Hcur Hzp).
    - apply (Infow_run _ _ _ _ _ Hhp Hcur Hzp).
    - apply (Warnw_run _ _ _ _ _ Hhp Hcur Hzp).
    - apply (Errorw_run _ _ _ _ _ Hhp Hcur Hzp). }
  unfold gated, same_stores. case_bool_decide; cbn.
  - repeat split.
  - rewrite app_nil_r. repeat split.
Qed.

(** ** [oneLog.go] *)

(** X18: [LoggerWithParticipant] on a [ZapLogger] handle binds whole
    key/value pairs to a new handle's sink, after those already bound: a
    ["participant"] pair exactly when the identity is not empty, a ["pID"]
    pair exactly when the sid is not empty, and always, last, the
    ["remote"] pair. The handle it was given is unchanged. *)
Theorem LoggerWithParticipant_pairs (st : State) (l : nat) (h : ZapLogger.t)
    (lz lu : zap.Logger) (identity sid : string) (isRemote : bool) :
  slot (zaploggers st) l = Some h ->
  slot (sugars st) (ZapLogger.zap h) = Some lz ->
  slot (sugars st) (ZapLogger.unsampled h) = Some lu ->
  exists (l' : nat) (st' : State) (log' : zap.Logger) (pairs : list (string * Any)),
    LoggerWithParticipant (Zap l) identity sid isRemote st = Some (Zap l', st') /\
    sink_of st' l' = Some log' /\
    zapcore.bound (zap.core log')
    = zapcore.bound (zap.core lz) ++ flat_map (fun kv => [AString kv.1; kv.2]) pairs /\
    last pairs = Some ("remote", ABool isRemote) /\
    (("participant", AString identity) ∈ pairs <-> identity <> "") /\
    (("pID", AString sid) ∈ pairs <-> sid <> "") /\
    (length pairs <= 3)%nat /\
    slot (zaploggers st') l = Some h.
Proof.
  intros Hl Hz Hu.
  assert (Hgen : forall values pairs,
             values = flat_map (fun kv : string * Any => [AString kv.1; kv.2]) pairs ->
             exists (l' : nat) (st' : State) (log' : zap.Logger),
               ZapLogger_WithValues l values st = Some (Zap l', st') /\
               sink_of st' l' = Some log' /\
               zapcore.bound (zap.core log')
               = zapcore.bound (zap.core lz)
                 ++ flat_map (fun kv => [AString kv.1; kv.2]) pairs /\
               slot (zaploggers st') l = Some h).
  { intros values pairs ->.
    destruct (derive_step (fun lg => zap.With lg
                (flat_map (fun kv : string * Any => [AString kv.1; kv.2]) pairs))
                st l h lz lu Hl Hz Hu)
      as (st' & h' & Hrun & Hzl & _ & _ & _ & _ & _ & _ & _ & Hz' & _).
    eexists _, st', _. rewrite WithValues_derive. split; [exact Hrun|].
    split; [unfold sink_of; rewrite Hzl, slot_new; exact Hz'|].
    split; [apply With_bound|].
    rewrite Hzl. apply slot_old, Hl. }
  unfold LoggerWithParticipant. cbn [Logger_WithValues].
  destruct (decide (identity <> "")) as [Hi|Hi]; destruct (decide (sid <> "")) as [Hs|Hs];
    cbn [app].
  - destruct (Hgen _ [("participant", AString identity); ("pID", AString sid);
                      ("remote", ABool isRemote)] eq_refl)
      as (l' & st' & log' & Hrun & Hsink & Hbound & Hkeep).
    eexists l', st', log', _. split; [exact Hrun|]. split; [exact Hsink|].
    split; [exact Hbound|]. split; [reflexivity|].
    split; [split; [intros _; exact Hi | intros _; apply elem_of_cons; left; reflexivity]|].
    split; [split; [intros _; exact Hs
                   | intros _; apply elem_of_cons; right; apply elem_of_cons; left;
                     reflexivity]|].
    split; [simpl; lia | exact Hkeep].
  - destruct (Hgen _ [("participant", AString identity); ("remote", ABool isRemote)] eq_refl)
      as (l' & st' & log' & Hrun & Hsink & Hbound & Hkeep).
    eexists l', st', log', _. split; [exact Hrun|]. split; [exact Hsink|].
    split; [exact Hbound|]. split; [reflexivity|].
    split; [split; [intros _; exact Hi | intros _; apply elem_of_cons; left; reflexivity]|].
    split.
    { split; [|intros Hne; contradiction].
      intros Hin. repeat (apply elem_of_cons in Hin as [Hin|Hin]; [discriminate|]).
      inversion Hin. }
    split; [simpl; lia | exact Hkeep].
  - destruct (Hgen _ [("pID", AString sid); ("remote", ABool isRemote)] eq_refl)
      as (l' & st' & log' & Hrun & Hsink & Hbound & Hkeep).
    eexists l', st', log', _. split; [exact Hrun|]. split; [exact Hsink|].
    split; [exact Hbound|]. split; [reflexivity|].
    split.
    { split; [|intros Hne; contradiction].
      intros Hin. repeat (apply elem_of_cons in Hin as [Hin|Hin]; [discriminate|]).
      inversion Hin. }
    split; [split; [intros _; exact Hs | intros _; apply elem_of_cons; left; reflexivity]|].
    split; [simpl; lia | exact Hkeep].
  - destruct (Hgen _ [("remote", ABool isRemote)] eq_refl)
      as (l' & st' & log' & Hrun & Hsink & Hbound & Hkeep).
    eexists l', st', log', _. split; [exact Hrun|]. split; [exact Hsink|].
    split; [exact Hbound|]. split; [reflexivity|].
    split.
    { split; [|intros Hne; contradiction].
      intros Hin. repeat (apply elem_of_cons in Hin as [Hin|Hin]; [discriminate|]).
      inversion Hin. }
    split.
    { split; [|intros Hne; contradiction].
      intros Hin. repeat (apply elem_of_cons in Hin as [Hin|Hin]; [discriminate|]).
      inversion Hin. }
    split; [simpl; lia | exact Hkeep].
Qed.

(** ** The level of a configuration without a usable level text *)

(** X20: when the level text of the configuration is empty, or is one
    that [UnmarshalText] rejects, the handle [NewZapLogger] makes is at
    Info: [Debugw] writes nothing and [Infow] makes one backend call. *)
Theorem unusable_level_is_Info `{Environment} (st : State) (conf : Config.t)
    (build : zap.Logger) (msg : string) (keysAndValues : list Any) :
  Build (NewZapLogger_zc conf (S (S (length (atomics st))))) = inr build ->
  Config.Level conf = "" \/ UnmarshalText (Config.Level conf) = None ->
  exists (l : nat) (st' : State),
    NewZapLogger conf st = Some ((l, None), st') /\
    ZapLogger_Debugw l msg keysAndValues st' = Some (tt, st') /\
    exists e : Entry,
      ZapLogger_Infow l msg keysAndValues st'
      = Some (tt, set_written (fun w => w ++ [e]) st').
Proof.
  intros Hbuild Hlevel.
  destruct (NewZapLogger_handle st conf build Hbuild)
    as (st' & z & u & Hrun & Hh & _ & Hz & Hcur & _).
  assert (Hinfo : ParseZapLevel (Config.Level conf) = zapcore.InfoLevel).
  { unfold ParseZapLevel. destruct Hlevel as [->| ->]; [reflexivity|].
    destruct (decide (Config.Level conf <> "")); reflexivity. }
  rewrite Hinfo in Hcur.
  exists (S (length (zaploggers st))), st'. split; [exact Hrun|]. split.
  - rewrite (Debugw_run _ _ _ _ _ Hh Hcur Hz). reflexivity.
  - eexists. rewrite (Infow_run _ _ _ _ _ Hh Hcur Hz). reflexivity.
Qed.

(** ** The further properties at work on the example states *)

Lemma registry_ok_svc : registry_ok st_svc cfg_svc.
Proof.
  split; [|split].
  - vm_compute. eexists. reflexivity.
  - apply (bool_decide_unpack _). vm_compute. exact I.
  - apply (bool_decide_unpack _). vm_compute. exact I.
Defined.

Lemma setEffectiveLevel_caches_witness :
  exists (cell : nat) (st' : State),
    @sharedConfig_setEffectiveLevel env 1 "a.b.c" st_ab = Some (cell, st') /\
    @sharedConfig_setEffectiveLevel env 1 "a.b.c" st' = Some (cell, st').
Proof.
  destruct (@setEffectiveLevel_caches env st_ab 1 (sharedConfig.mk 1 ∅ conf_ab) "a.b.c" 0)
    as (cell & st' & Hfirst & Hsecond & _);
    [vm_compute; reflexivity | vm_compute; reflexivity | vm_compute; reflexivity |].
  exists cell, st'. split; assumption.
Defined.

Lemma setEffectiveLevel_fresh_cell_witness :
  exists (cell : nat) (st' : State),
    @sharedConfig_setEffectiveLevel env 1 "db" st_svc = Some (cell, st') /\
    cell <> 1%nat /\ cell <> 3%nat /\ cell <> 4%nat /\
    slot (atomics st') 4 = Some zapcore.InfoLevel.
Proof.
  destruct (@setEffectiveLevel_fresh_cell env st_svc 1 cfg_svc "db")
    as (cell & st' & Hrun & _ & Hdflt & Hothers & Hkeep & _);
    [vm_compute; reflexivity | vm_compute; reflexivity | exact registry_ok_svc |].
  exists cell, st'. split; [exact Hrun|]. split; [exact Hdflt|].
  split; [intros Heq; apply (Hothers "svc" 3%nat); [vm_compute; reflexivity | congruence]|].
  split; [intros Heq; apply (Hothers "svc.a" 4%nat); [vm_compute; reflexivity | congruence]|].
  apply Hkeep. reflexivity.
Defined.

Lemma setEffectiveLevel_longest_prefix_witness :
  exists (cell : nat) (st' : State),
    @sharedConfig_setEffectiveLevel env 1 "a.b.c" st_ab = Some (cell, st') /\
    slot (atomics st') cell = Some zapcore.WarnLevel.
Proof.
  destruct (@setEffectiveLevel_longest_prefix env st_ab 1 (sharedConfig.mk 1 ∅ conf_ab)
              "a.b.c" 0)
    as (cell & st' & v & Hrun & Hcell & _ & Hwins);
    [vm_compute; reflexivity | vm_compute; reflexivity | vm_compute; reflexivity |].
  exists cell, st'. split; [exact Hrun|]. rewrite Hcell. f_equal.
  apply (Hwins "a.b" "warn").
  - right. exists "c". reflexivity.
  - vm_compute. reflexivity.
  - intros k' _ Hlen.
    change (({["a.b" := "warn"]} : gmap string string) !! k' = None).
    apply lookup_singleton_None. intros <-. simpl in Hlen. lia.
Defined.

Lemma onConfigUpdate_then_setEffectiveLevel_witness :
  exists (cell : nat) (st' : State),
    (@sharedConfig_onConfigUpdate env 1 conf_reload ;;
     @sharedConfig_setEffectiveLevel env 1 "svc.b") st_svc
    = Some (cell, st') /\
    slot (atomics st') cell = Some zapcore.ErrorLevel.
Proof.
  destruct (@onConfigUpdate_then_setEffectiveLevel env st_svc 1 cfg_svc conf_reload "svc.b")
    as (cell & st' & Hrun & Hcell);
    [vm_compute; reflexivity | exact registry_ok_svc | vm_compute; reflexivity |].
  exists cell, st'. split; [exact Hrun | exact Hcell].
Defined.

Lemma registry_operations_keep_wellformed_witness :
  exists st' : State,
    @sharedConfig_onConfigUpdate env 1 conf_reload st_svc = Some (None, st') /\
    registries_ok st'.
Proof.
  destruct (@registry_operations_keep_wellformed env st_svc 1 cfg_svc conf_reload "db")
    as (_ & Hreload & _).
  - constructor; [exact registry_ok_svc | constructor].
  - vm_compute. reflexivity.
  - exact Hreload.
Defined.

Lemma onConfigUpdate_frame_witness :
  exists st' : State,
    @sharedConfig_onConfigUpdate env 1 conf_reload st_svc = Some (None, st') /\
    slot (atomics st') 2 = Some zapcore.DebugLevel /\
    zaploggers st' = zaploggers st_svc /\
    written st' = [].
Proof.
  destruct (@onConfigUpdate_frame env st_svc 1 cfg_svc conf_reload)
    as (st' & Hrun & _ & _ & _ & Hother & _ & Hzl & _ & _ & Hw);
    [vm_compute; reflexivity | exact registry_ok_svc |].
  exists st'. split; [exact Hrun|]. split; [|split; assumption].
  rewrite (Hother 2%nat); [reflexivity | vm_compute; discriminate |].
  apply (bool_decide_unpack _). vm_compute. exact I.
Defined.

Lemma derivation_keeps_gate_witness :
  exists (l' : nat) (st' : State) (h' : ZapLogger.t),
    ZapLogger_WithValues 1 [AString "k"; AString "v"] st_main = Some (Zap l', st') /\
    slot (zaploggers st') l' = Some h' /\
    ZapLogger.level h' = 1%nat.
Proof.
  destruct (derivation_keeps_gate st_main 1 h_first [AString "k"; AString "v"] "x" 1)
    as ((l' & st' & h' & Hrun & Hh' & Hlevel & _) & _).
  - vm_compute. reflexivity.
  - repeat split; vm_compute; eexists; reflexivity.
  - exists l', st', h'. repeat split; assumption.
Defined.

Lemma derivation_mirrors_unsampled_witness :
  exists (l' : nat) (st' : State) (h' : ZapLogger.t),
    ZapLogger_WithName 1 "room" st_sampled = Some (Zap l', st') /\
    slot (zaploggers st') l' = Some h' /\
    ZapLogger.unsampled h' <> ZapLogger.zap h' /\
    slot (sugars st') (ZapLogger.zap h') = Some (zap.Named log_json_sampled "room") /\
    slot (sugars st') (ZapLogger.unsampled h') = Some (zap.Named log_json "room").
Proof.
  destruct (derivation_mirrors_unsampled st_sampled 1 h_sampled log_json_sampled log_json
              [] "room" 0)
    as (_ & (l' & st' & h' & Hrun & Hh' & Hne & Hz & Hu & _) & _).
  - vm_compute. reflexivity.
  - vm_compute. reflexivity.
  - vm_compute. reflexivity.
  - vm_compute. discriminate.
  - exists l', st', h'. repeat split; assumption.
Defined.

Lemma WithComponent_resolves_witness :
  exists (l' : nat) (st' : State) (h' : ZapLogger.t),
    @ZapLogger_WithComponent env 1 "a.b" st_ab = Some (Zap l', st') /\
    slot (zaploggers st') l' = Some h' /\
    ZapLogger.component h' = "a.b" /\
    slot (atomics st') (ZapLogger.level h') = Some zapcore.WarnLevel.
Proof.
  destruct (@WithComponent_resolves env st_ab 1 h_first log_console log_console
              (sharedConfig.mk 1 ∅ conf_ab) "a.b" 0)
    as (l' & st' & h' & cfg' & Hrun & Hh' & _ & Hcomp & _ & Hlevel & _);
    try (vm_compute; reflexivity).
  exists l', st', h'. repeat split; assumption.
Defined.

Lemma WithComponent_shares_cell_witness :
  exists (l' : nat) (st' : State) (h' : ZapLogger.t),
    @ZapLogger_WithComponent env 1 "svc" st_svc = Some (Zap l', st') /\
    slot (zaploggers st') l' = Some h' /\
    ZapLogger.level h' = 3%nat /\
    atomics st' = atomics st_svc.
Proof.
  destruct (@WithComponent_shares_cell env st_svc 1 h_first log_console log_console
              cfg_svc "svc" 3)
    as (l' & st' & h' & Hrun & Hh' & _ & Hlevel & Hat & _);
    try (vm_compute; reflexivity).
  exists l', st', h'. repeat split; assumption.
Defined.

Lemma WithItemSampler_one_sampler_witness :
  exists (l1 : nat) (st1 : State) (h1 : ZapLogger.t),
    ZapLogger_WithItemSampler 1 st_sampled = Some (Zap l1, st1) /\
    slot (zaploggers st1) l1 = Some h1 /\
    slot (sugars st1) (ZapLogger.zap h1)
    = Some (zap.mkLogger (zapcore.sampler (zapcore.ioCore "json" []) 1000000000 0 0) "" 0).
Proof.
  destruct (WithItemSampler_one_sampler st_sampled 1 h_sampled log_json)
    as (l1 & st1 & h1 & Hrun & _ & Hh1 & _ & _ & Hz & _).
  - vm_compute. reflexivity.
  - vm_compute. discriminate.
  - vm_compute. reflexivity.
  - exists l1, st1, h1. repeat split; assumption.
Defined.

Lemma WithoutSampler_idempotent_witness :
  exists (l1 : nat) (st1 : State),
    ZapLogger_WithoutSampler 1 st_sampled = Some (Zap l1, st1) /\
    ZapLogger_WithoutSampler l1 st1 = Some (Zap l1, st1).
Proof.
  destruct (WithoutSampler_idempotent st_sampled 1 h_sampled)
    as (l1 & st1 & h1 & Hrun & _ & _ & _ & _ & Hagain).
  - vm_compute. reflexivity.
  - exists l1, st1. split; assumption.
Defined.

Lemma NewZapLogger_item_window_witness :
  exists (l : nat) (st' : State) (h : ZapLogger.t),
    @NewZapLogger env conf_sampled initial = Some ((l, None), st') /\
    slot (zaploggers st') l = Some h /\
    ZapLogger.SampleDuration h = 1000000000.
Proof.
  destruct (@NewZapLogger_item_window env initial conf_sampled log_json eq_refl)
    as (l & st' & h & Hrun & Hh & _ & Hexact & _).
  exists l, st', h. split; [exact Hrun|]. split; [exact Hh|].
  apply Hexact. vm_compute. split; discriminate.
Defined.

Lemma logging_call_gated_witness :
  exists st' : State,
    ZapLogger_call 1 (CallInfow "123" []) st_warn = Some (tt, st') /\
    written st' = [].
Proof.
  destruct (logging_call_gated st_warn 1 h_first log_console zapcore.WarnLevel
              (CallInfow "123" []))
    as (st' & Hrun & _ & Hw); try (vm_compute; reflexivity).
  exists st'. split; [exact Hrun | exact Hw].
Defined.

Lemma package_calls_before_init_witness :
  pkg_call (CallWarnw "warn" None [AString "k1"; AString "v1"]) initial = Some (tt, initial).
Proof.
  apply (package_calls_before_init initial discardLogger); reflexivity.
Defined.

Lemma InitL_before_init_witness :
  exists z : zl, InitL initial = Some (z, initial) /\ zl_GetLogger z = LogR discardLogger.
Proof.
  destruct (InitL_before_init initial discardLogger eq_refl eq_refl) as (z & Hrun & Hz & _).
  exists z. split; assumption.
Defined.

Lemma InitLogConfig_then_package_call_witness :
  exists (st1 st2 : State) (e : Entry),
    @InitLogConfig env conf_main "OpsLink" initial = Some (tt, st1) /\
    pkg_call (CallInfow "123" []) st1 = Some (tt, st2) /\
    written st2 = [e].
Proof.
  destruct (@InitLogConfig_then_package_call env initial conf_main "OpsLink" log_console
              (CallInfow "123" []) eq_refl)
    as (st1 & st2 & sk & Hinit & Hw1 & _ & Hcall & _ & Hw2).
  eexists st1, st2, _. split; [exact Hinit|]. split; [exact Hcall|].
  rewrite Hw2, Hw1. reflexivity.
Defined.

Lemma LoggerWithParticipant_pairs_witness :
  exists (l' : nat) (st' : State) (log' : zap.Logger),
    LoggerWithParticipant (Zap 1) "1" "" true st_main = Some (Zap l', st') /\
    sink_of st' l' = Some log' /\
    zapcore.bound (zap.core log')
    = [AString "participant"; AString "1"; AString "remote"; ABool true].
Proof.
  destruct (LoggerWithParticipant_pairs st_main 1 h_first log_console log_console "1" "" true)
    as (l' & st' & log' & pairs & Hrun & Hsink & _); try (vm_compute; reflexivity).
  exists l', st', log'. split; [exact Hrun|]. split; [exact Hsink|].
  vm_compute in Hrun. injection Hrun as <- <-.
  vm_compute in Hsink. injection Hsink as <-. reflexivity.
Defined.

Lemma unusable_level_is_Info_witness :
  exists (l : nat) (st' : State),
    @NewZapLogger env conf_nolevel initial = Some ((l, None), st') /\
    ZapLogger_Debugw l "123" [] st' = Some (tt, st').
Proof.
  destruct (@unusable_level_is_Info env initial conf_nolevel log_console "123" [] eq_refl)
    as (l & st' & Hrun & Hdebug & _).
  - left. reflexivity.
  - exists l, st'. split; assumption.
Defined.
